(** * EyeShield EMR: the patient-record store, its table view, search,
      CSV export and dashboard statistics

    A shallow embedding of [patient_records.py] (class [PatientRecordsPage]),
    of [EyeShieldApp.refresh_dashboard] in [dashboard.py] and of
    [ScreeningPage.save_screening] / [update_age_from_dob] in [screening.py],
    followed by the properties of the record store stated against it.

    Conventions.
    - Python [str] is [string]; a character is a code point below 256.
    - A record ([patient_data]) is a Python list of values: [list PyVal].
    - The objects of the application (the sqlite table, standard output,
      the widgets) are the fields of one state record [App]; a method is a
      computation in a small state-and-exception monad [M]. *)

From Stdlib Require Import String Ascii List ZArith Lia Bool DecimalString
  DecimalPos.
Import ListNotations.
Local Open Scope string_scope.
Local Open Scope list_scope.
Local Open Scope nat_scope.

(* ================================================================== *)
(** ** Python strings and values *)
(* ================================================================== *)

Module Py.

(** [str.isspace] on one character, for code points below 256:
    TAB..CR, FS..US, SPACE, NEL and NBSP. *)
Definition isspace (c : ascii) : bool :=
  let n := nat_of_ascii c in
  ((9 <=? n) && (n <=? 13)) || ((28 <=? n) && (n <=? 32))
  || (n =? 133) || (n =? 160).

(** [str.lower] on one character: A..Z, and the Latin-1 capitals
    U+00C0..U+00DE except the multiplication sign U+00D7. *)
Definition lower_char (c : ascii) : ascii :=
  let n := nat_of_ascii c in
  if ((65 <=? n) && (n <=? 90))
     || ((192 <=? n) && (n <=? 222) && negb (n =? 215))
  then ascii_of_nat (n + 32) else c.

(** [s.lower()].  On code points below 256 [str.lower] maps each character
    by itself; beyond them it does not (a capital sigma is lowered by its
    place in the word). *)
Fixpoint lower (s : string) : string :=
  match s with
  | EmptyString => EmptyString
  | String c s' => String (lower_char c) (lower s')
  end.

Fixpoint lstrip (s : string) : string :=
  match s with
  | EmptyString => EmptyString
  | String c s' => if isspace c then lstrip s' else s
  end.

Fixpoint rstrip (s : string) : string :=
  match s with
  | EmptyString => EmptyString
  | String c s' =>
      match rstrip s' with
      | EmptyString => if isspace c then EmptyString else String c EmptyString
      | r => String c r
      end
  end.

(** [s.strip()] *)
Definition strip (s : string) : string := rstrip (lstrip s).

(** [s.startswith(p)] *)
Fixpoint startswith (p s : string) : bool :=
  match p, s with
  | EmptyString, _ => true
  | String _ _, EmptyString => false
  | String a p', String b s' => Ascii.eqb a b && startswith p' s'
  end.

(** [needle in hay] for two strings *)
Fixpoint contains (needle hay : string) : bool :=
  startswith needle hay ||
  match hay with
  | EmptyString => false
  | String _ hay' => contains needle hay'
  end.

Definition is_empty (s : string) : bool :=
  match s with EmptyString => true | _ => false end.

(** [s or d] for a string [s]: the empty string is falsy. *)
Definition or_else (s d : string) : string :=
  if is_empty s then d else s.

(** [str(n)] for an [int] *)
Definition str_of_int (z : Z) : string :=
  NilZero.string_of_int (Z.to_int z).

(** The values that occur as fields of a record: [None] (an SQL NULL read
    back from the table), [int] and [str]. *)
Inductive PyVal : Type :=
| PNone
| PInt (z : Z)
| PStr (s : string).

(** [str(v)] *)
Definition str (v : PyVal) : string :=
  match v with
  | PNone => "None"
  | PInt z => str_of_int z
  | PStr s => s
  end.

Definition is_none (v : PyVal) : bool :=
  match v with PNone => true | _ => false end.

End Py.
Import Py.

(** A record as the store holds it: the list [patient_data].  The view
    keeps the very list object the caller built; neither the caller nor any
    method of the page writes into it afterwards (sqlite, the table and the
    csv writer only read it), so records are held by value. *)
Definition Row : Type := list PyVal.

(* ================================================================== *)
(** ** The durable table [patient_records] *)
(* ================================================================== *)

(** The sqlite file holds the table's declaration and its rows.  The
    [CREATE TABLE] statement is issued by [auth.init_db], which is not among
    the sources, so the effect of a column's declared type on a bound value
    (SQLite's type affinity) is carried as [column_store]: column index and
    bound value to stored value.  Rows are kept in rowid order, the order in
    which a [SELECT] without [ORDER BY] scans them. *)
Record Database : Type := {
  column_store : nat -> PyVal -> PyVal;
  rows : list Row
}.

(** Outcome of the file-level work of one sqlite call (connect, execute,
    commit, close), which the program does not control. *)
Inductive io : Type :=
| io_ok
| io_error (msg : string).

Fixpoint store_from (f : nat -> PyVal -> PyVal) (i : nat) (r : Row) : Row :=
  match r with
  | [] => []
  | v :: r' => f i v :: store_from f (S i) r'
  end.

(** The row as the table keeps it. *)
Definition store_row (d : Database) (r : Row) : Row :=
  store_from (column_store d) 0 r.

(** sqlite3 binds [None], [str] and those [int] that fit 64 signed bits. *)
Definition bindable (v : PyVal) : bool :=
  match v with
  | PInt z => ((- 2 ^ 63 <=? z) && (z <? 2 ^ 63))%Z
  | _ => true
  end.

(** Number of [?] placeholders of the INSERT statement. *)
Definition n_columns : nat := 14.

(** [cur.execute("INSERT INTO patient_records (...) VALUES (?, ..., ?)",
    patient_data); conn.commit()]: the error text, or the table with the row
    appended. *)
Definition sql_insert (o : io) (patient_data : Row) (d : Database)
  : string + Database :=
  match o with
  | io_error msg => inl msg
  | io_ok =>
      if negb (length patient_data =? n_columns) then
        inl ("Incorrect number of bindings supplied. The current statement uses 14, and there are "
             ++ str_of_int (Z.of_nat (length patient_data)) ++ " supplied.")%string
      else if negb (forallb bindable patient_data) then
        inl "Python int too large to convert to SQLite INTEGER"
      else
        inr {| column_store := column_store d;
               rows := rows d ++ [store_row d patient_data] |}
  end.

(** [cur.execute("SELECT patient_id, ..., confidence FROM patient_records");
    cur.fetchall()] *)
Definition sql_select_all (o : io) (d : Database) : string + list Row :=
  match o with
  | io_error msg => inl msg
  | io_ok => inr (rows d)
  end.

(* ================================================================== *)
(** ** Application state *)
(* ================================================================== *)

(** The four stat cards and the recent-activity label of the dashboard.
    [recent_activity] keeps the lines of the label as (patient id, name,
    result) triples, newest first; the label joins the three texts of a line
    with dashes, and shows a placeholder sentence for the empty list. *)
Record Dashboard : Type := {
  stat_today_value : string;
  stat_total_value : string;
  stat_images_value : string;
  stat_dr_value : string;
  recent_activity : list (string * string * string)
}.

Record App : Type := {
  db : Database;                       (* the file DB_FILE *)
  files : list (string * string);      (* other files: path, contents *)
  stdout : list string;                (* lines written by print *)
  dialogs : list (string * string);    (* QMessageBox title and text *)
  all_records : list Row;              (* PatientRecordsPage._all_records *)
  patient_table : list (list string);  (* cell texts of patient_table, by row *)
  parent_app : bool;                   (* PatientRecordsPage.parent_app is set *)
  dashboard : Dashboard
}.

Definition set_db (d : Database) (a : App) : App :=
  {| db := d; files := files a; stdout := stdout a; dialogs := dialogs a;
     all_records := all_records a; patient_table := patient_table a;
     parent_app := parent_app a; dashboard := dashboard a |}.

Definition set_files (f : list (string * string)) (a : App) : App :=
  {| db := db a; files := f; stdout := stdout a; dialogs := dialogs a;
     all_records := all_records a; patient_table := patient_table a;
     parent_app := parent_app a; dashboard := dashboard a |}.

Definition set_stdout (o : list string) (a : App) : App :=
  {| db := db a; files := files a; stdout := o; dialogs := dialogs a;
     all_records := all_records a; patient_table := patient_table a;
     parent_app := parent_app a; dashboard := dashboard a |}.

Definition set_dialogs (g : list (string * string)) (a : App) : App :=
  {| db := db a; files := files a; stdout := stdout a; dialogs := g;
     all_records := all_records a; patient_table := patient_table a;
     parent_app := parent_app a; dashboard := dashboard a |}.

Definition set_all_records (l : list Row) (a : App) : App :=
  {| db := db a; files := files a; stdout := stdout a; dialogs := dialogs a;
     all_records := l; patient_table := patient_table a;
     parent_app := parent_app a; dashboard := dashboard a |}.

Definition set_patient_table (t : list (list string)) (a : App) : App :=
  {| db := db a; files := files a; stdout := stdout a; dialogs := dialogs a;
     all_records := all_records a; patient_table := t;
     parent_app := parent_app a; dashboard := dashboard a |}.

Definition set_parent_app (b : bool) (a : App) : App :=
  {| db := db a; files := files a; stdout := stdout a; dialogs := dialogs a;
     all_records := all_records a; patient_table := patient_table a;
     parent_app := b; dashboard := dashboard a |}.

Definition set_dashboard (d : Dashboard) (a : App) : App :=
  {| db := db a; files := files a; stdout := stdout a; dialogs := dialogs a;
     all_records := all_records a; patient_table := patient_table a;
     parent_app := parent_app a; dashboard := d |}.

(* ================================================================== *)
(** ** Methods as computations: state and exceptions *)
(* ================================================================== *)

(** How a call ends: it returns a value, or an exception (its text)
    propagates to the caller. *)
Inductive outcome (A : Type) : Type :=
| Returned (x : A)
| Raised (e : string).
Arguments Returned {A} x.
Arguments Raised {A} e.

(** Effects made before an exception is raised stay made. *)
Definition M (A : Type) : Type := App -> outcome A * App.

Definition ret {A} (x : A) : M A := fun a => (Returned x, a).

Definition bind {A B} (c : M A) (k : A -> M B) : M B :=
  fun a =>
    match c a with
    | (Returned x, a') => k x a'
    | (Raised e, a') => (Raised e, a')
    end.

Declare Scope py_scope.
Delimit Scope py_scope with py.
Notation "x <- c ;; k" := (bind c (fun x => k))
  (at level 61, c at next level, right associativity) : py_scope.
Notation "c ;; k" := (bind c (fun _ => k))
  (at level 61, right associativity) : py_scope.
Local Open Scope py_scope.

Definition raise {A} (e : string) : M A := fun a => (Raised e, a).
Definition get : M App := fun a => (Returned a, a).
Definition modify (f : App -> App) : M unit := fun a => (Returned tt, f a).

(** [try: body  except Exception as e: handler(e)] *)
Definition try_except {A} (body : M A) (handler : string -> M A) : M A :=
  fun a =>
    match body a with
    | (Returned x, a') => (Returned x, a')
    | (Raised e, a') => handler e a'
    end.

(** [for x in l: body(x)] *)
Fixpoint for_each {A} (l : list A) (body : A -> M unit) : M unit :=
  match l with
  | [] => ret tt
  | x :: l' => body x ;; for_each l' body
  end.

(** Take an [inl] as a raised exception. *)
Definition lift {A} (r : string + A) : M A :=
  match r with
  | inl e => raise e
  | inr x => ret x
  end.

(** The state a computation leaves, and how it ended. *)
Definition exec {A} (c : M A) (a : App) : App := snd (c a).
Definition result {A} (c : M A) (a : App) : outcome A := fst (c a).

Definition print (line : string) : M unit :=
  modify (fun a => set_stdout (stdout a ++ [line]) a).

Definition message_box (title text : string) : M unit :=
  modify (fun a => set_dialogs (dialogs a ++ [(title, text)]) a).

(* ================================================================== *)
(** ** dashboard.py: [EyeShieldApp.refresh_dashboard] *)
(* ================================================================== *)

(** [table.item(r, c)]: [None] outside the table and for a cell never set. *)
Definition table_item (table : list (list string)) (r : Z) (c : nat)
  : option string :=
  if (r <? 0)%Z then None
  else match nth_error table (Z.to_nat r) with
       | Some cells => nth_error cells c
       | None => None
       end.

(** [item.text() if item else ""] *)
Definition text_or_empty (item : option string) : string :=
  match item with
  | Some t => t
  | None => ""
  end.

(** [range(start, stop, -1)] *)
Definition range_down (start stop : Z) : list Z :=
  map (fun k => (start - Z.of_nat k)%Z) (seq 0 (Z.to_nat (start - stop))).

(** Column of the result in the table. *)
Definition results_idx : nat := 12.

(** The loop [for r in range(total): if item and 'dr' in item.text().lower():
    dr_count += 1]. *)
Definition count_dr (table : list (list string)) (total : nat) : nat :=
  fold_left
    (fun dr_count r =>
       match table_item table (Z.of_nat r) results_idx with
       | Some text => if contains "dr" (lower text) then dr_count + 1
                      else dr_count
       | None => dr_count
       end)
    (seq 0 total) 0.

(** The loop [for r in range(total - 1, max(-1, total - 6), -1)]. *)
Definition recent_lines (table : list (list string)) (total : nat)
  : list (string * string * string) :=
  map (fun r =>
         (text_or_empty (table_item table r 0),
          text_or_empty (table_item table r 1),
          text_or_empty (table_item table r results_idx)))
      (range_down (Z.of_nat total - 1) (Z.max (-1) (Z.of_nat total - 6))).

Definition refresh_dashboard : M unit :=
  try_except
    (a <- get ;;
     let table := patient_table a in
     let total := length table in
     let todays := total in
     let dr_count := count_dr table total in
     let images := total in
     modify (set_dashboard
       {| stat_today_value := str_of_int (Z.of_nat todays);
          stat_total_value := str_of_int (Z.of_nat total);
          stat_images_value := str_of_int (Z.of_nat images);
          stat_dr_value := str_of_int (Z.of_nat dr_count);
          recent_activity := recent_lines table total |}))
    (fun _ => ret tt).

(* ================================================================== *)
(** ** patient_records.py: [PatientRecordsPage] *)
(* ================================================================== *)

(** [any(filter_text in str(val).strip().lower()
         for val in patient_data if val is not None)], behind the test for
    an empty search text. *)
Definition show (filter_text : string) (patient_data : Row) : bool :=
  if is_empty filter_text then true
  else existsb (fun val => contains filter_text (lower (strip (str val))))
               (filter (fun val => negb (is_none val)) patient_data).

(** The cells [setItem(row, col, QTableWidgetItem(str(value)))] sets for one
    record; the table has 14 columns and ignores a cell beyond them. *)
Definition table_cells (patient_data : Row) : list string :=
  firstn n_columns (map str patient_data).

Definition _refresh_table (filter_text : string) : M unit :=
  modify (set_patient_table []) ;;
  a <- get ;;
  let records := all_records a in
  let filter_text := lower (strip (or_else filter_text "")) in
  for_each records (fun patient_data =>
    if negb (show filter_text patient_data) then ret tt
    else modify (fun a =>
           set_patient_table (patient_table a ++ [table_cells patient_data]) a)) ;;
  try_except
    (a <- get ;;
     if parent_app a then refresh_dashboard else ret tt)
    (fun _ => ret tt).

Definition filter_table (text : string) : M unit := _refresh_table text.

Definition save_record_to_db (o : io) (patient_data : Row) : M unit :=
  try_except
    (a <- get ;;
     d <- lift (sql_insert o patient_data (db a)) ;;
     modify (set_db d))
    (fun e => print ("Failed to save patient record: " ++ e)%string).

Definition add_patient_record (o : io) (patient_data : Row) : M unit :=
  modify (fun a => set_all_records (all_records a ++ [patient_data]) a) ;;
  save_record_to_db o patient_data ;;
  _refresh_table "".

Definition load_records_from_db (o : io) : M unit :=
  try_except
    (a <- get ;;
     rows <- lift (sql_select_all o (db a)) ;;
     modify (set_all_records (map (fun row => row) rows)) ;;
     _refresh_table "")
    (fun e => print ("Failed to load patient records: " ++ e)%string).

(** [PatientRecordsPage.__init__], on the state a process starts in. *)
Definition new_page (o : io) : M unit :=
  modify (set_all_records []) ;;
  load_records_from_db o.

(** The state of a process before any page exists, given the files. *)
Definition process_start (d : Database) (f : list (string * string)) : App :=
  {| db := d; files := f; stdout := []; dialogs := [];
     all_records := []; patient_table := []; parent_app := false;
     dashboard := {| stat_today_value := "0"; stat_total_value := "0";
                     stat_images_value := "0"; stat_dr_value := "0";
                     recent_activity := [] |} |}.

(** [EyeShieldApp.__init__]: the records page is built (and loads), then
    the dashboard page, then the page gets its [parent_app]. *)
Definition new_app (o : io) : M unit :=
  new_page o ;;
  modify (set_parent_app true).

(** *** CSV export *)

Definition header_labels : list string :=
  ["Patient ID"; "Name"; "Birthdate"; "Age"; "Sex"; "Contact"; "Eye(s)";
   "Diabetes Type"; "Duration (yrs)"; "HbA1c"; "Prev Treatment"; "Notes";
   "Result"; "Confidence"].

Module Csv.

Definition comma : ascii := ",".
Definition quote : ascii := "034".
Definition CR : ascii := "013".
Definition LF : ascii := "010".

(** The text a [csv.writer] writes for a value: [None] is the empty
    string, a string is itself, anything else goes through [str]. *)
Definition text (v : PyVal) : string :=
  match v with
  | PNone => ""
  | PStr s => s
  | PInt z => str_of_int z
  end.

(** A character that forces quotes under [QUOTE_MINIMAL]: the delimiter,
    the quote character, or a character of the line terminator. *)
Definition special (c : ascii) : bool :=
  Ascii.eqb c comma || Ascii.eqb c quote || Ascii.eqb c CR || Ascii.eqb c LF.

Fixpoint needs_quotes (s : string) : bool :=
  match s with
  | EmptyString => false
  | String c s' => special c || needs_quotes s'
  end.

(** [doublequote=True]: a quote character inside a field is written
    twice. *)
Fixpoint escape (s : string) : string :=
  match s with
  | EmptyString => EmptyString
  | String c s' =>
      if Ascii.eqb c quote then String quote (String quote (escape s'))
      else String c (escape s')
  end.

Definition field (s : string) : string :=
  if needs_quotes s then String quote (escape s ++ String quote "")
  else s.

Fixpoint join (fields : list string) : string :=
  match fields with
  | [] => ""
  | [f] => field f
  | f :: rest => field f ++ String comma (join rest)
  end.

Definition lineterminator : string := String CR (String LF "").

(** [writer.writerow(row)] in the default ("excel") dialect; a row made of
    one empty field is written as a pair of quotes. *)
Definition writerow_text (fields : list string) : string :=
  let line := join fields in
  (if is_empty line && negb (length fields =? 0)
   then String quote (String quote "") else line) ++ lineterminator.

Definition writerow (row : Row) : string := writerow_text (map text row).

End Csv.

(** The text written between [open] and the end of the [with] block. *)
Definition export_text (records : list Row) : string :=
  fold_left (fun f row => f ++ Csv.writerow row)%string records
            (Csv.writerow_text header_labels).

(** [export_to_csv]; [path] is what the save dialog returned (empty when
    the user cancelled), [o] the outcome of [open(path, 'w')]: when it
    fails, no file is touched; when it succeeds, every row is written.  A
    write that fails after the file was opened is the matter of
    [export_to_csv_file] below. *)
Definition export_to_csv (path : string) (o : io) : M unit :=
  if is_empty path then ret tt
  else
    a <- get ;;
    let records := all_records a in
    try_except
      (match o with
       | io_error msg => raise msg
       | io_ok => modify (fun a => set_files ((path, export_text records) :: files a) a)
       end ;;
       message_box "Exported" ("Patient records exported to " ++ path)%string)
      (fun e => message_box "Error" ("Failed to export: " ++ e)%string).

(* ================================================================== *)
(** ** screening.py: [ScreeningPage] *)
(* ================================================================== *)

Record QDate : Type := { year : Z; month : Z; day : Z }.

Definition QDate_eqb (a b : QDate) : bool :=
  ((year a =? year b) && (month a =? month b) && (day a =? day b))%Z.

(** [self.p_dob.minimumDate()], set to [QDate(2000, 1, 1)]; it stands for
    "no date entered". *)
Definition minimumDate : QDate := {| year := 2000; month := 1; day := 1 |}.

(** A non-negative number written with at least [width] digits. *)
Definition zero_padded (width : nat) (z : Z) : string :=
  let digits := str_of_int z in
  (string_of_list_ascii (repeat "0"%char (width - String.length digits))
   ++ digits)%string.

(** [date.toString("yyyy-MM-dd")] *)
Definition toString_yyyy_MM_dd (d : QDate) : string :=
  (zero_padded 4 (year d) ++ "-" ++ zero_padded 2 (month d) ++ "-"
   ++ zero_padded 2 (day d))%string.

(** The widgets [save_screening] reads.  [hba1c] is a [QDoubleSpinBox] with
    one decimal; its value is kept as a number of tenths. *)
Record Form : Type := {
  p_id : string;
  p_name : string;
  p_dob : QDate;
  p_age : Z;
  p_sex : string;              (* currentText of the combo box *)
  p_contact : string;
  p_eye : string;
  diabetes_type : string;
  diabetes_duration : Z;
  hba1c : Z;
  prev_treatment : bool;       (* isChecked *)
  notes : string;
  r_class : string;
  r_conf : string
}.

Definition set_p_age (v : Z) (f : Form) : Form :=
  {| p_id := p_id f; p_name := p_name f; p_dob := p_dob f; p_age := v;
     p_sex := p_sex f; p_contact := p_contact f; p_eye := p_eye f;
     diabetes_type := diabetes_type f;
     diabetes_duration := diabetes_duration f; hba1c := hba1c f;
     prev_treatment := prev_treatment f; notes := notes f;
     r_class := r_class f; r_conf := r_conf f |}.

Definition set_p_dob (d : QDate) (f : Form) : Form :=
  {| p_id := p_id f; p_name := p_name f; p_dob := d; p_age := p_age f;
     p_sex := p_sex f; p_contact := p_contact f; p_eye := p_eye f;
     diabetes_type := diabetes_type f;
     diabetes_duration := diabetes_duration f; hba1c := hba1c f;
     prev_treatment := prev_treatment f; notes := notes f;
     r_class := r_class f; r_conf := r_conf f |}.

(** [QSpinBox.setValue] keeps the value inside the range of the box;
    [p_age] has [setRange(0, 120)]. *)
Definition clamp (lo hi v : Z) : Z := Z.max lo (Z.min hi v).

(** [(today.month(), today.day()) < (date.month(), date.day())] *)
Definition month_day_before (today date : QDate) : bool :=
  ((month today <? month date)
   || ((month today =? month date) && (day today <? day date)))%Z.

(** Slot of [p_dob.dateChanged]; [today] is [QDate.currentDate()]. *)
Definition update_age_from_dob (today date : QDate) (f : Form) : Form :=
  if QDate_eqb date minimumDate then set_p_age (clamp 0 120 0) f
  else
    let age := (year today - year date)%Z in
    let age := if month_day_before today date then (age - 1)%Z else age in
    set_p_age (clamp 0 120 (Z.max 0 age)) f.

(** The user picks [date] in the date box: the date is set and the slot
    runs. *)
Definition pick_dob (today date : QDate) (f : Form) : Form :=
  update_age_from_dob today date (set_p_dob date f).

(** [f"{value:.1f}%"] for a value of [tenths] tenths. *)
Definition format_1f_percent (tenths : Z) : string :=
  ((if (tenths <? 0)%Z then "-" else "")
   ++ str_of_int (Z.abs tenths / 10) ++ "."
   ++ str_of_int (Z.abs tenths mod 10) ++ "%")%string.

(** The list [patient_data] built by [save_screening]. *)
Definition patient_data_of (f : Form) : Row :=
  let name := strip (p_name f) in
  let pid := p_id f in
  let dob_str :=
    if QDate_eqb (p_dob f) minimumDate then ""
    else toString_yyyy_MM_dd (p_dob f) in
  let age := p_age f in
  let sex := p_sex f in
  let contact := strip (p_contact f) in
  let eye := p_eye f in
  let diabetes_type := diabetes_type f in
  let duration := diabetes_duration f in
  let hba1c := format_1f_percent (hba1c f) in
  let prev_treatment := if prev_treatment f then "Yes" else "No" in
  let notes := strip (notes f) in
  let result := r_class f in
  let confidence := r_conf f in
  [ PStr pid;
    PStr name;
    PStr dob_str;
    if (age >? 0)%Z then PInt age else PStr "";
    PStr sex;
    PStr contact;
    PStr eye;
    PStr (if String.eqb diabetes_type "Select" then "" else diabetes_type);
    PInt duration;
    PStr hba1c;
    PStr prev_treatment;
    PStr notes;
    PStr result;
    PStr confidence ].

(** The record [save_screening] hands to the store, if any: none when the
    name is blank. *)
Definition handed_over (f : Form) : option Row :=
  if is_empty (strip (p_name f)) then None else Some (patient_data_of f).

(** [save_screening], up to the reset of the form.  The screening page of
    the running application always has its [patient_records_page]. *)
Definition save_screening (o : io) (f : Form) : M unit :=
  let name := strip (p_name f) in
  if is_empty name then message_box "Error" "Patient name required"
  else
    try_except
      (add_patient_record o (patient_data_of f))
      (fun e => message_box "Warning"
                  ("Saved but failed to update Patient Records: " ++ e)%string) ;;
    message_box "Saved" ("Screening record for " ++ name ++ " saved.")%string.

(** The ranges and item lists the widgets are built with. *)
Definition form_ok (f : Form) : bool :=
  ((0 <=? p_age f) && (p_age f <=? 120)
   && (0 <=? diabetes_duration f) && (diabetes_duration f <=? 80)
   && (40 <=? hba1c f) && (hba1c f <=? 150))%Z
  && existsb (String.eqb (p_sex f)) [""; "Male"; "Female"; "Other"]
  && existsb (String.eqb (p_eye f)) [""; "Both Eyes"; "Left Eye"; "Right Eye"]
  && existsb (String.eqb (diabetes_type f))
             ["Select"; "Type 1"; "Type 2"; "Gestational"; "Other"].

(* ================================================================== *)
(** ** The user's actions on the running application *)
(* ================================================================== *)

Inductive action : Type :=
| Save (o : io) (f : Form)               (* "Save Screening" *)
| Search (text : string)                 (* typing in the search box *)
| Export (path : string) (o : io).       (* "Export to CSV" *)

Definition perform (act : action) : M unit :=
  match act with
  | Save o f => save_screening o f
  | Search text => filter_table text
  | Export path o => export_to_csv path o
  end.

Definition session (acts : list action) : M unit := for_each acts perform.

(** The records the actions hand to the store, in order. *)
Definition handed_over_by (acts : list action) : list Row :=
  flat_map (fun act =>
              match act with
              | Save _ f => match handed_over f with
                            | Some r => [r]
                            | None => []
                            end
              | _ => []
              end) acts.

(* ================================================================== *)
(** ** Reading the exported text back *)
(* ================================================================== *)

(** The reader of the same dialect ([csv.reader] on the file opened with
    [newline='']): the parser states of the [csv] module, run over the
    characters of the text.  The reader is fed the text line by line and
    closes a record at the end of a line unless a quoted field is open;
    here the record is closed at the newline character itself, and
    [EAT_CRNL] swallows the LF of a CR LF pair. *)
Module CsvReader.

Import Csv.

Inductive state : Type :=
| START_RECORD
| START_FIELD
| IN_FIELD
| IN_QUOTED_FIELD
| QUOTE_IN_QUOTED_FIELD
| EAT_CRNL.

Record reader : Type := {
  st : state;
  cur : string;                    (* the field being read *)
  fields : list string;            (* fields of the record being read *)
  records : list (list string)     (* records read so far *)
}.

Definition initial : reader :=
  {| st := START_RECORD; cur := ""; fields := []; records := [] |}.

Definition set_st (s : state) (r : reader) : reader :=
  {| st := s; cur := cur r; fields := fields r; records := records r |}.

Definition add_char (c : ascii) (r : reader) : reader :=
  {| st := st r; cur := (cur r ++ String c "")%string; fields := fields r;
     records := records r |}.

Definition save_field (r : reader) : reader :=
  {| st := st r; cur := ""; fields := fields r ++ [cur r];
     records := records r |}.

Definition is_newline (c : ascii) : bool := Ascii.eqb c CR || Ascii.eqb c LF.

(** The record is complete; after a CR a following LF belongs to it. *)
Definition end_record (c : ascii) (r : reader) : reader :=
  {| st := if Ascii.eqb c CR then EAT_CRNL else START_RECORD;
     cur := ""; fields := []; records := records r ++ [fields r] |}.

Definition start_field (r : reader) (c : ascii) : reader :=
  if is_newline c then end_record c (save_field r)
  else if Ascii.eqb c quote then set_st IN_QUOTED_FIELD r
  else if Ascii.eqb c comma then set_st START_FIELD (save_field r)
  else add_char c (set_st IN_FIELD r).

Definition start_record (r : reader) (c : ascii) : reader :=
  if is_newline c then end_record c r else start_field r c.

Definition process_char (r : reader) (c : ascii) : reader :=
  match st r with
  | START_RECORD => start_record r c
  | START_FIELD => start_field r c
  | IN_FIELD =>
      if is_newline c then end_record c (save_field r)
      else if Ascii.eqb c comma then set_st START_FIELD (save_field r)
      else add_char c r
  | IN_QUOTED_FIELD =>
      if Ascii.eqb c quote then set_st QUOTE_IN_QUOTED_FIELD r
      else add_char c r
  | QUOTE_IN_QUOTED_FIELD =>
      if Ascii.eqb c quote then add_char c (set_st IN_QUOTED_FIELD r)
      else if Ascii.eqb c comma then set_st START_FIELD (save_field r)
      else if is_newline c then end_record c (save_field r)
      else add_char c (set_st IN_FIELD r)
  | EAT_CRNL =>
      if Ascii.eqb c LF then set_st START_RECORD r else start_record r c
  end.

Fixpoint feed (r : reader) (s : string) : reader :=
  match s with
  | EmptyString => r
  | String c s' => feed (process_char r c) s'
  end.

(** End of the text: a last line without terminator is a record too. *)
Definition finish (r : reader) : list (list string) :=
  match st r with
  | START_RECORD | EAT_CRNL => records r
  | _ => records r ++ [fields r ++ [cur r]]
  end.

Definition read (s : string) : list (list string) := finish (feed initial s).

End CsvReader.

(* ================================================================== *)
(** ** The specification's wording, for comparison *)
(* ================================================================== *)

Module Spec.

(** Field names of ScreeningRecord, in the declared order. *)
Definition field_names : list string :=
  ["patient_id"; "name"; "birthdate"; "age"; "sex"; "contact"; "eye";
   "diabetes_type"; "duration_years"; "hba1c"; "prev_treatment"; "notes";
   "result"; "confidence"].

(** The query, trimmed and case-folded, is a substring of the folded
    stringified value of some non-null field. *)
Definition matches (query : string) (r : Row) : bool :=
  existsb (fun v => negb (is_none v)
                    && contains (lower (strip query)) (lower (str v))) r.

(** [filter(query)]: every record for an empty or whitespace-only query,
    else the matching records, in the order of the view. *)
Definition filter (query : string) (view : list Row) : list Row :=
  if is_empty (strip query) then view else List.filter (matches query) view.

(** Serialisation of a record sequence under a header of field names. *)
Definition export (header : list string) (records : list Row) : string :=
  (Csv.writerow_text header
   ++ fold_right (fun r rest => Csv.writerow r ++ rest) "" records)%string.

(** The result marks a positive finding. *)
Definition positive (r : Row) : bool :=
  match nth_error r results_idx with
  | Some v => contains "dr" (lower (str v))
  | None => false
  end.

(** The last [n] of a sequence. *)
Definition last_n {A} (n : nat) (l : list A) : list A :=
  skipn (length l - n) l.

End Spec.

(** The records the table shows for a search text. *)
Definition shown (filter_text : string) (records : list Row) : list Row :=
  List.filter (show (lower (strip (or_else filter_text "")))) records.

(** The line of the recent-activity label for a record. *)
Definition activity_line (r : Row) : string * string * string :=
  (text_or_empty (nth_error (table_cells r) 0),
   text_or_empty (nth_error (table_cells r) 1),
   text_or_empty (nth_error (table_cells r) results_idx)).

(** The dashboard's values over a sequence of shown records. *)
Definition dashboard_of (l : list Row) : Dashboard :=
  let total := str_of_int (Z.of_nat (length l)) in
  {| stat_today_value := total;
     stat_total_value := total;
     stat_images_value := total;
     stat_dr_value := str_of_int (Z.of_nat (length (List.filter Spec.positive l)));
     recent_activity := map activity_line (rev (Spec.last_n 5 l)) |}.

(** A write that sqlite accepts. *)
Definition write_ok (o : io) (r : Row) : bool :=
  match o with
  | io_ok => (length r =? n_columns) && forallb bindable r
  | io_error _ => false
  end.

(** The record comes back from the table as it was bound. *)
Definition kept_by (d : Database) (r : Row) : Prop := store_row d r = r.

(* ================================================================== *)
(** ** Sample data: the two-record scenario *)
(* ================================================================== *)

Module Sample.

Definition jane : Row :=
  [PStr "ES-20250101-0001"; PStr "Jane Doe"; PStr "1980-02-03"; PInt 44;
   PStr "Female"; PStr "555-0100"; PStr "Both Eyes"; PStr "Type 2"; PInt 10;
   PStr "7.0%"; PStr "No"; PStr ""; PStr "No DR Detected";
   PStr "Confidence: 93.8%"].

Definition john : Row :=
  [PStr "ES-20250101-0002"; PStr "John Roe"; PStr "1975-11-20"; PInt 49;
   PStr "Male"; PStr "555-0101"; PStr "Left Eye"; PStr "Type 1"; PInt 20;
   PStr "8.5%"; PStr "Yes"; PStr "follow-up, 6 months"; PStr "Mild DR";
   PStr "Confidence: 93.8%"].

(** A table whose columns keep every bound value as it is (columns
    declared without a type). *)
Definition empty_db : Database :=
  {| column_store := fun _ v => v; rows := [] |}.

(** The application after start-up on an empty table. *)
Definition started : App := exec (new_app io_ok) (process_start empty_db []).

(** Both records appended. *)
Definition two_records : App :=
  exec (add_patient_record io_ok jane ;; add_patient_record io_ok john) started.

(** A record with a delimiter, a line break and quote characters inside a
    field. *)
Definition tricky : Row :=
  [PStr "ES-20250101-0003"; PStr "Roe, Richard"; PNone; PInt 61;
   PStr "Male"; PStr ""; PStr "Right Eye"; PStr "Type 2"; PInt 15;
   PStr "9.1%"; PStr "No";
   PStr ("first line" ++ String Csv.CR (String Csv.LF "said ")
         ++ String Csv.quote "ok" ++ String Csv.quote ", left");
   PStr "Moderate DR"; PStr "Confidence: 93.8%"].

Definition form : Form :=
  {| p_id := "ES-20250101-0001"; p_name := " Jane Doe ";
     p_dob := {| year := 2025; month := 1; day := 1 |}; p_age := 0;
     p_sex := "Female"; p_contact := "555-0100"; p_eye := "Both Eyes";
     diabetes_type := "Select"; diabetes_duration := 10; hba1c := 70;
     prev_treatment := false; notes := ""; r_class := "No DR Detected";
     r_conf := "Confidence: 93.8%" |}.

End Sample.

(** The dashboard values that [refresh_dashboard] reads off a table. *)
Definition table_stats (table : list (list string)) : Dashboard :=
  let total := length table in
  {| stat_today_value := str_of_int (Z.of_nat total);
     stat_total_value := str_of_int (Z.of_nat total);
     stat_images_value := str_of_int (Z.of_nat total);
     stat_dr_value := str_of_int (Z.of_nat (count_dr table total));
     recent_activity := recent_lines table total |}.

(** The state [_refresh_table] leaves. *)
Definition refreshed (filter_text : string) (a : App) : App :=
  let a1 := set_patient_table
              (map table_cells (shown filter_text (all_records a))) a in
  if parent_app a then set_dashboard (table_stats (patient_table a1)) a1
  else a1.

(** A number with one decimal followed by a percent sign: one or more
    digits, a point, one digit, [%]. *)
Definition is_digit (c : ascii) : bool :=
  let n := nat_of_ascii c in (48 <=? n) && (n <=? 57).

Definition point_digit_percent (s : string) : bool :=
  match s with
  | String p (String d rest) =>
      Ascii.eqb p "." && is_digit d && String.eqb rest "%"
  | _ => false
  end.

Fixpoint one_decimal_percent (s : string) : bool :=
  match s with
  | EmptyString => false
  | String c s' =>
      is_digit c && (point_digit_percent s' || one_decimal_percent s')
  end.

Fixpoint all_digits (s : string) : bool :=
  match s with
  | EmptyString => true
  | String c s' => is_digit c && all_digits s'
  end.

(** Reader states in which the field [f] read so far is complete as soon as
    a delimiter or a line end comes. *)
Definition closed (s : CsvReader.state) (f : string) : Prop :=
  s = CsvReader.IN_FIELD \/ s = CsvReader.QUOTE_IN_QUOTED_FIELD
  \/ (s = CsvReader.START_FIELD /\ f = "").

(** The text does not begin with a line end. *)
Definition starts_inside_line (s : string) : bool :=
  match s with
  | EmptyString => true
  | String c _ => negb (CsvReader.is_newline c)
  end.

(** Shapes of strings used in the statements about [strip]. *)
Fixpoint all_space (s : string) : bool :=
  match s with
  | EmptyString => true
  | String c s' => isspace c && all_space s'
  end.

Definition head_nonspace (s : string) : bool :=
  match s with
  | EmptyString => false
  | String c _ => negb (isspace c)
  end.

Fixpoint last_nonspace (s : string) : bool :=
  match s with
  | EmptyString => false
  | String c EmptyString => negb (isspace c)
  | String _ s' => last_nonspace s'
  end.

(* ================================================================== *)
(** ** Further notions used in the statements *)
(* ================================================================== *)

(** The records of the actions whose durable write goes through, in
    order. *)
Definition accepted_by (acts : list action) : list Row :=
  flat_map (fun act =>
              match act with
              | Save o f => match handed_over f with
                            | Some r => if write_ok o r then [r] else []
                            | None => []
                            end
              | _ => []
              end) acts.

(** Number of [Save] actions that hand a record over. *)
Definition saves_in (acts : list action) : nat :=
  length (handed_over_by acts).

(* ================================================================== *)
(** ** screening.py: the two-step workflow of [ScreeningPage] *)
(* ================================================================== *)

(** The text of the result labels before an analysis, the dash U+2014.  It
    lies outside the 8-bit characters and is written as its three UTF-8
    bytes; none of them is a space or a capital for [strip] and [lower],
    as the dash itself is not.  It stands for the dash as a whole: the
    properties below compare a text with it and never look inside it (a
    search for one of its three bytes would find it here and not in the
    program). *)
Definition placeholder : string :=
  String (ascii_of_nat 226) (String (ascii_of_nat 128)
    (String (ascii_of_nat 148) "")).

(** The page: the widgets of the form, the counter, the loaded image, the
    index of the stacked widget (0: patient information, 1: image
    analysis), the two buttons that get enabled and disabled, and the
    summary line of the second step.  The picture shown in [image_label]
    is left out. *)
Record ScreeningPage : Type := {
  form : Form;
  patient_counter : Z;
  current_image : option string;
  current_index : nat;
  btn_analyze : bool;         (* btn_analyze.isEnabled() *)
  btn_save : bool;            (* btn_save.isEnabled() *)
  summary_label : string
}.

Definition set_form (f : Form) (s : ScreeningPage) : ScreeningPage :=
  {| form := f; patient_counter := patient_counter s;
     current_image := current_image s; current_index := current_index s;
     btn_analyze := btn_analyze s; btn_save := btn_save s;
     summary_label := summary_label s |}.

Definition set_current_index (i : nat) (s : ScreeningPage) : ScreeningPage :=
  {| form := form s; patient_counter := patient_counter s;
     current_image := current_image s; current_index := i;
     btn_analyze := btn_analyze s; btn_save := btn_save s;
     summary_label := summary_label s |}.

Definition set_p_id (v : string) (f : Form) : Form :=
  {| p_id := v; p_name := p_name f; p_dob := p_dob f; p_age := p_age f;
     p_sex := p_sex f; p_contact := p_contact f; p_eye := p_eye f;
     diabetes_type := diabetes_type f;
     diabetes_duration := diabetes_duration f; hba1c := hba1c f;
     prev_treatment := prev_treatment f; notes := notes f;
     r_class := r_class f; r_conf := r_conf f |}.

Definition set_results (cls conf : string) (f : Form) : Form :=
  {| p_id := p_id f; p_name := p_name f; p_dob := p_dob f; p_age := p_age f;
     p_sex := p_sex f; p_contact := p_contact f; p_eye := p_eye f;
     diabetes_type := diabetes_type f;
     diabetes_duration := diabetes_duration f; hba1c := hba1c f;
     prev_treatment := prev_treatment f; notes := notes f;
     r_class := cls; r_conf := conf |}.

(** [f"{n:04d}"] *)
Definition format_04d (n : Z) : string :=
  if (n <? 0)%Z then ("-" ++ zero_padded 3 (- n))%string
  else zero_padded 4 n.

(** [datetime.now().strftime("%Y%m%d")], for the date [now]. *)
Definition strftime_Ymd (now : QDate) : string :=
  (zero_padded 4 (year now) ++ zero_padded 2 (month now)
   ++ zero_padded 2 (day now))%string.

(** [f"ES-{today}-{self.patient_counter:04d}"] *)
Definition patient_id_text (now : QDate) (counter : Z) : string :=
  ("ES-" ++ strftime_Ymd now ++ "-" ++ format_04d counter)%string.

Definition generate_patient_id (now : QDate) (s : ScreeningPage)
  : ScreeningPage :=
  let counter := (patient_counter s + 1)%Z in
  {| form := set_p_id (patient_id_text now counter) (form s);
     patient_counter := counter;
     current_image := current_image s; current_index := current_index s;
     btn_analyze := btn_analyze s; btn_save := btn_save s;
     summary_label := summary_label s |}.

(** The widgets as [reset_screening] leaves them; the id, the counter and
    the result labels are set by its other statements. *)
Definition blank_form (f : Form) : Form :=
  {| p_id := p_id f; p_name := ""; p_dob := minimumDate; p_age := 0;
     p_sex := ""; p_contact := ""; p_eye := ""; diabetes_type := "Select";
     diabetes_duration := 0; hba1c := 70; prev_treatment := false;
     notes := ""; r_class := r_class f; r_conf := r_conf f |}.

Definition reset_screening (now : QDate) (s : ScreeningPage) : ScreeningPage :=
  let s := generate_patient_id now s in
  {| form := set_results placeholder placeholder (blank_form (form s));
     patient_counter := patient_counter s;
     current_image := None;
     current_index := 0;
     btn_analyze := false;
     btn_save := false;
     summary_label := summary_label s |}.

(** [ScreeningPage.__init__]: the counter starts at 0, the widgets get
    their first values and the first id is generated. *)
Definition new_screening_page (now : QDate) : ScreeningPage :=
  generate_patient_id now
    {| form := {| p_id := ""; p_name := ""; p_dob := minimumDate; p_age := 0;
                  p_sex := ""; p_contact := ""; p_eye := "";
                  diabetes_type := "Select"; diabetes_duration := 0;
                  hba1c := 40; prev_treatment := false; notes := "";
                  r_class := placeholder; r_conf := placeholder |};
       patient_counter := 0;
       current_image := None;
       current_index := 0;
       btn_analyze := false;
       btn_save := false;
       summary_label := "" |}.

Definition upload_image (path : string) (s : ScreeningPage) : ScreeningPage :=
  if is_empty path then s
  else {| form := form s; patient_counter := patient_counter s;
          current_image := Some path; current_index := current_index s;
          btn_analyze := true; btn_save := btn_save s;
          summary_label := summary_label s |}.

Definition clear_image (s : ScreeningPage) : ScreeningPage :=
  {| form := set_results placeholder placeholder (form s);
     patient_counter := patient_counter s;
     current_image := None; current_index := current_index s;
     btn_analyze := false; btn_save := btn_save s;
     summary_label := summary_label s |}.

(** [not self.current_image] *)
Definition no_image (s : ScreeningPage) : bool :=
  match current_image s with
  | None => true
  | Some path => is_empty path
  end.

(** The screening page and the rest of the application. *)
Record Desktop : Type := {
  screening : ScreeningPage;
  records_app : App
}.

Definition on_screening (h : ScreeningPage -> ScreeningPage) (w : Desktop)
  : Desktop :=
  {| screening := h (screening w); records_app := records_app w |}.

Definition on_app (c : M unit) (w : Desktop) : Desktop :=
  {| screening := screening w; records_app := exec c (records_app w) |}.

Definition analyze_image (w : Desktop) : Desktop :=
  if no_image (screening w) then
    on_app (message_box "Error" "No image loaded") w
  else
    on_app (message_box "Success" "Analysis complete!")
      (on_screening
         (fun s =>
            {| form := set_results "No DR Detected" "Confidence: 93.8%" (form s);
               patient_counter := patient_counter s;
               current_image := current_image s;
               current_index := current_index s;
               btn_analyze := btn_analyze s; btn_save := true;
               summary_label := summary_label s |}) w).

Definition validate_and_proceed (w : Desktop) : Desktop :=
  let f := form (screening w) in
  if is_empty (strip (p_name f)) then
    on_app (message_box "Error" "Patient name is required") w
  else if QDate_eqb (p_dob f) minimumDate then
    on_app (message_box "Error" "Please enter a valid Date of Birth") w
  else
    let dob_str := toString_yyyy_MM_dd (p_dob f) in
    let summary :=
      ("<b>" ++ p_name f ++ "</b> | ID: " ++ p_id f ++ " | DOB: " ++ dob_str
       ++ " | Age: " ++ str_of_int (p_age f))%string in
    on_screening
      (fun s =>
         {| form := form s; patient_counter := patient_counter s;
            current_image := current_image s; current_index := 1;
            btn_analyze := btn_analyze s; btn_save := btn_save s;
            summary_label := summary |}) w.

(** [yes]: the answer to the question dialog. *)
Definition cancel_screening (yes : bool) (now : QDate) (w : Desktop) : Desktop :=
  if yes then on_screening (reset_screening now) w else w.

Definition go_back_to_patient_info (yes : bool) (w : Desktop) : Desktop :=
  if yes then on_screening (fun s => set_current_index 0 (clear_image s)) w
  else w.

(** [save_screening] with the reset of the form that ends it. *)
Definition save_and_reset (o : io) (now : QDate) (w : Desktop) : Desktop :=
  let f := form (screening w) in
  let w' := on_app (save_screening o f) w in
  if is_empty (strip (p_name f)) then w'
  else on_screening (reset_screening now) w'.

(** *** What the user can do to the page *)

(** [(y, m, d) < (y', m', d')] *)
Definition QDate_ltb (a b : QDate) : bool :=
  ((year a <? year b)
   || ((year a =? year b)
       && ((month a <? month b)
           || ((month a =? month b) && (day a <? day b)))))%Z.

Definition set_text_fields (name contact nts : string) (f : Form) : Form :=
  {| p_id := p_id f; p_name := name; p_dob := p_dob f; p_age := p_age f;
     p_sex := p_sex f; p_contact := contact; p_eye := p_eye f;
     diabetes_type := diabetes_type f;
     diabetes_duration := diabetes_duration f; hba1c := hba1c f;
     prev_treatment := prev_treatment f; notes := nts;
     r_class := r_class f; r_conf := r_conf f |}.

Definition set_choices (sex eye dtype : string) (f : Form) : Form :=
  {| p_id := p_id f; p_name := p_name f; p_dob := p_dob f; p_age := p_age f;
     p_sex := sex; p_contact := p_contact f; p_eye := eye;
     diabetes_type := dtype;
     diabetes_duration := diabetes_duration f; hba1c := hba1c f;
     prev_treatment := prev_treatment f; notes := notes f;
     r_class := r_class f; r_conf := r_conf f |}.

Definition set_clinical (duration tenths : Z) (treated : bool) (f : Form)
  : Form :=
  {| p_id := p_id f; p_name := p_name f; p_dob := p_dob f; p_age := p_age f;
     p_sex := p_sex f; p_contact := p_contact f; p_eye := p_eye f;
     diabetes_type := diabetes_type f;
     diabetes_duration := duration; hba1c := tenths;
     prev_treatment := treated; notes := notes f;
     r_class := r_class f; r_conf := r_conf f |}.

Definition sex_items : list string := [""; "Male"; "Female"; "Other"].
Definition eye_items : list string :=
  [""; "Both Eyes"; "Left Eye"; "Right Eye"].
Definition diabetes_items : list string :=
  ["Select"; "Type 1"; "Type 2"; "Gestational"; "Other"].

(** The text of item [i] of a combo box. *)
Definition pick (items : list string) (i : nat) : string := nth i items "".

(** A new date in the date box; setting the date it already shows emits no
    [dateChanged]. *)
Definition edit_dob (today date : QDate) (f : Form) : Form :=
  if QDate_eqb date (p_dob f) then f else pick_dob today date f.

(** One edit of a widget of the first step, or one click of a button.
    [today] and [now] are the dates the clock gives at that moment. *)
Inductive click : Type :=
| EditName (s : string)
| EditContact (s : string)
| EditNotes (s : string)
| EditDob (today date : QDate)
| SelectSex (i : nat)
| SelectEye (i : nat)
| SelectDiabetesType (i : nat)
| SetDuration (v : Z)
| SetHba1c (tenths : Z)
| CheckTreatment (b : bool)
| Proceed
| Cancel (yes : bool) (now : QDate)
| Upload (path : string)
| ClearImage
| Analyze
| SaveScreening (o : io) (now : QDate)
| Back (yes : bool)
| NewPatient (now : QDate).

Definition edit_form (c : click) (f : Form) : Form :=
  match c with
  | EditName s => set_text_fields s (p_contact f) (notes f) f
  | EditContact s => set_text_fields (p_name f) s (notes f) f
  | EditNotes s => set_text_fields (p_name f) (p_contact f) s f
  | EditDob today date => edit_dob today date f
  | SelectSex i =>
      set_choices (pick sex_items i) (p_eye f) (diabetes_type f) f
  | SelectEye i =>
      set_choices (p_sex f) (pick eye_items i) (diabetes_type f) f
  | SelectDiabetesType i =>
      set_choices (p_sex f) (p_eye f) (pick diabetes_items i) f
  | SetDuration v => set_clinical v (hba1c f) (prev_treatment f) f
  | SetHba1c t => set_clinical (diabetes_duration f) t (prev_treatment f) f
  | CheckTreatment b => set_clinical (diabetes_duration f) (hba1c f) b f
  | _ => f
  end.

(** The slot connected to the widget or button. *)
Definition handle (c : click) (w : Desktop) : Desktop :=
  match c with
  | Proceed => validate_and_proceed w
  | Cancel yes now => cancel_screening yes now w
  | Upload path => on_screening (upload_image path) w
  | ClearImage => on_screening clear_image w
  | Analyze => analyze_image w
  | SaveScreening o now => save_and_reset o now w
  | Back yes => go_back_to_patient_info yes w
  | NewPatient now => on_screening (reset_screening now) w
  | _ => on_screening (fun s => set_form (edit_form c (form s)) s) w
  end.

(** The values a widget lets the user enter: a date not before the minimum
    of the date box ([setMinimumDate(QDate(2000, 1, 1))]), an item of the
    combo box, a number within the range of the spin box. *)
Definition accepted (c : click) : bool :=
  match c with
  | EditDob _ date => negb (QDate_ltb date minimumDate)
  | SelectSex i => i <? length sex_items
  | SelectEye i => i <? length eye_items
  | SelectDiabetesType i => i <? length diabetes_items
  | SetDuration v => ((0 <=? v) && (v <=? 80))%Z
  | SetHba1c t => ((40 <=? t) && (t <=? 150))%Z
  | _ => true
  end.

(** A widget takes input only while its page is the one the stacked widget
    shows, and a button only while it is enabled. *)
Definition available (c : click) (s : ScreeningPage) : bool :=
  match c with
  | Upload _ | ClearImage | Back _ | NewPatient _ => current_index s =? 1
  | Analyze => (current_index s =? 1) && btn_analyze s
  | SaveScreening _ _ => (current_index s =? 1) && btn_save s
  | _ => (current_index s =? 0) && accepted c
  end.

Definition press (c : click) (w : Desktop) : Desktop :=
  if available c (screening w) then handle c w else w.

Definition presses (cs : list click) (w : Desktop) : Desktop :=
  fold_left (fun w c => press c w) cs w.

(** The application right after start-up at the date [now]. *)
Definition desktop_start (now : QDate) (o : io) (d : Database)
    (f : list (string * string)) : Desktop :=
  {| screening := new_screening_page now;
     records_app := exec (new_app o) (process_start d f) |}.

(** *** Notions for the statements about the workflow *)

(** The result labels show the placeholder or the outcome of the analysis
    step. *)
Definition analysed_or_blank (f : Form) : bool :=
  (String.eqb (r_class f) placeholder && String.eqb (r_conf f) placeholder)
  || (String.eqb (r_class f) "No DR Detected"
      && String.eqb (r_conf f) "Confidence: 93.8%").

(** What [validate_and_proceed] asks of the form, the date box holding no
    date before its minimum: a name that is not blank and a date of birth
    after 2000-01-01. *)
Definition ready_for_image (f : Form) : bool :=
  negb (is_empty (strip (p_name f))) && QDate_ltb minimumDate (p_dob f).

(** A record built from a form that passed the first step. *)
Definition from_the_form (r : Row) : Prop :=
  exists f, r = patient_data_of f
            /\ form_ok f = true
            /\ ready_for_image f = true
            /\ analysed_or_blank f = true.

(** What holds of the page between any two clicks. *)
Definition page_inv (s : ScreeningPage) : Prop :=
  form_ok (form s) = true
  /\ QDate_ltb (p_dob (form s)) minimumDate = false
  /\ (current_index s = 0 \/ current_index s = 1)
  /\ (current_index s = 1 -> ready_for_image (form s) = true)
  /\ btn_analyze s = negb (no_image s)
  /\ analysed_or_blank (form s) = true.

(** The two dialogs of checks that the buttons' availability makes
    unreachable. *)
Definition guard_dialog (d : string * string) : bool :=
  String.eqb (fst d) "Error"
  && (String.eqb (snd d) "No image loaded"
      || String.eqb (snd d) "Patient name required").

(** Number of completed analyses, read off the dialogs. *)
Definition analyses (a : App) : nat :=
  length (List.filter (fun d => String.eqb (fst d) "Success") (dialogs a)).

(** The text after the last [-] of a text (the whole text when it has
    none), and the number its digits spell. *)
Fixpoint has_dash (s : string) : bool :=
  match s with
  | EmptyString => false
  | String c s' => Ascii.eqb c "-" || has_dash s'
  end.

Fixpoint after_last_dash (s : string) : string :=
  match s with
  | EmptyString => EmptyString
  | String c s' =>
      if has_dash s' then after_last_dash s'
      else if Ascii.eqb c "-" then s' else s
  end.

Definition id_counter (id : string) : option Z :=
  option_map Z.of_uint (NilEmpty.uint_of_string (after_last_dash id)).

(** The patient id of a record. *)
Definition patient_id_of (r : Row) : string :=
  match r with
  | PStr id :: _ => id
  | _ => ""
  end.

(** The date [n] years after [d], as the triple the code compares, and
    [a <= b] on such triples. *)
Definition years_later (n : Z) (d : QDate) : QDate :=
  {| year := year d + n; month := month d; day := day d |}.

Definition QDate_leb (a b : QDate) : bool := negb (QDate_ltb b a).

(** What one click, or a run of clicks, may do between two states of the
    application: the page stays as [page_inv] says, the view gains records
    built from valid forms, the dialogs shown are none of the two
    unreachable ones, and a record is added only against an enabled save
    button, which only an analysis enables. *)
Definition workflow_step (w w' : Desktop) : Prop :=
  page_inv (screening w')
  /\ exists new ds,
       all_records (records_app w') = all_records (records_app w) ++ new
       /\ dialogs (records_app w') = dialogs (records_app w) ++ ds
       /\ Forall from_the_form new
       /\ existsb guard_dialog ds = false
       /\ length new + Nat.b2n (btn_save (screening w'))
          <= Nat.b2n (btn_save (screening w))
             + length (List.filter (fun d => String.eqb (fst d) "Success") ds).

(** The ids of the records carry counters from [lo] up to, not including,
    [hi]. *)
Definition ids_between (lo hi : Z) (rs : list Row) : Prop :=
  Forall (fun r => exists c, id_counter (patient_id_of r) = Some c
                             /\ (lo <= c < hi)%Z) rs.

(** The ids generated and used between two states: the saved records carry
    pairwise different ids, with counters from the earlier counter of the
    page up to the later one, and the id in the form carries the page's
    counter. *)
Definition ids_step (w w' : Desktop) : Prop :=
  exists new,
    all_records (records_app w') = all_records (records_app w) ++ new
    /\ NoDup (map patient_id_of new)
    /\ ids_between (patient_counter (screening w))
                   (patient_counter (screening w')) new
    /\ (patient_counter (screening w) <= patient_counter (screening w'))%Z
    /\ id_counter (p_id (form (screening w')))
       = Some (patient_counter (screening w')).

(* ================================================================== *)
(** ** patient_records.py: [show_details_dialog] *)
(* ================================================================== *)

(** The loop over the columns: one line [<b>header:</b> value<br>] per
    column, the value empty for a cell that was never set. *)
Definition details_line (header value : string) : string :=
  ("<b>" ++ header ++ ":</b> " ++ value ++ "<br>")%string.

Definition details_html (table : list (list string)) (row : Z) : string :=
  fold_left
    (fun details i =>
       (details
        ++ details_line (nth i header_labels "")
             (text_or_empty (table_item table row i)))%string)
    (seq 0 n_columns) "".

(** The text the dialog shows for a double click on [row]. *)
Definition show_details_dialog (row : Z) (a : App) : string :=
  details_html (patient_table a) row.

(** The lines of the dialog for given values, column by column. *)
Definition details_of (values : list string) : string :=
  fold_right (fun hv rest => (details_line (fst hv) (snd hv) ++ rest)%string)
             "" (combine header_labels values).

(* ================================================================== *)
(** ** users.py: [UsersPage] *)
(* ================================================================== *)

Module Users.

(** [auth.UserManager] is not among the sources.  The page uses four of its
    static methods; they are taken as given, acting on the account store:
    the list of (username, role) pairs, and three operations that answer
    whether they succeeded. *)
Class UserManager (Store : Type) : Type := {
  get_all_users : Store -> list (string * string);
  create_user : string -> string -> string -> Store -> bool * Store;
  delete_user : string -> Store -> bool * Store;
  update_user_role : string -> string -> Store -> bool * Store
}.

(** The page: the account store it works on, the rows of the user table,
    the rows of the activity log (user, action, timestamp), the two line
    edits, and the warning and information boxes shown so far. *)
Record UsersPage (Store : Type) : Type := {
  accounts : Store;
  table : list (string * string);
  activity_log : list (string * string * string);
  username_input : string;
  password_input : string;
  boxes : list (string * string)
}.
Arguments accounts {Store} _.
Arguments table {Store} _.
Arguments activity_log {Store} _.
Arguments username_input {Store} _.
Arguments password_input {Store} _.
Arguments boxes {Store} _.

Section Page.

Context {Store : Type} {UM : UserManager Store}.

Definition set_accounts (st : Store) (s : UsersPage Store) : UsersPage Store :=
  {| accounts := st; table := table s; activity_log := activity_log s;
     username_input := username_input s; password_input := password_input s;
     boxes := boxes s |}.

Definition set_inputs (u p : string) (s : UsersPage Store) : UsersPage Store :=
  {| accounts := accounts s; table := table s;
     activity_log := activity_log s;
     username_input := u; password_input := p; boxes := boxes s |}.

Definition box (title text : string) (s : UsersPage Store) : UsersPage Store :=
  {| accounts := accounts s; table := table s;
     activity_log := activity_log s;
     username_input := username_input s; password_input := password_input s;
     boxes := boxes s ++ [(title, text)] |}.

Definition refresh_users (s : UsersPage Store) : UsersPage Store :=
  {| accounts := accounts s; table := get_all_users (accounts s);
     activity_log := activity_log s;
     username_input := username_input s; password_input := password_input s;
     boxes := boxes s |}.

(** [stamp]: [datetime.now().strftime("%Y-%m-%d %H:%M:%S")] *)
Definition log_activity (user action stamp : string) (s : UsersPage Store)
  : UsersPage Store :=
  {| accounts := accounts s; table := table s;
     activity_log := activity_log s ++ [(user, action, stamp)];
     username_input := username_input s; password_input := password_input s;
     boxes := boxes s |}.

(** [role]: the current text of [role_input]. *)
Definition add_user (role stamp : string) (s : UsersPage Store)
  : UsersPage Store :=
  let username := strip (username_input s) in
  let password := password_input s in
  if is_empty username || is_empty password then
    box "Missing" "Username and password are required." s
  else
    let (success, st) := create_user username password role (accounts s) in
    let s := set_accounts st s in
    if success then
      log_activity username ("Created as " ++ role)%string stamp
        (refresh_users
           (set_inputs "" ""
              (box "Created" ("User '" ++ username ++ "' created.")%string s)))
    else box "Error" "Could not create user (may already exist)." s.

(** [self.table.item(row, 0)] and [self.table.item(row, 1)] for the current
    row, [None] outside the table. *)
Definition row_items (row : Z) (s : UsersPage Store)
  : option (string * string) :=
  if (row <? 0)%Z then None else nth_error (table s) (Z.to_nat row).

(** [row]: [self.table.currentRow()], -1 when no row is current; [confirm]:
    the answer Yes to the question.  A row outside the table ends the slot
    with an [AttributeError] before anything is done. *)
Definition delete_user_click (row : Z) (confirm : bool) (stamp : string)
    (s : UsersPage Store) : UsersPage Store :=
  if (row <? 0)%Z then box "Select" "Select a user to delete." s
  else match row_items row s with
       | None => s
       | Some (username, _) =>
           if negb confirm then s
           else
             let (success, st) := delete_user username (accounts s) in
             let s := set_accounts st s in
             if success then
               log_activity username "Deleted" stamp
                 (refresh_users
                    (box "Deleted" ("User '" ++ username ++ "' deleted.")%string s))
             else box "Error" "Could not delete user." s
       end.

(** [new_role]: the current text of [new_role_input]. *)
Definition update_role (row : Z) (new_role stamp : string)
    (s : UsersPage Store) : UsersPage Store :=
  if (row <? 0)%Z then box "Select" "Select a user to update." s
  else match row_items row s with
       | None => s
       | Some (username, _) =>
           let (success, st) := update_user_role username new_role (accounts s) in
           let s := set_accounts st s in
           if success then
             log_activity username ("Role changed to " ++ new_role)%string stamp
               (refresh_users
                  (box "Updated"
                       ("Role updated for '" ++ username ++ "'.")%string s))
           else box "Error" "Could not update role." s
       end.

(** [new_pw], [ok]: what the input dialog returned. *)
Definition reset_password (row : Z) (new_pw : string) (ok : bool)
    (stamp : string) (s : UsersPage Store) : UsersPage Store :=
  if (row <? 0)%Z then box "Select" "Select a user to reset password." s
  else match row_items row s with
       | None => s
       | Some (username, role) =>
           if negb ok || is_empty new_pw then s
           else
             let st := snd (delete_user username (accounts s)) in
             let st := snd (create_user username new_pw role st) in
             box "Reset" ("Password reset for '" ++ username ++ "'.")%string
               (log_activity username "Password reset" stamp
                  (refresh_users (set_accounts st s)))
       end.

(** [UsersPage.__init__] on an account store. *)
Definition new_users_page (st : Store) : UsersPage Store :=
  refresh_users
    {| accounts := st; table := []; activity_log := [];
       username_input := ""; password_input := ""; boxes := [] |}.

(** What the administrator does on the page. *)
Inductive admin_click : Type :=
| TypeUsername (text : string)
| TypePassword (text : string)
| AddUser (role stamp : string)
| DeleteUser (row : Z) (confirm : bool) (stamp : string)
| UpdateRole (row : Z) (new_role stamp : string)
| ResetPassword (row : Z) (new_pw : string) (ok : bool) (stamp : string).

Definition admin_press (c : admin_click) (s : UsersPage Store)
  : UsersPage Store :=
  match c with
  | TypeUsername text => set_inputs text (password_input s) s
  | TypePassword text => set_inputs (username_input s) text s
  | AddUser role stamp => add_user role stamp s
  | DeleteUser row confirm stamp => delete_user_click row confirm stamp s
  | UpdateRole row new_role stamp => update_role row new_role stamp s
  | ResetPassword row new_pw ok stamp => reset_password row new_pw ok stamp s
  end.

Definition admin_presses (cs : list admin_click) (s : UsersPage Store)
  : UsersPage Store :=
  fold_left (fun s c => admin_press c s) cs s.

(** Input on which a slot asks nothing of the user manager: a blank
    username or an empty password for "Add User", no current row for the
    three actions on a row, "No" to the question before a deletion, a
    cancelled or empty password dialog. *)
Definition refused_input (c : admin_click) (s : UsersPage Store) : bool :=
  match c with
  | TypeUsername _ | TypePassword _ => false
  | AddUser _ _ =>
      is_empty (strip (username_input s)) || is_empty (password_input s)
  | DeleteUser row confirm _ => (row <? 0)%Z || negb confirm
  | UpdateRole row _ _ => (row <? 0)%Z
  | ResetPassword row new_pw ok _ => (row <? 0)%Z || negb ok || is_empty new_pw
  end.

(** An operation that answers "no" has left the list of users as it was. *)
Definition quiet_refusals : Prop :=
  (forall u p r st, fst (create_user u p r st) = false ->
     get_all_users (snd (create_user u p r st)) = get_all_users st)
  /\ (forall u st, fst (delete_user u st) = false ->
        get_all_users (snd (delete_user u st)) = get_all_users st)
  /\ (forall u r st, fst (update_user_role u r st) = false ->
        get_all_users (snd (update_user_role u r st)) = get_all_users st).

End Page.

(** An account store kept as a list of (username, password, role), with
    unique usernames: a user manager to run the page on. *)
Definition has_user (u : string) (st : list (string * string * string)) : bool :=
  existsb (fun e => String.eqb (fst (fst e)) u) st.

#[export] Instance ListManager : UserManager (list (string * string * string)) := {
  get_all_users st := map (fun e => (fst (fst e), snd e)) st;
  create_user u p r st :=
    if has_user u st then (false, st) else (true, st ++ [(u, p, r)]);
  delete_user u st :=
    if has_user u st
    then (true, List.filter (fun e => negb (String.eqb (fst (fst e)) u)) st)
    else (false, st);
  update_user_role u r st :=
    if has_user u st
    then (true, map (fun e => if String.eqb (fst (fst e)) u
                              then (fst (fst e), snd (fst e), r) else e) st)
    else (false, st)
}.

End Users.

(* ================================================================== *)
(** ** An export read back, and an export that fails *)
(* ================================================================== *)

(** The rows a [csv.reader] yields after the header row, as Python values:
    every field read from the file is a [str]. *)
Definition read_back (file : string) : list Row :=
  map (map PStr) (tl (CsvReader.read file)).

(** The text of a value in a file: nothing for [None], else what [str]
    gives. *)
Definition field_text (v : PyVal) : string :=
  if is_none v then "" else str v.

(** The value a field comes back as: a [str] as it is, an [int] as the
    text of its digits, [None] as the empty text. *)
Definition as_read (v : PyVal) : PyVal := PStr (field_text v).

Definition is_str (v : PyVal) : bool :=
  match v with PStr _ => true | _ => false end.

(** A record all of whose fields are texts. *)
Definition all_str (r : Row) : bool := forallb is_str r.

(** A record of texts only, with a delimiter, a line break and quote
    characters inside its fields. *)
Definition quoted_record : Row :=
  [PStr "ES-20250101-0004"; PStr "Roe, Richard"; PStr ""; PStr "61";
   PStr "Male"; PStr ""; PStr "Right Eye"; PStr "Type 2"; PStr "15";
   PStr "9.1%"; PStr "No";
   PStr ("first line" ++ String Csv.CR (String Csv.LF "said ")
         ++ String Csv.quote "ok" ++ String Csv.quote ", left");
   PStr "Moderate DR"; PStr "Confidence: 93.8%"].

(** What becomes of the file during an export.  [open(path, 'w')] fails and
    the file is as it was; or it succeeds, which empties the file, and a
    later write (or the flush when the [with] block is left) fails, the
    file holding [partial], whatever had reached it by then; or every row is
    written. *)
Inductive file_outcome : Type :=
| open_failed (msg : string)
| write_failed (partial msg : string)
| file_written.

(** [export_to_csv] with the failures of the file told apart. *)
Definition export_to_csv_file (path : string) (w : file_outcome) : M unit :=
  if is_empty path then ret tt
  else
    a <- get ;;
    let records := all_records a in
    try_except
      (match w with
       | open_failed msg => raise msg
       | write_failed partial msg =>
           modify (fun a => set_files ((path, partial) :: files a) a) ;;
           raise msg
       | file_written =>
           modify (fun a => set_files ((path, export_text records) :: files a) a)
       end ;;
       message_box "Exported" ("Patient records exported to " ++ path)%string)
      (fun e => message_box "Error" ("Failed to export: " ++ e)%string).

(** The outcome of the file when only [open] can fail. *)
Definition at_open (o : io) : file_outcome :=
  match o with
  | io_ok => file_written
  | io_error msg => open_failed msg
  end.

(** The contents of the file at [path]: the entry written last. *)
Fixpoint read_file (path : string) (fs : list (string * string))
  : option string :=
  match fs with
  | [] => None
  | (p, contents) :: fs' =>
      if String.eqb p path then Some contents else read_file path fs'
  end.

(* ================================================================== *)
(** * Properties *)
(* ================================================================== *)

Create Rewrite HintDb page.

(** ** Running the methods of the records page *)

Lemma refresh_dashboard_run (a : App) :
  refresh_dashboard a
  = (Returned tt, set_dashboard (table_stats (patient_table a)) a).
Proof. reflexivity. Qed.

Lemma render_loop (ft : string) (records : list Row) (a : App) :
  for_each records (fun patient_data =>
    if negb (show ft patient_data) then ret tt
    else modify (fun a =>
           set_patient_table (patient_table a ++ [table_cells patient_data]) a)) a
  = (Returned tt,
     set_patient_table
       (patient_table a ++ map table_cells (List.filter (show ft) records)) a).
Proof.
  revert a; induction records as [|r records IH]; intros a; simpl.
  - rewrite app_nil_r. destruct a; reflexivity.
  - unfold bind. destruct (show ft r); simpl.
    + rewrite IH. simpl. rewrite <- app_assoc. reflexivity.
    + unfold ret. rewrite IH. reflexivity.
Qed.

Lemma refresh_table_run (ft : string) (a : App) :
  _refresh_table ft a = (Returned tt, refreshed ft a).
Proof.
  unfold _refresh_table, bind at 1 2. simpl.
  unfold bind at 1. rewrite render_loop. simpl.
  unfold refreshed, shown, try_except, bind, get. simpl.
  destruct (parent_app a); reflexivity.
Qed.

Lemma refreshed_all_records ft a : all_records (refreshed ft a) = all_records a.
Proof. unfold refreshed. destruct (parent_app a); reflexivity. Qed.

Lemma refreshed_db ft a : db (refreshed ft a) = db a.
Proof. unfold refreshed. destruct (parent_app a); reflexivity. Qed.

Lemma refreshed_stdout ft a : stdout (refreshed ft a) = stdout a.
Proof. unfold refreshed. destruct (parent_app a); reflexivity. Qed.

Lemma refreshed_table ft a :
  patient_table (refreshed ft a)
  = map table_cells (shown ft (all_records a)).
Proof. unfold refreshed. destruct (parent_app a); reflexivity. Qed.

Lemma refreshed_parent_app ft a : parent_app (refreshed ft a) = parent_app a.
Proof.
  unfold refreshed. destruct (parent_app a) eqn:E; simpl; congruence.
Qed.

#[local] Hint Rewrite refreshed_all_records refreshed_db refreshed_stdout
  refreshed_table refreshed_parent_app : page.

Lemma save_record_run_ok o r a d :
  sql_insert o r (db a) = inr d ->
  save_record_to_db o r a = (Returned tt, set_db d a).
Proof.
  intros H. unfold save_record_to_db, try_except, bind, get. simpl.
  rewrite H. reflexivity.
Qed.

Lemma save_record_run_error o r a e :
  sql_insert o r (db a) = inl e ->
  save_record_to_db o r a
  = (Returned tt,
     set_stdout (stdout a ++ [("Failed to save patient record: " ++ e)%string]) a).
Proof.
  intros H. unfold save_record_to_db, try_except, bind, get. simpl.
  rewrite H. reflexivity.
Qed.

Lemma sql_insert_ok o r d :
  write_ok o r = true ->
  sql_insert o r d
  = inr {| column_store := column_store d;
           rows := rows d ++ [store_row d r] |}.
Proof.
  unfold write_ok, sql_insert. destruct o; [|discriminate].
  intros H. apply andb_prop in H. destruct H as [H1 H2].
  rewrite H1, H2. reflexivity.
Qed.

Lemma sql_insert_error o r d :
  write_ok o r = false -> exists e, sql_insert o r d = inl e.
Proof.
  unfold write_ok, sql_insert. destruct o; [|eauto].
  destruct (length r =? n_columns); simpl; [|eauto].
  intros ->. simpl. eauto.
Qed.

Lemma add_patient_record_ok o r a :
  write_ok o r = true ->
  add_patient_record o r a
  = (Returned tt,
     refreshed ""
       (set_db {| column_store := column_store (db a);
                  rows := rows (db a) ++ [store_row (db a) r] |}
          (set_all_records (all_records a ++ [r]) a))).
Proof.
  intros H. unfold add_patient_record. unfold bind at 1 2. simpl.
  rewrite (save_record_run_ok o r _ _ (sql_insert_ok o r _ H)).
  apply refresh_table_run.
Qed.

Lemma add_patient_record_error o r a e :
  sql_insert o r (db a) = inl e ->
  add_patient_record o r a
  = (Returned tt,
     refreshed ""
       (set_stdout (stdout a ++ [("Failed to save patient record: " ++ e)%string])
          (set_all_records (all_records a ++ [r]) a))).
Proof.
  intros H. unfold add_patient_record. unfold bind at 1 2. simpl.
  rewrite (save_record_run_error o r _ e) by exact H.
  apply refresh_table_run.
Qed.

Lemma load_records_run_ok a :
  load_records_from_db io_ok a
  = (Returned tt, refreshed "" (set_all_records (rows (db a)) a)).
Proof.
  unfold load_records_from_db, try_except. unfold bind at 1 2 3. simpl.
  rewrite map_id. rewrite refresh_table_run. reflexivity.
Qed.

Lemma load_records_run_error msg a :
  load_records_from_db (io_error msg) a
  = (Returned tt,
     set_stdout (stdout a ++ [("Failed to load patient records: " ++ msg)%string]) a).
Proof. reflexivity. Qed.

(** What the store does with the outcome of the durable write. *)
Lemma add_patient_record_run o r a :
  add_patient_record o r a
  = (Returned tt,
     refreshed ""
       (match sql_insert o r (db a) with
        | inr d => set_db d (set_all_records (all_records a ++ [r]) a)
        | inl e =>
            set_stdout
              (stdout a ++ [("Failed to save patient record: " ++ e)%string])
              (set_all_records (all_records a ++ [r]) a)
        end)).
Proof.
  destruct (sql_insert o r (db a)) as [e|d] eqn:E.
  - apply add_patient_record_error; exact E.
  - unfold add_patient_record. unfold bind at 1 2. simpl.
    rewrite (save_record_run_ok o r _ d) by exact E.
    apply refresh_table_run.
Qed.

Lemma add_patient_record_returns o r a :
  result (add_patient_record o r) a = Returned tt.
Proof. unfold result. rewrite add_patient_record_run. reflexivity. Qed.

Lemma add_patient_record_view o r a :
  all_records (exec (add_patient_record o r) a) = all_records a ++ [r].
Proof.
  unfold exec. rewrite add_patient_record_run. simpl.
  autorewrite with page.
  destruct (sql_insert o r (db a)); reflexivity.
Qed.

Lemma show_empty r : show "" r = true.
Proof. reflexivity. Qed.

Lemma shown_empty records : shown "" records = records.
Proof.
  unfold shown. simpl. induction records as [|r l IH]; simpl; [reflexivity|].
  now rewrite IH.
Qed.

Lemma add_patient_record_table o r a :
  patient_table (exec (add_patient_record o r) a)
  = map table_cells (all_records a ++ [r]).
Proof.
  unfold exec. rewrite add_patient_record_run. simpl.
  rewrite refreshed_table, shown_empty.
  destruct (sql_insert o r (db a)); reflexivity.
Qed.

Lemma filter_table_run text a :
  filter_table text a = (Returned tt, refreshed text a).
Proof. apply refresh_table_run. Qed.

Lemma export_to_csv_view path o a :
  all_records (exec (export_to_csv path o) a) = all_records a
  /\ db (exec (export_to_csv path o) a) = db a
  /\ result (export_to_csv path o) a = Returned tt.
Proof.
  unfold exec, result, export_to_csv.
  destruct (is_empty path); [repeat split|].
  destruct o; repeat split.
Qed.

Lemma save_screening_run o f a :
  result (save_screening o f) a = Returned tt
  /\ all_records (exec (save_screening o f) a)
     = all_records a ++ match handed_over f with
                        | Some r => [r]
                        | None => []
                        end.
Proof.
  unfold result, exec, save_screening, handed_over.
  destruct (is_empty (strip (p_name f))).
  - simpl. rewrite app_nil_r. split; reflexivity.
  - unfold bind, try_except. rewrite add_patient_record_run. simpl.
    rewrite refreshed_all_records.
    destruct (sql_insert o (patient_data_of f) (db a)); split; reflexivity.
Qed.

Lemma perform_view act a :
  result (perform act) a = Returned tt
  /\ all_records (exec (perform act) a)
     = all_records a ++ handed_over_by [act].
Proof.
  destruct act as [o f|text|path o]; simpl.
  - rewrite app_nil_r. apply save_screening_run.
  - unfold result, exec. rewrite filter_table_run. simpl.
    autorewrite with page. rewrite app_nil_r. split; reflexivity.
  - rewrite app_nil_r. destruct (export_to_csv_view path o a) as (H1 & _ & H3).
    split; assumption.
Qed.

Lemma session_view acts a :
  result (session acts) a = Returned tt
  /\ all_records (exec (session acts) a)
     = all_records a ++ handed_over_by acts.
Proof.
  revert a; induction acts as [|act acts IH]; intros a.
  - simpl. rewrite app_nil_r. split; reflexivity.
  - destruct (perform_view act a) as [Hr Hv].
    unfold result, exec in *. unfold session in *. simpl. unfold bind.
    destruct (perform act a) as [out a1]. simpl in Hr, Hv. subst out.
    destruct (IH a1) as [IHr IHv]. split; [exact IHr|].
    rewrite IHv, Hv. simpl in *. rewrite app_nil_r in *.
    now rewrite <- app_assoc.
Qed.

(** ** Storage after a run of accepted writes *)

(** [append] of every record of a list, each write going through. *)
Lemma appends_ok (rs : list Row) (a : App) :
  Forall (fun r => write_ok io_ok r = true) rs ->
  let a' := exec (for_each rs (add_patient_record io_ok)) a in
  result (for_each rs (add_patient_record io_ok)) a = Returned tt
  /\ all_records a' = all_records a ++ rs
  /\ column_store (db a') = column_store (db a)
  /\ rows (db a') = rows (db a) ++ map (store_row (db a)) rs
  /\ files a' = files a.
Proof.
  revert a; induction rs as [|r rs IH]; intros a H; simpl.
  - rewrite !app_nil_r. repeat split.
  - inversion H as [|? ? Hr Hrs]; subst.
    unfold exec, result. simpl. unfold bind.
    rewrite (add_patient_record_ok io_ok r a Hr).
    set (a1 := refreshed _ _).
    destruct (IH a1 Hrs) as (R & V & C & D & F).
    unfold exec, result in *.
    assert (Hdb : db a1 = {| column_store := column_store (db a);
                             rows := rows (db a) ++ [store_row (db a) r] |}).
    { unfold a1. rewrite refreshed_db. reflexivity. }
    split; [exact R|]. split.
    { rewrite V. unfold a1. rewrite refreshed_all_records. simpl.
      now rewrite <- app_assoc. }
    split; [rewrite C, Hdb; reflexivity|]. split.
    { rewrite D, Hdb. simpl. rewrite <- app_assoc. reflexivity. }
    rewrite F. unfold a1, refreshed. simpl.
    destruct (parent_app a); reflexivity.
Qed.

Lemma map_kept d rs : Forall (kept_by d) rs -> map (store_row d) rs = rs.
Proof.
  induction 1 as [|r rs H _ IH]; simpl; [reflexivity|].
  now rewrite H, IH.
Qed.

Lemma new_page_ok a :
  all_records (exec (new_page io_ok) a) = rows (db a)
  /\ patient_table (exec (new_page io_ok) a) = map table_cells (rows (db a))
  /\ db (exec (new_page io_ok) a) = db a.
Proof.
  unfold exec, new_page, bind. simpl. rewrite load_records_run_ok. simpl.
  autorewrite with page. rewrite shown_empty.
  repeat split.
Qed.

(* ================================================================== *)
(** ** The store: append, load, and what failures do *)
(* ================================================================== *)

(** C1, at a concrete input.  The write of Jane's record fails with a disk
    error; storage stays empty, yet the record is in the view, in the table
    and in the result of a search for "jane". *)
Lemma failed_write_is_visible :
  let o := io_error "disk I/O error" in
  let a := exec (add_patient_record o Sample.jane) Sample.started in
  write_ok o Sample.jane = false
  /\ rows (db a) = []
  /\ all_records a = [Sample.jane]
  /\ patient_table a = [table_cells Sample.jane]
  /\ patient_table (exec (filter_table "jane") a) = [table_cells Sample.jane].
Proof. vm_compute. repeat split. Qed.

(** C1, as the code has it.  [add_patient_record] puts the record at the
    end of the view before the durable write is attempted.  When the write
    fails, storage is unchanged and the record stays in the view: the table
    shows it, and so does every later search whose text matches it.  It is
    gone only after a later successful [load_records_from_db], which
    replaces the view by the stored rows. *)
Theorem failed_write_stays_in_view (o : io) (r : Row) (a : App) :
  write_ok o r = false ->
  let a' := exec (add_patient_record o r) a in
  all_records a' = all_records a ++ [r]
  /\ db a' = db a
  /\ patient_table a' = map table_cells (all_records a ++ [r])
  /\ (forall text, shown text [r] = [r] ->
        In (table_cells r) (patient_table (exec (filter_table text) a')))
  /\ all_records (exec (load_records_from_db io_ok) a') = rows (db a).
Proof.
  intros H a'.
  destruct (sql_insert_error o r (db a) H) as [e He].
  assert (Hview : all_records a' = all_records a ++ [r])
    by apply add_patient_record_view.
  assert (Hdb : db a' = db a).
  { unfold a', exec. rewrite (add_patient_record_error o r a e He). simpl.
    now rewrite refreshed_db. }
  split; [exact Hview|]. split; [exact Hdb|].
  split; [apply add_patient_record_table|]. split.
  - intros text Hs. unfold exec. rewrite filter_table_run. simpl.
    rewrite refreshed_table, Hview. apply in_map.
    unfold shown in *. rewrite filter_app, Hs. apply in_or_app. right.
    now left.
  - unfold exec. rewrite load_records_run_ok. simpl.
    rewrite refreshed_all_records. simpl. now rewrite Hdb.
Qed.

Lemma failed_write_stays_in_view_witness :
  let o := io_error "disk I/O error" in
  let a' := exec (add_patient_record o Sample.jane) Sample.started in
  write_ok o Sample.jane = false
  /\ all_records a' = all_records Sample.started ++ [Sample.jane]
  /\ all_records (exec (load_records_from_db io_ok) a')
     = rows (db Sample.started).
Proof.
  split; [reflexivity|].
  pose proof (failed_write_stays_in_view (io_error "disk I/O error")
                Sample.jane Sample.started eq_refl) as H.
  split; [exact (proj1 H) | exact (proj2 (proj2 (proj2 (proj2 H))))].
Defined.

(** C2, at a concrete input.  A failed write and a failed load both end
    like a successful call: the caller gets [None] back and no exception.
    The failed load leaves the two records of the view in place. *)
Lemma failures_are_not_reported :
  let o := io_error "disk I/O error" in
  result (add_patient_record o Sample.jane) Sample.started
  = result (add_patient_record io_ok Sample.jane) Sample.started
  /\ result (add_patient_record o Sample.jane) Sample.started = Returned tt
  /\ result (load_records_from_db o) Sample.two_records = Returned tt
  /\ all_records (exec (load_records_from_db o) Sample.two_records)
     = [Sample.jane; Sample.john].
Proof. vm_compute. repeat split. Qed.

(** C2, as the code has it.  A failure of the write or of the load is
    caught inside the store: one line is printed to standard output and the
    call returns normally, exactly as a successful call does.  A failed
    load leaves the view and the table as they were (they are empty when
    the load is the one of the page's construction); nothing crashes. *)
Theorem failures_are_printed (msg : string) (r : Row) (a : App) :
  (forall o, result (add_patient_record o r) a = Returned tt)
  /\ stdout (exec (add_patient_record (io_error msg) r) a)
     = stdout a ++ [("Failed to save patient record: " ++ msg)%string]
  /\ (forall o, result (load_records_from_db o) a = Returned tt)
  /\ exec (load_records_from_db (io_error msg)) a
     = set_stdout
         (stdout a ++ [("Failed to load patient records: " ++ msg)%string]) a
  /\ all_records (exec (new_page (io_error msg)) a) = [].
Proof.
  split; [intros o; apply add_patient_record_returns|]. split.
  { unfold exec. rewrite (add_patient_record_error (io_error msg) r a msg eq_refl). simpl.
    now rewrite refreshed_stdout. }
  split.
  { intros [|e]; unfold result.
    - now rewrite load_records_run_ok.
    - now rewrite load_records_run_error. }
  split; reflexivity.
Qed.

(** C3.  Start a process on a table, append records whose writes all go
    through, and start a fresh process on the files left behind: the view
    it loads is the rows the table had, followed by the appended records,
    field for field and in the order of the appends (so exactly those
    records when the table started empty).  Any successful load replaces
    the view by the stored rows in their order.  The records are supposed
    to survive the declared types of the columns ([kept_by]). *)
Theorem load_all_round_trip (d : Database) (f : list (string * string))
    (rs : list Row) :
  Forall (fun r => write_ok io_ok r = true) rs ->
  Forall (kept_by d) rs ->
  let first := exec (for_each rs (add_patient_record io_ok))
                 (exec (new_app io_ok) (process_start d f)) in
  let fresh := exec (new_app io_ok) (process_start (db first) (files first)) in
  all_records fresh = rows d ++ rs
  /\ (rows d = [] -> all_records fresh = rs)
  /\ all_records first = rows d ++ rs
  /\ (forall a, all_records (exec (load_records_from_db io_ok) a)
                = rows (db a)).
Proof.
  intros Hw Hk first fresh.
  set (a0 := exec (new_app io_ok) (process_start d f)).
  assert (H0 : all_records a0 = rows d /\ db a0 = d).
  { unfold a0, exec, new_app, bind.
    pose proof (new_page_ok (process_start d f)) as (V & _ & D).
    unfold exec in V, D.
    destruct (new_page io_ok (process_start d f)) as [[[]|e] a1] eqn:E;
      simpl in *; auto. }
  destruct H0 as [V0 D0].
  destruct (appends_ok rs a0 Hw) as (_ & V & C & R & _).
  fold first in V, C, R. rewrite D0 in C, R. rewrite V0 in V.
  rewrite (map_kept d rs Hk) in R.
  assert (Hfresh : all_records fresh = rows d ++ rs).
  { unfold fresh, exec, new_app, bind.
    pose proof (new_page_ok (process_start (db first) (files first)))
      as (V' & _ & _).
    unfold exec in V'.
    destruct (new_page io_ok (process_start (db first) (files first)))
      as [[[]|e] a1] eqn:E; simpl in *; rewrite V'; exact R. }
  split; [exact Hfresh|]. split.
  { intros Hd. rewrite Hfresh, Hd. reflexivity. }
  split; [exact V|].
  intros a. unfold exec. rewrite load_records_run_ok. simpl.
  now rewrite refreshed_all_records.
Qed.

Lemma load_all_round_trip_witness :
  let rs := [Sample.jane; Sample.john] in
  let first := exec (for_each rs (add_patient_record io_ok))
                 (exec (new_app io_ok) (process_start Sample.empty_db [])) in
  all_records
    (exec (new_app io_ok) (process_start (db first) (files first)))
  = rs.
Proof.
  assert (Hw : Forall (fun r => write_ok io_ok r = true)
                 [Sample.jane; Sample.john])
    by (repeat constructor).
  assert (Hk : Forall (kept_by Sample.empty_db) [Sample.jane; Sample.john])
    by (repeat constructor).
  exact (proj1 (proj2 (load_all_round_trip Sample.empty_db [] _ Hw Hk))
           eq_refl).
Defined.

(** C9.  Every call of [add_patient_record] puts exactly its record at the
    end of the view, whatever becomes of the write.  Over any sequence of
    user actions (saving a screening, searching, exporting) the view at the
    end is the view at the beginning followed by the records handed over,
    in order: nothing is removed, and the record at each earlier position
    is the same as before. *)
Theorem view_only_grows (acts : list action) (a : App) :
  (forall o r a0,
      all_records (exec (add_patient_record o r) a0) = all_records a0 ++ [r])
  /\ all_records (exec (session acts) a)
     = all_records a ++ handed_over_by acts
  /\ (forall i r, nth_error (all_records a) i = Some r ->
        nth_error (all_records (exec (session acts) a)) i = Some r).
Proof.
  split; [intros; apply add_patient_record_view|].
  destruct (session_view acts a) as [_ H]. split; [exact H|].
  intros i r Hi. rewrite H. rewrite nth_error_app1; [exact Hi|].
  apply nth_error_Some. congruence.
Qed.

(* ================================================================== *)
(** ** The dashboard reads the table *)
(* ================================================================== *)

Lemma table_item_row (l : list Row) (i c : nat) :
  table_item (map table_cells l) (Z.of_nat i) c
  = match nth_error l i with
    | Some r => nth_error (table_cells r) c
    | None => None
    end.
Proof.
  unfold table_item.
  destruct (Z.ltb_spec (Z.of_nat i) 0) as [H|_]; [lia|].
  rewrite Nat2Z.id, nth_error_map.
  destruct (nth_error l i); reflexivity.
Qed.

Lemma result_cell (r : Row) :
  nth_error (table_cells r) results_idx
  = option_map str (nth_error r results_idx).
Proof.
  unfold table_cells. rewrite nth_error_firstn.
  change (results_idx <? n_columns) with true. cbv iota.
  apply nth_error_map.
Qed.

Lemma count_dr_from (pre l : list Row) (acc : nat) :
  fold_left
    (fun dr_count r =>
       match table_item (map table_cells (pre ++ l)) (Z.of_nat r) results_idx
       with
       | Some text => if contains "dr" (lower text) then dr_count + 1
                      else dr_count
       | None => dr_count
       end)
    (seq (length pre) (length l)) acc
  = acc + length (List.filter Spec.positive l).
Proof.
  revert pre acc; induction l as [|r l IH]; intros pre acc; simpl.
  - lia.
  - rewrite table_item_row.
    rewrite nth_error_app2, Nat.sub_diag by lia. simpl nth_error at 1.
    replace (pre ++ r :: l) with ((pre ++ [r]) ++ l)
      by (rewrite <- app_assoc; reflexivity).
    replace (S (length pre)) with (length (pre ++ [r]))
      by (rewrite length_app; simpl; lia).
    rewrite IH. rewrite result_cell. unfold Spec.positive.
    destruct (nth_error r results_idx) as [v|]; simpl.
    + destruct (contains "dr" (lower (str v))); simpl; lia.
    + lia.
Qed.

Lemma count_dr_rows (l : list Row) :
  count_dr (map table_cells l) (length l)
  = length (List.filter Spec.positive l).
Proof.
  unfold count_dr. exact (count_dr_from [] l 0).
Qed.

Lemma recent_lines_rows (l : list Row) :
  recent_lines (map table_cells l) (length l)
  = map activity_line (rev (Spec.last_n 5 l)).
Proof.
  unfold Spec.last_n. rewrite <- firstn_rev.
  apply nth_error_ext. intros k.
  unfold recent_lines, range_down.
  set (n := length l).
  rewrite !nth_error_map, nth_error_seq, nth_error_firstn, nth_error_rev.
  fold n.
  destruct (Nat.ltb_spec k (Z.to_nat (Z.of_nat n - 1 - Z.max (-1) (Z.of_nat n - 6))))
    as [Hk|Hk]; simpl.
  - assert (Hk5 : k < 5) by lia. assert (Hkn : k < n) by lia.
    destruct (Nat.ltb_spec k 5); [|lia].
    destruct (Nat.ltb_spec k n); [|lia].
    replace (Z.of_nat n - 1 - Z.of_nat k)%Z with (Z.of_nat (n - S k)) by lia.
    rewrite !table_item_row.
    destruct (nth_error l (n - S k)) as [r|] eqn:E; [reflexivity|].
    apply nth_error_None in E. fold n in E. lia.
  - destruct (Nat.ltb_spec k 5); [|reflexivity].
    destruct (Nat.ltb_spec k n); [lia|reflexivity].
Qed.

Lemma table_stats_rows (l : list Row) :
  table_stats (map table_cells l) = dashboard_of l.
Proof.
  unfold table_stats, dashboard_of.
  rewrite length_map, count_dr_rows, recent_lines_rows. reflexivity.
Qed.

(** After [_refresh_table], a call of [refresh_dashboard] yields the values
    over the records shown for the search text. *)
Lemma dashboard_after_refresh (text : string) (a : App) :
  dashboard (exec refresh_dashboard (exec (_refresh_table text) a))
  = dashboard_of (shown text (all_records a)).
Proof.
  unfold exec. rewrite refresh_table_run, refresh_dashboard_run. simpl.
  rewrite refreshed_table. apply table_stats_rows.
Qed.

Lemma dashboard_refreshed (text : string) (a : App) :
  parent_app a = true ->
  dashboard (refreshed text a) = dashboard_of (shown text (all_records a)).
Proof.
  intros H. unfold refreshed. rewrite H. simpl. apply table_stats_rows.
Qed.

(** C7, run on the code.  After the two appends the card "Total Patients"
    reads 2 and the recent lines are those of both records.  A search for
    "jane" then leaves the view at its two records, yet the card reads 1
    and John's line is gone from the recent activity: [refresh_dashboard]
    counts the rows of the table widget, which holds the records shown for
    the search text, not the records of the view. *)
Lemma statistics_follow_the_search :
  let a := exec (filter_table "jane") Sample.two_records in
  stat_total_value (dashboard Sample.two_records) = "2"
  /\ recent_activity (dashboard Sample.two_records)
     = [("ES-20250101-0002", "John Roe", "Mild DR");
        ("ES-20250101-0001", "Jane Doe", "No DR Detected")]
  /\ all_records a = [Sample.jane; Sample.john]
  /\ length (all_records a) = 2
  /\ stat_total_value (dashboard a) = "1"
  /\ stat_dr_value (dashboard a) = "1"
  /\ recent_activity (dashboard a)
     = [("ES-20250101-0001", "Jane Doe", "No DR Detected")]
  /\ map activity_line (rev (Spec.last_n 5 (all_records a)))
     = [("ES-20250101-0002", "John Roe", "Mild DR");
        ("ES-20250101-0001", "Jane Doe", "No DR Detected")].
Proof. vm_compute. repeat split. Qed.

(** Where the values of the dashboard come from.  Every call of
    [refresh_dashboard] recomputes them from the rows of the records table
    and from nothing else.  Once the page has its [parent_app], an append
    (which shows every record) refreshes the dashboard with the values over
    the whole view, and a search with the values over the records it
    shows. *)
Theorem statistics_read_the_table (text : string) (o : io) (r : Row) (a : App) :
  exec refresh_dashboard a
  = set_dashboard (table_stats (patient_table a)) a
  /\ dashboard (exec refresh_dashboard (exec (_refresh_table text) a))
     = dashboard_of (shown text (all_records a))
  /\ (parent_app a = true ->
      dashboard (exec (filter_table text) a)
      = dashboard_of (shown text (all_records a)))
  /\ (parent_app a = true ->
      dashboard (exec (add_patient_record o r) a)
      = dashboard_of (all_records a ++ [r])).
Proof.
  split; [reflexivity|]. split; [apply dashboard_after_refresh|]. split.
  - intros H. unfold exec. rewrite filter_table_run. simpl.
    now apply dashboard_refreshed.
  - intros H. unfold exec. rewrite add_patient_record_run. simpl.
    rewrite dashboard_refreshed, shown_empty.
    + destruct (sql_insert o r (db a)); reflexivity.
    + destruct (sql_insert o r (db a)); exact H.
Qed.

Lemma statistics_read_the_table_witness :
  parent_app Sample.started = true
  /\ dashboard (exec (filter_table "jane") Sample.two_records)
     = dashboard_of (shown "jane" (all_records Sample.two_records))
  /\ dashboard (exec (add_patient_record io_ok Sample.jane) Sample.started)
     = dashboard_of (all_records Sample.started ++ [Sample.jane]).
Proof.
  split; [reflexivity|]. split.
  - exact (proj1 (proj2 (proj2
      (statistics_read_the_table "jane" io_ok Sample.jane Sample.two_records)))
      eq_refl).
  - exact (proj2 (proj2 (proj2
      (statistics_read_the_table "" io_ok Sample.jane Sample.started)))
      eq_refl).
Defined.

(** C8, the scenario run on the code.  With Jane ("No DR Detected") and
    John ("Mild DR") appended, a search for "dr" shows both and a search
    for "jane" shows Jane only, but the card "DR Positive Cases" reads 2:
    "dr" is a substring of "no dr detected" as well. *)
Lemma two_record_scenario :
  patient_table (exec (filter_table "dr") Sample.two_records)
  = [table_cells Sample.jane; table_cells Sample.john]
  /\ patient_table (exec (filter_table "jane") Sample.two_records)
     = [table_cells Sample.jane]
  /\ stat_dr_value (dashboard Sample.two_records) = "2"
  /\ stat_dr_value (dashboard (exec (filter_table "dr") Sample.two_records))
     = "2".
Proof. vm_compute. repeat split. Qed.

(* ================================================================== *)
(** ** Strings: [strip], [lower] and [in] *)
(* ================================================================== *)

Section Strings.

Local Open Scope string_scope.

Lemma append_nil_r (s : string) : s ++ "" = s.
Proof. induction s as [|c s IH]; simpl; [reflexivity|now rewrite IH]. Qed.

Lemma append_assoc (s t u : string) : (s ++ t) ++ u = s ++ (t ++ u).
Proof. induction s as [|c s IH]; simpl; [reflexivity|now rewrite IH]. Qed.

Lemma isspace_lower_char (c : ascii) : isspace (lower_char c) = isspace c.
Proof. destruct c as [[] [] [] [] [] [] [] []]; reflexivity. Qed.

Lemma or_else_empty (s : string) : or_else s "" = s.
Proof. destruct s; reflexivity. Qed.

Lemma is_empty_true (s : string) : is_empty s = true -> s = "".
Proof. destruct s; [reflexivity|discriminate]. Qed.

Lemma is_empty_lower (s : string) : is_empty (lower s) = is_empty s.
Proof. destruct s; reflexivity. Qed.

Lemma all_space_lower (s : string) : all_space (lower s) = all_space s.
Proof.
  induction s as [|c s IH]; simpl; [reflexivity|].
  now rewrite isspace_lower_char, IH.
Qed.

Lemma head_nonspace_lower (s : string) :
  head_nonspace (lower s) = head_nonspace s.
Proof. destruct s; simpl; [reflexivity|now rewrite isspace_lower_char]. Qed.

Lemma last_nonspace_lower (s : string) :
  last_nonspace (lower s) = last_nonspace s.
Proof.
  induction s as [|c s IH]; [reflexivity|].
  destruct s as [|c' s']; simpl in *.
  - now rewrite isspace_lower_char.
  - exact IH.
Qed.

Lemma rstrip_empty (s : string) : is_empty (rstrip s) = all_space s.
Proof.
  induction s as [|c s IH]; simpl; [reflexivity|].
  destruct (rstrip s) eqn:E; simpl in *; rewrite <- IH.
  - destruct (isspace c); reflexivity.
  - now rewrite andb_false_r.
Qed.

Lemma rstrip_cons (c : ascii) (s : string) :
  rstrip (String c s)
  = if all_space (String c s) then "" else String c (rstrip s).
Proof.
  simpl. rewrite <- rstrip_empty.
  destruct (rstrip s); simpl.
  - destruct (isspace c); reflexivity.
  - now rewrite andb_false_r.
Qed.

Lemma lower_lstrip (s : string) : lower (lstrip s) = lstrip (lower s).
Proof.
  induction s as [|c s IH]; simpl; [reflexivity|].
  rewrite isspace_lower_char. destruct (isspace c); [exact IH|reflexivity].
Qed.

Lemma lower_rstrip (s : string) : lower (rstrip s) = rstrip (lower s).
Proof.
  induction s as [|c s IH]; [reflexivity|].
  change (lower (String c s)) with (String (lower_char c) (lower s)).
  rewrite !rstrip_cons.
  change (all_space (String (lower_char c) (lower s)))
    with (isspace (lower_char c) && all_space (lower s)).
  rewrite isspace_lower_char, all_space_lower.
  change (isspace c && all_space s) with (all_space (String c s)).
  destruct (all_space (String c s)); simpl; [reflexivity|now rewrite IH].
Qed.

Lemma lower_strip (s : string) : lower (strip s) = strip (lower s).
Proof. unfold strip. now rewrite lower_rstrip, lower_lstrip. Qed.

Lemma last_nonspace_not_all_space (n : string) :
  last_nonspace n = true -> all_space n = false.
Proof.
  induction n as [|c n IH]; [discriminate|].
  destruct n as [|c' n']; simpl in *.
  - intros H. destruct (isspace c); [discriminate|reflexivity].
  - intros H. rewrite (IH H). apply andb_false_r.
Qed.

Lemma startswith_all_space (n h : string) :
  startswith n h = true -> all_space h = true -> all_space n = true.
Proof.
  revert h; induction n as [|c n IH]; intros h; [reflexivity|].
  destruct h as [|x h]; simpl; [discriminate|].
  intros H1 H2. apply andb_prop in H1. destruct H1 as [Hc Hn].
  apply andb_prop in H2. destruct H2 as [Hx Hh].
  apply Ascii.eqb_eq in Hc. subst x.
  now rewrite Hx, (IH h Hn Hh).
Qed.

Lemma startswith_in_space (n h : string) :
  last_nonspace n = true -> all_space h = true -> startswith n h = false.
Proof.
  intros Hn Hh. destruct (startswith n h) eqn:E; [|reflexivity].
  pose proof (startswith_all_space n h E Hh) as H.
  rewrite (last_nonspace_not_all_space n Hn) in H. discriminate.
Qed.

Lemma contains_in_space (n h : string) :
  last_nonspace n = true -> all_space h = true -> contains n h = false.
Proof.
  intros Hn. induction h as [|x h IH]; intros Hh.
  - simpl. destruct n; [discriminate|reflexivity].
  - change (contains n (String x h))
      with (startswith n (String x h) || contains n h).
    rewrite (startswith_in_space n _ Hn Hh).
    simpl in Hh. apply andb_prop in Hh. now rewrite IH.
Qed.

Lemma startswith_rstrip (n h : string) :
  last_nonspace n = true -> startswith n (rstrip h) = startswith n h.
Proof.
  revert n; induction h as [|x h IH]; intros n Hn; [reflexivity|].
  rewrite rstrip_cons. destruct (all_space (String x h)) eqn:E.
  - rewrite (startswith_in_space n _ Hn E).
    destruct n; [discriminate|reflexivity].
  - destruct n as [|c n]; [discriminate|]. simpl.
    destruct n as [|c' n'].
    + reflexivity.
    + rewrite (IH (String c' n')); [reflexivity|exact Hn].
Qed.

Lemma contains_rstrip (n h : string) :
  last_nonspace n = true -> contains n (rstrip h) = contains n h.
Proof.
  intros Hn. induction h as [|x h IH]; [reflexivity|].
  pose proof (startswith_rstrip n (String x h) Hn) as Hs.
  rewrite rstrip_cons in *. destruct (all_space (String x h)) eqn:E.
  - rewrite (contains_in_space n _ Hn E).
    destruct n; [discriminate|reflexivity].
  - change (contains n (String x (rstrip h)))
      with (startswith n (String x (rstrip h)) || contains n (rstrip h)).
    change (contains n (String x h))
      with (startswith n (String x h) || contains n h).
    now rewrite Hs, IH.
Qed.

Lemma contains_lstrip (n h : string) :
  head_nonspace n = true -> contains n (lstrip h) = contains n h.
Proof.
  intros Hn. induction h as [|x h IH]; [reflexivity|].
  simpl lstrip. destruct (isspace x) eqn:E; [|reflexivity].
  rewrite IH.
  change (contains n (String x h))
    with (startswith n (String x h) || contains n h).
  destruct n as [|c n]; [discriminate|]. simpl in Hn. simpl startswith.
  destruct (Ascii.eqb_spec c x) as [->|_]; [|reflexivity].
  rewrite E in Hn. discriminate.
Qed.

Lemma contains_strip (n h : string) :
  head_nonspace n = true -> last_nonspace n = true ->
  contains n (strip h) = contains n h.
Proof.
  intros H1 H2. unfold strip. now rewrite contains_rstrip, contains_lstrip.
Qed.

Lemma lstrip_head (s : string) :
  is_empty (lstrip s) = false -> head_nonspace (lstrip s) = true.
Proof.
  induction s as [|c s IH]; simpl; [discriminate|].
  destruct (isspace c) eqn:E; [exact IH|]. simpl. now rewrite E.
Qed.

Lemma rstrip_head (s : string) :
  is_empty (rstrip s) = false -> head_nonspace (rstrip s) = head_nonspace s.
Proof.
  destruct s as [|c s]; [reflexivity|]. rewrite rstrip_cons.
  destruct (all_space (String c s)); [discriminate|reflexivity].
Qed.

Lemma rstrip_last (s : string) :
  is_empty (rstrip s) = false -> last_nonspace (rstrip s) = true.
Proof.
  induction s as [|c s IH]; [discriminate|].
  rewrite rstrip_cons. destruct (all_space (String c s)) eqn:E;
    [discriminate|]. intros _.
  destruct (rstrip s) as [|c' r] eqn:Er.
  - simpl. simpl in E. pose proof (rstrip_empty s) as H. rewrite Er in H.
    simpl in H. rewrite <- H, andb_true_r in E. now rewrite E.
  - apply IH. reflexivity.
Qed.

Lemma strip_shape (s : string) :
  is_empty (strip s) = false ->
  head_nonspace (strip s) = true /\ last_nonspace (strip s) = true.
Proof.
  unfold strip. intros H. split.
  - rewrite rstrip_head by exact H. apply lstrip_head.
    destruct (lstrip s); [discriminate H|reflexivity].
  - now apply rstrip_last.
Qed.

Lemma startswith_refl (s : string) : startswith s s = true.
Proof.
  induction s as [|c s IH]; simpl; [reflexivity|].
  now rewrite Ascii.eqb_refl.
Qed.

Lemma contains_refl (s : string) : contains s s = true.
Proof. destruct s; simpl; [reflexivity|]. now rewrite Ascii.eqb_refl, startswith_refl. Qed.

(** A query that is not blank finds the same occurrences in a value and in
    the stripped value. *)
Lemma contains_query (query s : string) :
  is_empty (strip query) = false ->
  contains (lower (strip query)) (lower (strip s))
  = contains (lower (strip query)) (lower s).
Proof.
  intros H. destruct (strip_shape query H) as [H1 H2].
  rewrite (lower_strip s). apply contains_strip.
  - now rewrite head_nonspace_lower.
  - now rewrite last_nonspace_lower.
Qed.

End Strings.

(* ================================================================== *)
(** ** Search *)
(* ================================================================== *)

Lemma existsb_non_null (p : PyVal -> bool) (r : Row) :
  existsb p (List.filter (fun val => negb (is_none val)) r)
  = existsb (fun v => negb (is_none v) && p v) r.
Proof.
  induction r as [|v r IH]; simpl; [reflexivity|].
  destruct (is_none v); simpl; now rewrite IH.
Qed.

Lemma show_matches (query : string) (r : Row) :
  is_empty (strip query) = false ->
  show (lower (strip (or_else query ""))) r = Spec.matches query r.
Proof.
  intros H. rewrite or_else_empty. unfold show, Spec.matches.
  rewrite is_empty_lower, H, existsb_non_null.
  induction r as [|v r IH]; simpl; [reflexivity|].
  now rewrite IH, (contains_query query (str v) H).
Qed.

Lemma shown_filter (query : string) (records : list Row) :
  shown query records = Spec.filter query records.
Proof.
  unfold Spec.filter. destruct (is_empty (strip query)) eqn:E.
  - unfold shown. rewrite or_else_empty, (is_empty_true _ E). simpl.
    induction records as [|r l IH]; simpl; [reflexivity|now rewrite IH].
  - unfold shown. apply filter_ext. intros r. now apply show_matches.
Qed.

Lemma show_own_field (V : PyVal) (R : Row) :
  In V R -> V <> PNone ->
  show (lower (strip (or_else (str V) ""))) R = true.
Proof.
  intros HV Hn. rewrite or_else_empty. unfold show.
  destruct (is_empty (lower (strip (str V)))); [reflexivity|].
  apply existsb_exists. exists V. split.
  - apply filter_In. split; [exact HV|]. destruct V; [contradiction| |];
      reflexivity.
  - apply contains_refl.
Qed.

(** C4.  After a search for [query] the table holds exactly the records of
    the view for which the query, stripped and lowered, occurs in the
    lowered [str] of some field that is not [None]; they come in the order
    of the view.  A query that is empty or all whitespace shows every
    record.  A search for (the text of) any field of a record of the view,
    the field not being [None], shows that record. *)
Theorem search_by_substring (query : string) (a : App) :
  patient_table (exec (filter_table query) a)
  = map table_cells (Spec.filter query (all_records a))
  /\ (is_empty (strip query) = true ->
      patient_table (exec (filter_table query) a)
      = map table_cells (all_records a))
  /\ (forall R V, In R (all_records a) -> In V R -> V <> PNone ->
        In R (Spec.filter (str V) (all_records a))
        /\ In (table_cells R)
              (patient_table (exec (filter_table (str V)) a))).
Proof.
  assert (Htable : forall q, patient_table (exec (filter_table q) a)
                             = map table_cells (Spec.filter q (all_records a))).
  { intros q. unfold exec. rewrite filter_table_run. simpl.
    now rewrite refreshed_table, shown_filter. }
  split; [apply Htable|]. split.
  - intros H. rewrite Htable. unfold Spec.filter. now rewrite H.
  - intros R V HR HV Hn.
    assert (Hin : In R (Spec.filter (str V) (all_records a))).
    { rewrite <- shown_filter. unfold shown. apply filter_In.
      split; [exact HR|]. now apply show_own_field. }
    split; [exact Hin|]. rewrite Htable. now apply in_map.
Qed.

Lemma search_by_substring_witness :
  is_empty (strip "   ") = true
  /\ patient_table (exec (filter_table "   ") Sample.two_records)
     = map table_cells (all_records Sample.two_records)
  /\ In Sample.john
        (Spec.filter (str (PStr "Mild DR")) (all_records Sample.two_records)).
Proof.
  pose proof (search_by_substring "   " Sample.two_records) as (_ & H2 & H3).
  split; [reflexivity|]. split; [exact (H2 eq_refl)|].
  refine (proj1 (H3 Sample.john (PStr "Mild DR") _ _ _)).
  - right. left. reflexivity.
  - unfold Sample.john. simpl. tauto.
  - discriminate.
Defined.

(* ================================================================== *)
(** ** The record built by the screening page *)
(* ================================================================== *)

Lemma digits_of_uint (u : Decimal.uint) :
  all_digits (NilEmpty.string_of_uint u) = true.
Proof. induction u; simpl; auto. Qed.

Lemma str_of_int_digits (z : Z) :
  (0 <= z)%Z ->
  all_digits (str_of_int z) = true /\ is_empty (str_of_int z) = false.
Proof.
  intros H. unfold str_of_int. destruct z as [|p|p]; [split; reflexivity| |lia].
  simpl. unfold NilZero.string_of_uint.
  pose proof (digits_of_uint (Pos.to_uint p)) as Hd.
  destruct (Pos.to_uint p) eqn:E; simpl in *; split; auto.
Qed.

Lemma str_of_int_one_digit (m : Z) :
  (0 <= m < 10)%Z -> exists d, str_of_int m = String d "" /\ is_digit d = true.
Proof.
  intros H.
  assert (C : (m = 0 \/ m = 1 \/ m = 2 \/ m = 3 \/ m = 4 \/ m = 5 \/ m = 6
               \/ m = 7 \/ m = 8 \/ m = 9)%Z) by lia.
  repeat (destruct C as [->|C]; [eexists; split; reflexivity|]).
  subst m. eexists; split; reflexivity.
Qed.

Lemma one_decimal_percent_shape (ds : string) (d : ascii) :
  all_digits ds = true -> is_empty ds = false -> is_digit d = true ->
  one_decimal_percent (ds ++ String "." (String d "%"))%string = true.
Proof.
  induction ds as [|c ds IH]; [discriminate|].
  intros Hds _ Hd. simpl in Hds. apply andb_prop in Hds.
  destruct Hds as [Hc Hds]. simpl. rewrite Hc. simpl.
  destruct ds as [|c' ds'].
  - simpl. now rewrite Hd.
  - rewrite IH by auto. apply orb_true_r.
Qed.

Lemma format_1f_percent_shape (tenths : Z) :
  (0 <= tenths)%Z -> one_decimal_percent (format_1f_percent tenths) = true.
Proof.
  intros H. unfold format_1f_percent.
  destruct (Z.ltb_spec tenths 0) as [|_]; [lia|]. simpl append.
  rewrite Z.abs_eq by exact H.
  destruct (str_of_int_digits (tenths / 10)) as [Hd Hn];
    [apply Z.div_pos; lia|].
  destruct (str_of_int_one_digit (tenths mod 10)) as (d & -> & Hdig);
    [apply Z.mod_pos_bound; lia|].
  now apply one_decimal_percent_shape.
Qed.

Lemma born_this_year_age (today date : QDate) (f : Form) :
  QDate_eqb date minimumDate = false -> (year today <= year date)%Z ->
  p_age (pick_dob today date f) = 0%Z /\ p_dob (pick_dob today date f) = date.
Proof.
  intros Hd Hy. unfold pick_dob, update_age_from_dob. rewrite Hd.
  destruct (month_day_before today date); simpl; unfold clamp; split;
    try reflexivity; lia.
Qed.

(** C10.  A record handed to the store by [save_screening] (there is one
    when the name is not blank) has fourteen fields; its diabetes type is
    the selected text, or the empty string in place of "Select", so never
    "Select"; its age is the empty string exactly when the age box shows 0,
    which is also what a date of birth in the current year gives, next to a
    birthdate that is filled in; its previous-treatment field is "Yes" or
    "No"; its HbA1c is digits, a point, one digit and a percent sign.  The
    form is in the ranges its widgets enforce. *)
Theorem handed_over_is_normalized (f : Form) (r : Row) :
  form_ok f = true ->
  handed_over f = Some r ->
  length r = n_columns
  /\ nth_error r 7
     = Some (PStr (if String.eqb (diabetes_type f) "Select" then ""
                   else diabetes_type f))
  /\ nth_error r 7 <> Some (PStr "Select")
  /\ (nth_error r 3 = Some (PStr "") <-> p_age f = 0%Z)
  /\ (forall today date,
        QDate_eqb date minimumDate = false -> (year today <= year date)%Z ->
        let r' := patient_data_of (pick_dob today date f) in
        nth_error r' 2 = Some (PStr (toString_yyyy_MM_dd date))
        /\ nth_error r' 3 = Some (PStr ""))
  /\ (nth_error r 10 = Some (PStr "Yes") \/ nth_error r 10 = Some (PStr "No"))
  /\ (exists s, nth_error r 9 = Some (PStr s)
                /\ one_decimal_percent s = true).
Proof.
  intros Hok Hr. unfold handed_over in Hr.
  destruct (is_empty (strip (p_name f))); [discriminate|].
  injection Hr as <-.
  unfold form_ok in Hok.
  repeat (apply andb_prop in Hok; destruct Hok as [Hok ?]).
  split; [reflexivity|]. split; [reflexivity|]. split.
  { simpl. destruct (String.eqb_spec (diabetes_type f) "Select") as [E|E].
    - discriminate.
    - intros H'. injection H' as H'. contradiction. }
  split.
  { simpl. destruct (Z.gtb_spec (p_age f) 0) as [Hp|Hp].
    - split; [discriminate|lia].
    - split; [lia|reflexivity]. }
  split.
  { intros today date Hd Hy r'.
    destruct (born_this_year_age today date f Hd Hy) as [Ha Hdob].
    unfold r', patient_data_of. rewrite Ha, Hdob, Hd. split; reflexivity. }
  split.
  { simpl. destruct (prev_treatment f); [left|right]; reflexivity. }
  eexists. split; [reflexivity|].
  apply format_1f_percent_shape. lia.
Qed.

Lemma handed_over_is_normalized_witness :
  form_ok Sample.form = true
  /\ handed_over Sample.form = Some (patient_data_of Sample.form)
  /\ nth_error (patient_data_of Sample.form) 7 <> Some (PStr "Select")
  /\ nth_error
       (patient_data_of
          (pick_dob {| year := 2025; month := 6; day := 30 |}
                    {| year := 2025; month := 3; day := 9 |} Sample.form)) 2
     = Some (PStr "2025-03-09").
Proof.
  pose proof (handed_over_is_normalized Sample.form
                (patient_data_of Sample.form) eq_refl eq_refl)
    as (_ & _ & H3 & _ & H5 & _).
  split; [reflexivity|]. split; [reflexivity|]. split; [exact H3|].
  refine (proj1 (H5 {| year := 2025; month := 6; day := 30 |}
                    {| year := 2025; month := 3; day := 9 |} eq_refl _)).
  simpl. lia.
Defined.

(* ================================================================== *)
(** ** CSV: what is written, and reading it back *)
(* ================================================================== *)

Section CsvRoundTrip.

Import Csv CsvReader.
Local Open Scope string_scope.

Lemma feed_app (r : reader) (s t : string) :
  feed r (s ++ t) = feed (feed r s) t.
Proof. revert r; induction s as [|c s IH]; intros r; simpl; auto. Qed.

Lemma feed_cons (r : reader) (c : ascii) (s : string) :
  feed r (String c s) = feed (process_char r c) s.
Proof. reflexivity. Qed.

Lemma special_false (c : ascii) :
  special c = false ->
  Ascii.eqb c comma = false /\ Ascii.eqb c quote = false
  /\ is_newline c = false.
Proof.
  unfold special, is_newline. intros H.
  destruct (Ascii.eqb c comma), (Ascii.eqb c quote), (Ascii.eqb c CR),
    (Ascii.eqb c LF); simpl in *; try discriminate; auto.
Qed.

(** Inside an unquoted field, plain characters pile up. *)
Lemma feed_plain (s f : string) (fs : list string) (rs : list (list string)) :
  needs_quotes s = false ->
  feed {| st := IN_FIELD; cur := f; fields := fs; records := rs |} s
  = {| st := IN_FIELD; cur := f ++ s; fields := fs; records := rs |}.
Proof.
  revert f; induction s as [|c s IH]; intros f H; simpl.
  - now rewrite append_nil_r.
  - simpl in H. apply orb_false_elim in H. destruct H as [Hc Hs].
    destruct (special_false c Hc) as (H1 & H2 & H3).
    unfold process_char. simpl. rewrite H3, H1. unfold add_char. simpl.
    rewrite IH by exact Hs. now rewrite append_assoc.
Qed.

(** Inside a quoted field, the escaped text gives back the text. *)
Lemma feed_escaped (s f : string) (fs : list string) (rs : list (list string)) :
  feed {| st := IN_QUOTED_FIELD; cur := f; fields := fs; records := rs |}
       (escape s)
  = {| st := IN_QUOTED_FIELD; cur := f ++ s; fields := fs; records := rs |}.
Proof.
  revert f; induction s as [|c s IH]; intros f; simpl.
  - now rewrite append_nil_r.
  - destruct (Ascii.eqb_spec c quote) as [->|Hc]; simpl.
    + unfold process_char, set_st, add_char. simpl.
      rewrite IH. now rewrite append_assoc.
    + unfold process_char. simpl.
      destruct (Ascii.eqb_spec c quote) as [|_]; [contradiction|].
      unfold add_char. simpl. rewrite IH. now rewrite append_assoc.
Qed.

(** One written field, read from the start of a field. *)
Lemma feed_field (f : string) (fs : list string) (rs : list (list string)) :
  exists s,
    feed {| st := START_FIELD; cur := ""; fields := fs; records := rs |}
         (field f)
    = {| st := s; cur := f; fields := fs; records := rs |}
    /\ closed s f.
Proof.
  unfold field. destruct (needs_quotes f) eqn:E.
  - exists QUOTE_IN_QUOTED_FIELD. split; [|right; left; reflexivity].
    simpl. unfold process_char at 1. simpl.
    change (start_field
              {| st := START_FIELD; cur := ""; fields := fs; records := rs |}
              quote)
      with {| st := IN_QUOTED_FIELD; cur := ""; fields := fs; records := rs |}.
    rewrite feed_app, feed_escaped. reflexivity.
  - destruct f as [|c f].
    + exists START_FIELD. split; [reflexivity|]. right; right. split; reflexivity.
    + exists IN_FIELD. split; [|left; reflexivity].
      simpl in E. apply orb_false_elim in E. destruct E as [Hc Hf].
      destruct (special_false c Hc) as (H1 & H2 & H3).
      simpl. unfold process_char. simpl. unfold start_field.
      rewrite H3, H2, H1. unfold add_char, set_st. simpl.
      now rewrite feed_plain.
Qed.

Lemma comma_closes (s : state) (f : string) (fs : list string)
    (rs : list (list string)) :
  closed s f ->
  process_char {| st := s; cur := f; fields := fs; records := rs |} comma
  = {| st := START_FIELD; cur := ""; fields := (fs ++ [f])%list; records := rs |}.
Proof. intros [->|[->|[-> ->]]]; reflexivity. Qed.

Lemma line_end_closes (s : state) (f : string) (fs : list string)
    (rs : list (list string)) :
  closed s f ->
  feed {| st := s; cur := f; fields := fs; records := rs |} lineterminator
  = {| st := START_RECORD; cur := ""; fields := [];
       records := (rs ++ [fs ++ [f]])%list |}.
Proof. intros [->|[->|[-> ->]]]; reflexivity. Qed.

(** The fields of one line, read from the start of a field. *)
Lemma feed_join (f : string) (rest fs : list string) (rs : list (list string)) :
  exists s g gs,
    feed {| st := START_FIELD; cur := ""; fields := fs; records := rs |}
         (join (f :: rest))
    = {| st := s; cur := g; fields := gs; records := rs |}
    /\ closed s g /\ (gs ++ [g] = fs ++ f :: rest)%list.
Proof.
  revert f fs; induction rest as [|f' rest IH]; intros f fs.
  - destruct (feed_field f fs rs) as (s & H & Hc).
    exists s, f, fs. simpl join. auto.
  - change (join (f :: f' :: rest))
      with (field f ++ String comma (join (f' :: rest))).
    destruct (feed_field f fs rs) as (s & H & Hc).
    rewrite feed_app, H, feed_cons, (comma_closes _ _ _ _ Hc).
    destruct (IH f' (fs ++ [f])%list) as (s' & g & gs & H' & Hc' & Hg).
    exists s', g, gs. rewrite H'. split; [reflexivity|]. split; [exact Hc'|].
    rewrite Hg, <- app_assoc. reflexivity.
Qed.

Lemma field_starts_inside_line (f : string) :
  starts_inside_line (field f) = true.
Proof.
  unfold field. destruct (needs_quotes f) eqn:E; [reflexivity|].
  destruct f as [|c f]; [reflexivity|]. simpl in *.
  apply orb_false_elim in E. destruct E as [Hc _].
  destruct (special_false c Hc) as (_ & _ & ->). reflexivity.
Qed.

Lemma join_starts_inside_line (fs : list string) :
  starts_inside_line (join fs) = true.
Proof.
  destruct fs as [|f [|g rest]]; [reflexivity|apply field_starts_inside_line|].
  change (join (f :: g :: rest))
    with (field f ++ String comma (join (g :: rest))).
  pose proof (field_starts_inside_line f) as H.
  destruct (field f); [reflexivity|exact H].
Qed.

(** A line that is not empty reads the same from the start of a record as
    from the start of a field. *)
Lemma feed_from_record_start (line : string) (rs : list (list string)) :
  is_empty line = false -> starts_inside_line line = true ->
  feed {| st := START_RECORD; cur := ""; fields := []; records := rs |} line
  = feed {| st := START_FIELD; cur := ""; fields := []; records := rs |} line.
Proof.
  destruct line as [|c line]; [discriminate|]. intros _ H. simpl in H.
  simpl. unfold process_char. simpl. unfold start_record.
  apply negb_true_iff in H. simpl. rewrite H. reflexivity.
Qed.

Lemma field_empty (f : string) : is_empty (field f) = true -> f = "".
Proof.
  unfold field. destruct (needs_quotes f); [discriminate|].
  apply is_empty_true.
Qed.

Lemma join_empty (fs : list string) :
  is_empty (join fs) = true -> fs = [] \/ fs = [""].
Proof.
  destruct fs as [|f [|g rest]]; [now left| |].
  - simpl. intros H. right. now rewrite (field_empty f H).
  - change (join (f :: g :: rest))
      with (field f ++ String comma (join (g :: rest))).
    destruct (field f); discriminate.
Qed.

(** One written row, read from the start of a record. *)
Lemma feed_row (fs : list string) (rs : list (list string)) :
  feed {| st := START_RECORD; cur := ""; fields := []; records := rs |}
       (writerow_text fs)
  = {| st := START_RECORD; cur := ""; fields := []; records := (rs ++ [fs])%list |}.
Proof.
  unfold writerow_text. destruct (is_empty (join fs)) eqn:E.
  - destruct (join_empty fs E) as [->| ->]; reflexivity.
  - simpl andb. cbv iota. rewrite feed_app.
    rewrite feed_from_record_start
      by (auto using join_starts_inside_line).
    destruct fs as [|f rest]; [discriminate|].
    destruct (feed_join f rest [] rs) as (s & g & gs & H & Hc & Hg).
    rewrite H, (line_end_closes _ _ _ _ Hc), Hg. reflexivity.
Qed.

Lemma feed_rows (rows : list (list string)) (rs : list (list string)) :
  feed {| st := START_RECORD; cur := ""; fields := []; records := rs |}
       (fold_right (fun r rest => writerow_text r ++ rest) "" rows)
  = {| st := START_RECORD; cur := ""; fields := []; records := (rs ++ rows)%list |}.
Proof.
  revert rs; induction rows as [|fs rows IH]; intros rs; simpl.
  - now rewrite app_nil_r.
  - rewrite feed_app, feed_row, IH, <- app_assoc. reflexivity.
Qed.

Lemma export_text_unfold (records : list Row) :
  export_text records = Spec.export header_labels records.
Proof.
  unfold export_text, Spec.export.
  generalize (writerow_text header_labels) as acc.
  induction records as [|r l IH]; intros acc; simpl.
  - now rewrite append_nil_r.
  - rewrite IH. now rewrite append_assoc.
Qed.

Lemma export_rows (header : list string) (records : list Row) :
  Spec.export header records
  = fold_right (fun r rest => writerow_text r ++ rest) ""
      (header :: map (map text) records).
Proof.
  unfold Spec.export. simpl. f_equal.
  induction records as [|r l IH]; simpl; [reflexivity|].
  now rewrite IH.
Qed.

Lemma read_export (header : list string) (records : list Row) :
  read (Spec.export header records) = header :: map (map text) records.
Proof.
  unfold read, initial. rewrite export_rows, feed_rows. reflexivity.
Qed.

End CsvRoundTrip.

(* ================================================================== *)
(** ** Export *)
(* ================================================================== *)

Lemma refreshed_files text a : files (refreshed text a) = files a.
Proof. unfold refreshed. destruct (parent_app a); reflexivity. Qed.

Lemma export_to_csv_writes (path : string) (a : App) :
  is_empty path = false ->
  files (exec (export_to_csv path io_ok) a)
  = (path, export_text (all_records a)) :: files a.
Proof.
  intros H. unfold exec, export_to_csv. rewrite H. reflexivity.
Qed.

(** C5, at a concrete input.  With both records in the view and the table
    narrowed to Jane by a search, the exported file still holds John's row;
    it is neither the export of the filtered view nor headed by the field
    names of the data model. *)
Lemma export_ignores_the_search :
  let a := exec (filter_table "jane") Sample.two_records in
  patient_table a = [table_cells Sample.jane]
  /\ files (exec (export_to_csv "records.csv" io_ok) a)
     = [("records.csv",
         Spec.export header_labels [Sample.jane; Sample.john])]
  /\ Spec.export header_labels [Sample.jane; Sample.john]
     <> Spec.export header_labels (Spec.filter "jane" (all_records a))
  /\ Csv.writerow_text header_labels <> Csv.writerow_text Spec.field_names.
Proof.
  split; [vm_compute; reflexivity|]. split; [vm_compute; reflexivity|].
  split; intros H; vm_compute in H; discriminate H.
Qed.

(** C5, as the code has it.  The export writes a fixed header row, the
    fourteen column labels of the records table in column order, and then
    every record of the in-memory view, whatever the search text in force,
    one CSV row per record with the fields in the record's order. *)
Theorem export_writes_whole_view (path text : string) (a : App) :
  is_empty path = false ->
  files (exec (export_to_csv path io_ok) a)
  = (path, Spec.export header_labels (all_records a)) :: files a
  /\ files (exec (export_to_csv path io_ok) (exec (filter_table text) a))
     = (path, Spec.export header_labels (all_records a)) :: files a
  /\ header_labels
     = ["Patient ID"; "Name"; "Birthdate"; "Age"; "Sex"; "Contact"; "Eye(s)";
        "Diabetes Type"; "Duration (yrs)"; "HbA1c"; "Prev Treatment";
        "Notes"; "Result"; "Confidence"].
Proof.
  intros H. split; [|split; [|reflexivity]].
  - now rewrite export_to_csv_writes, export_text_unfold.
  - rewrite export_to_csv_writes by exact H. unfold exec.
    rewrite filter_table_run. simpl.
    now rewrite refreshed_all_records, refreshed_files, export_text_unfold.
Qed.

Lemma export_writes_whole_view_witness :
  is_empty "records.csv" = false
  /\ files (exec (export_to_csv "records.csv" io_ok)
              (exec (filter_table "jane") Sample.two_records))
     = ("records.csv",
        Spec.export header_labels (all_records Sample.two_records))
       :: files Sample.two_records.
Proof.
  split; [reflexivity|].
  exact (proj1 (proj2
    (export_writes_whole_view "records.csv" "jane" Sample.two_records
       eq_refl))).
Defined.

Lemma text_field_text (v : PyVal) : Csv.text v = field_text v.
Proof. destruct v; reflexivity. Qed.

Lemma read_export_text (records : list Row) :
  CsvReader.read (export_text records)
  = header_labels :: map (map field_text) records.
Proof.
  rewrite export_text_unfold, read_export. f_equal.
  apply map_ext. intros r. apply map_ext. exact text_field_text.
Qed.

Lemma read_back_export (records : list Row) :
  read_back (export_text records) = map (map as_read) records.
Proof.
  unfold read_back. rewrite read_export_text. simpl tl.
  rewrite map_map. apply map_ext. intros r. now rewrite map_map.
Qed.

Lemma as_read_str (r : Row) : all_str r = true -> map as_read r = r.
Proof.
  induction r as [|v r IH]; [reflexivity|]. simpl.
  destruct v; try discriminate. intros H. now rewrite (IH H).
Qed.

Lemma as_read_all_str (records : list Row) :
  forallb all_str records = true -> map (map as_read) records = records.
Proof.
  induction records as [|r l IH]; [reflexivity|]. simpl. intros H.
  apply andb_prop in H. destruct H as [Hr Hl].
  now rewrite (as_read_str r Hr), (IH Hl).
Qed.

(** C6, at a concrete input.  Three records are exported and the file is
    read back.  The rows read are not the records exported: Jane's age,
    the integer 44, comes back as the text of its digits, and the missing
    birthdate of the third record, [None], comes back as the empty
    text. *)
Lemma export_reads_numbers_as_text :
  let a := exec (add_patient_record io_ok Sample.tricky) Sample.two_records in
  let file := export_text (all_records a) in
  files (exec (export_to_csv "records.csv" io_ok) a) = [("records.csv", file)]
  /\ all_records a = [Sample.jane; Sample.john; Sample.tricky]
  /\ read_back file <> all_records a
  /\ nth_error Sample.jane 3 = Some (PInt 44)
  /\ nth_error (nth 0 (read_back file) []) 3 = Some (PStr "44")
  /\ nth_error Sample.tricky 2 = Some PNone
  /\ nth_error (nth 2 (read_back file) []) 2 = Some (PStr "").
Proof.
  split; [vm_compute; reflexivity|]. split; [vm_compute; reflexivity|].
  split; [intros H; vm_compute in H; discriminate H|].
  vm_compute. repeat split.
Qed.

(** C6, as the code has it.  The text [export_to_csv] writes, read back by
    the reader of the dialect, gives the header row and then one row for
    each exported record, in order, with one text for each field: a text
    field comes back as the very text, whatever it holds (delimiters, quote
    characters and line breaks included); an integer comes back as the text
    of its digits and [None] as the empty text.  So the rows read back are
    the exported records whenever all their fields are texts. *)
Theorem export_reads_back_as_text (path : string) (a : App) :
  is_empty path = false ->
  files (exec (export_to_csv path io_ok) a)
  = (path, export_text (all_records a)) :: files a
  /\ CsvReader.read (export_text (all_records a))
     = header_labels :: map (map field_text) (all_records a)
  /\ read_back (export_text (all_records a))
     = map (map as_read) (all_records a)
  /\ (forallb all_str (all_records a) = true ->
      read_back (export_text (all_records a)) = all_records a).
Proof.
  intros H. split; [now apply export_to_csv_writes|].
  split; [apply read_export_text|]. split; [apply read_back_export|].
  intros S. rewrite read_back_export. now apply as_read_all_str.
Qed.

Lemma export_reads_back_as_text_witness :
  let a := exec (add_patient_record io_ok quoted_record) Sample.started in
  is_empty "records.csv" = false
  /\ forallb all_str (all_records a) = true
  /\ all_records a = [quoted_record]
  /\ read_back (export_text (all_records a)) = all_records a.
Proof.
  split; [reflexivity|]. split; [reflexivity|]. split; [reflexivity|].
  exact (proj2 (proj2 (proj2
    (export_reads_back_as_text "records.csv"
       (exec (add_patient_record io_ok quoted_record) Sample.started)
       eq_refl))) eq_refl).
Defined.

(* ================================================================== *)
(** * Further properties of the code *)
(* ================================================================== *)

(** ** What a session leaves in storage *)

Lemma refreshed_dialogs text a : dialogs (refreshed text a) = dialogs a.
Proof. unfold refreshed. destruct (parent_app a); reflexivity. Qed.

#[local] Hint Rewrite refreshed_files refreshed_dialogs : page.

Lemma add_patient_record_db o r a :
  column_store (db (exec (add_patient_record o r) a)) = column_store (db a)
  /\ rows (db (exec (add_patient_record o r) a))
     = rows (db a) ++ (if write_ok o r then [store_row (db a) r] else []).
Proof.
  unfold exec. destruct (write_ok o r) eqn:E.
  - rewrite (add_patient_record_ok o r a E). simpl.
    autorewrite with page. split; reflexivity.
  - destruct (sql_insert_error o r (db a) E) as [e He].
    rewrite (add_patient_record_error o r a e He). simpl.
    autorewrite with page. simpl. rewrite app_nil_r. split; reflexivity.
Qed.

Lemma add_patient_record_other o r a :
  files (exec (add_patient_record o r) a) = files a
  /\ dialogs (exec (add_patient_record o r) a) = dialogs a
  /\ length (stdout (exec (add_patient_record o r) a))
     = length (stdout a) + (if write_ok o r then 0 else 1).
Proof.
  unfold exec. destruct (write_ok o r) eqn:E.
  - rewrite (add_patient_record_ok o r a E). simpl.
    autorewrite with page. simpl. repeat split. lia.
  - destruct (sql_insert_error o r (db a) E) as [e He].
    rewrite (add_patient_record_error o r a e He). simpl.
    autorewrite with page. simpl. repeat split.
    rewrite length_app. reflexivity.
Qed.

Lemma save_screening_state o f a :
  exec (save_screening o f) a
  = match handed_over f with
    | None =>
        set_dialogs (dialogs a ++ [("Error", "Patient name required")]) a
    | Some r =>
        let a1 := exec (add_patient_record o r) a in
        set_dialogs
          (dialogs a1
           ++ [("Saved",
                ("Screening record for " ++ strip (p_name f) ++ " saved.")%string)])
          a1
    end.
Proof.
  unfold exec, save_screening, handed_over.
  destruct (is_empty (strip (p_name f))); [reflexivity|].
  unfold bind, try_except. rewrite add_patient_record_run. reflexivity.
Qed.

Lemma perform_db act a :
  column_store (db (exec (perform act) a)) = column_store (db a)
  /\ rows (db (exec (perform act) a))
     = rows (db a) ++ map (store_row (db a)) (accepted_by [act])
  /\ length (stdout (exec (perform act) a)) + length (accepted_by [act])
     = length (stdout a) + length (handed_over_by [act]).
Proof.
  destruct act as [o f|text|path o]; simpl.
  - rewrite save_screening_state. destruct (handed_over f) as [r|]; simpl.
    + destruct (add_patient_record_db o r a) as [C R].
      destruct (add_patient_record_other o r a) as (_ & _ & L).
      rewrite C, R, L. destruct (write_ok o r); simpl; repeat split; lia.
    + rewrite app_nil_r. repeat split; lia.
  - unfold exec. rewrite filter_table_run. simpl. autorewrite with page.
    rewrite app_nil_r. repeat split; lia.
  - unfold exec, export_to_csv. rewrite app_nil_r.
    destruct (is_empty path); [repeat split; simpl; lia|].
    destruct o; simpl; repeat split; lia.
Qed.

Lemma store_row_same d d' r :
  column_store d' = column_store d -> store_row d' r = store_row d r.
Proof. unfold store_row. now intros ->. Qed.

Lemma accepted_by_app l1 l2 :
  accepted_by (l1 ++ l2) = accepted_by l1 ++ accepted_by l2.
Proof. unfold accepted_by. apply flat_map_app. Qed.

Lemma handed_over_by_app l1 l2 :
  handed_over_by (l1 ++ l2) = handed_over_by l1 ++ handed_over_by l2.
Proof. unfold handed_over_by. apply flat_map_app. Qed.

Lemma session_cons act acts a :
  exec (session (act :: acts)) a = exec (session acts) (exec (perform act) a).
Proof.
  unfold exec, session. simpl. unfold bind.
  destruct (perform_view act a) as [Hr _]. unfold result in Hr.
  destruct (perform act a) as [out a1]. simpl in *. now subst out.
Qed.

Lemma session_db acts a :
  column_store (db (exec (session acts) a)) = column_store (db a)
  /\ rows (db (exec (session acts) a))
     = rows (db a) ++ map (store_row (db a)) (accepted_by acts)
  /\ length (stdout (exec (session acts) a)) + length (accepted_by acts)
     = length (stdout a) + length (handed_over_by acts).
Proof.
  revert a; induction acts as [|act acts IH]; intros a.
  - simpl. rewrite app_nil_r. repeat split; lia.
  - rewrite session_cons.
    destruct (perform_db act a) as (C1 & R1 & L1).
    destruct (IH (exec (perform act) a)) as (C2 & R2 & L2).
    change (act :: acts) with ([act] ++ acts).
    rewrite accepted_by_app, handed_over_by_app, map_app, !length_app.
    split; [congruence|]. split.
    + rewrite R2, R1, <- app_assoc. f_equal. f_equal.
      apply map_ext. intros r. now apply store_row_same.
    + lia.
Qed.

(** X1.  Over any sequence of user actions the table only grows: its
    columns stay as declared, and its rows are the rows it had followed by
    the records whose write went through, in the order of the saves.  A
    fresh process started on the files loads exactly these rows, so a
    restart drops the records whose write was refused and nothing else.
    Each refused write has printed one line. *)
Theorem restart_keeps_accepted_records (acts : list action) (a : App) :
  let a' := exec (session acts) a in
  column_store (db a') = column_store (db a)
  /\ rows (db a') = rows (db a) ++ map (store_row (db a)) (accepted_by acts)
  /\ all_records (exec (new_app io_ok) (process_start (db a') (files a')))
     = rows (db a) ++ map (store_row (db a)) (accepted_by acts)
  /\ length (stdout a') + length (accepted_by acts)
     = length (stdout a) + saves_in acts.
Proof.
  intros a'. destruct (session_db acts a) as (C & R & L).
  split; [exact C|]. split; [exact R|]. split; [|exact L].
  unfold exec, new_app, bind.
  pose proof (new_page_ok (process_start (db a') (files a'))) as (V & _ & _).
  unfold exec in V.
  destruct (new_page io_ok (process_start (db a') (files a')))
    as [[[]|e] a1]; simpl in *; rewrite V; exact R.
Qed.

(** X2.  While no write is refused and the records survive the column
    types, the view and the table stay equal: if the view is the stored
    rows before a sequence of actions, it is the stored rows after it. *)
Theorem view_matches_storage (acts : list action) (a : App) :
  all_records a = rows (db a) ->
  accepted_by acts = handed_over_by acts ->
  Forall (kept_by (db a)) (handed_over_by acts) ->
  all_records (exec (session acts) a) = rows (db (exec (session acts) a)).
Proof.
  intros Hv Hacc Hk.
  destruct (session_view acts a) as [_ V].
  destruct (session_db acts a) as (_ & R & _).
  rewrite V, R, Hacc, (map_kept _ _ Hk), Hv. reflexivity.
Qed.

Lemma view_matches_storage_witness :
  let acts := [Save io_ok Sample.form; Search "jane";
               Export "records.csv" io_ok] in
  all_records (exec (session acts) Sample.started)
  = rows (db (exec (session acts) Sample.started)).
Proof.
  apply (view_matches_storage
           [Save io_ok Sample.form; Search "jane";
            Export "records.csv" io_ok] Sample.started).
  - reflexivity.
  - reflexivity.
  - repeat constructor.
Defined.

(** X3.  [save_screening] ends with the same dialog whatever becomes of the
    write: "Saved" when the name is not blank (also when the write was
    refused), "Error" when it is blank.  The "Warning" dialog of its
    exception handler is never shown, and the call returns normally. *)
Theorem save_always_says_saved (o : io) (f : Form) (a : App) :
  result (save_screening o f) a = Returned tt
  /\ dialogs (exec (save_screening o f) a)
     = dialogs a
       ++ [if is_empty (strip (p_name f))
           then ("Error", "Patient name required")
           else ("Saved",
                 ("Screening record for " ++ strip (p_name f) ++ " saved.")%string)].
Proof.
  split; [apply save_screening_run|].
  rewrite save_screening_state. unfold handed_over.
  destruct (is_empty (strip (p_name f))); [reflexivity|]. simpl.
  destruct (add_patient_record_other o (patient_data_of f) a) as (_ & D & _).
  now rewrite D.
Qed.

(** ** Search, load and export leave the data alone *)

Lemma refreshed_twice t1 t2 a : refreshed t2 (refreshed t1 a) = refreshed t2 a.
Proof.
  unfold refreshed. destruct a as [d f o g v t p b]. simpl.
  destruct p; reflexivity.
Qed.

(** X4.  A search shows what its own text selects, whatever was searched
    before: two searches in a row leave the state of one search for the
    second text.  A search changes the table and the dashboard only; the
    view, the durable table, the files, standard output and the dialogs
    are as before. *)
Theorem search_depends_on_last_text (t1 t2 : string) (a : App) :
  exec (filter_table t2) (exec (filter_table t1) a) = exec (filter_table t2) a
  /\ all_records (exec (filter_table t1) a) = all_records a
  /\ db (exec (filter_table t1) a) = db a
  /\ files (exec (filter_table t1) a) = files a
  /\ stdout (exec (filter_table t1) a) = stdout a
  /\ dialogs (exec (filter_table t1) a) = dialogs a.
Proof.
  unfold exec. rewrite (filter_table_run t1 a). simpl.
  rewrite !filter_table_run. simpl.
  autorewrite with page. rewrite refreshed_twice. repeat split.
Qed.

(** X5.  [load_records_from_db] never writes to the durable table or to
    other files, whatever the outcome of the read.  After a successful
    load the table shows every stored row, and a second successful load
    changes nothing. *)
Theorem load_is_read_only_and_idempotent (o : io) (a : App) :
  db (exec (load_records_from_db o) a) = db a
  /\ files (exec (load_records_from_db o) a) = files a
  /\ patient_table (exec (load_records_from_db io_ok) a)
     = map table_cells (rows (db a))
  /\ exec (load_records_from_db io_ok) (exec (load_records_from_db io_ok) a)
     = exec (load_records_from_db io_ok) a.
Proof.
  unfold exec. rewrite (load_records_run_ok a). simpl.
  rewrite load_records_run_ok. simpl. autorewrite with page.
  rewrite shown_empty. simpl.
  split; [|split; [|split; [reflexivity|]]].
  - destruct o as [|msg].
    + rewrite load_records_run_ok. simpl. now autorewrite with page.
    + reflexivity.
  - destruct o as [|msg].
    + rewrite load_records_run_ok. simpl. now autorewrite with page.
    + reflexivity.
  - unfold refreshed. destruct a as [d f so g v t p b]. simpl.
    destruct p; reflexivity.
Qed.

Lemma export_to_csv_at_open (path : string) (o : io) :
  export_to_csv path o = export_to_csv_file path (at_open o).
Proof.
  unfold export_to_csv, export_to_csv_file.
  destruct (is_empty path); [reflexivity|]. destruct o; reflexivity.
Qed.

(** X6.  How [export_to_csv] ends.  A cancelled save dialog (empty path)
    changes nothing at all.  When the file cannot be opened, one "Error"
    dialog carrying the error text is shown and no file is touched.  When a
    write fails after the file was opened, the same dialog is shown and the
    file no longer holds what it held: it holds what had reached it by
    then.  The dialogs of the two failures are the same, so the page does
    not tell whether the earlier file is still there.  When every row is
    written, the file holds the export and one "Exported" dialog is shown.
    In every case the call returns normally and the view, the table widget
    and the durable table are untouched. *)
Theorem export_outcomes (path msg partial : string) (w : file_outcome)
    (o : io) (a : App) :
  exec (export_to_csv_file "" w) a = a
  /\ (is_empty path = false ->
      exec (export_to_csv_file path (open_failed msg)) a
      = set_dialogs
          (dialogs a ++ [("Error", ("Failed to export: " ++ msg)%string)]) a)
  /\ (is_empty path = false ->
      exec (export_to_csv_file path (write_failed partial msg)) a
      = set_dialogs
          (dialogs a ++ [("Error", ("Failed to export: " ++ msg)%string)])
          (set_files ((path, partial) :: files a) a)
      /\ read_file path
           (files (exec (export_to_csv_file path (write_failed partial msg)) a))
         = Some partial
      /\ dialogs (exec (export_to_csv_file path (write_failed partial msg)) a)
         = dialogs (exec (export_to_csv_file path (open_failed msg)) a))
  /\ (is_empty path = false ->
      exec (export_to_csv_file path file_written) a
      = set_dialogs
          (dialogs a
           ++ [("Exported", ("Patient records exported to " ++ path)%string)])
          (set_files ((path, export_text (all_records a)) :: files a) a))
  /\ result (export_to_csv_file path w) a = Returned tt
  /\ all_records (exec (export_to_csv_file path w) a) = all_records a
  /\ patient_table (exec (export_to_csv_file path w) a) = patient_table a
  /\ db (exec (export_to_csv_file path w) a) = db a
  /\ export_to_csv path o = export_to_csv_file path (at_open o).
Proof.
  split; [reflexivity|].
  split; [intros H; unfold exec, export_to_csv_file; rewrite H; reflexivity|].
  split.
  { intros H. unfold exec, export_to_csv_file. rewrite H.
    split; [reflexivity|]. split; [|reflexivity].
    simpl. now rewrite String.eqb_refl. }
  split; [intros H; unfold exec, export_to_csv_file; rewrite H; reflexivity|].
  split; [|split; [|split; [|split; [|apply export_to_csv_at_open]]]];
    unfold exec, result, export_to_csv_file;
    (destruct (is_empty path); [reflexivity|]); destruct w; reflexivity.
Qed.

Lemma export_outcomes_witness :
  let a := exec (export_to_csv_file "records.csv" file_written)
                Sample.two_records in
  is_empty "records.csv" = false
  /\ read_file "records.csv" (files a) = Some (export_text (all_records a))
  /\ read_file "records.csv"
       (files (exec (export_to_csv_file "records.csv"
                       (write_failed "Patient ID,Na" "No space left on device"))
                    a))
     = Some "Patient ID,Na".
Proof.
  split; [reflexivity|]. split; [reflexivity|].
  exact (proj1 (proj2 (proj1 (proj2 (proj2
    (export_outcomes "records.csv" "No space left on device" "Patient ID,Na"
       file_written io_ok
       (exec (export_to_csv_file "records.csv" file_written)
             Sample.two_records)))) eq_refl))).
Defined.

(** ** The dashboard: bounds and start-up *)

Lemma count_dr_step_bound (table : list (list string)) (idx : list nat)
    (acc : nat) :
  fold_left
    (fun dr_count r =>
       match table_item table (Z.of_nat r) results_idx with
       | Some text => if contains "dr" (lower text) then dr_count + 1
                      else dr_count
       | None => dr_count
       end) idx acc
  <= acc + length idx.
Proof.
  revert acc; induction idx as [|i idx IH]; intros acc; simpl; [lia|].
  destruct (table_item table (Z.of_nat i) results_idx) as [text|].
  - destruct (contains "dr" (lower text)).
    + specialize (IH (acc + 1)). lia.
    + specialize (IH acc). lia.
  - specialize (IH acc). lia.
Qed.

(** X7.  Whatever the table holds (rows of any width, cells of any text),
    the count of positive results never exceeds the number of rows, and
    the recent-activity label has five lines, or as many as there are rows
    when there are fewer. *)
Theorem dashboard_bounds (table : list (list string)) :
  count_dr table (length table) <= length table
  /\ length (recent_lines table (length table)) = Nat.min 5 (length table).
Proof.
  split.
  - unfold count_dr.
    pose proof (count_dr_step_bound table (seq 0 (length table)) 0) as H.
    rewrite length_seq in H. exact H.
  - unfold recent_lines, range_down. rewrite !length_map, length_seq. lia.
Qed.

(** X8.  Building the application never refreshes the dashboard: after
    start-up the four cards and the recent-activity label are as the
    dashboard page creates them (zeros, no line), however many rows the
    records page has loaded into its table.  The first search or append
    brings them up to date. *)
Theorem dashboard_is_stale_at_startup (d : Database)
    (f : list (string * string)) (text : string) :
  let a := exec (new_app io_ok) (process_start d f) in
  dashboard a = dashboard (process_start d f)
  /\ patient_table a = map table_cells (rows d)
  /\ dashboard (exec (filter_table text) a) = dashboard_of (shown text (rows d)).
Proof.
  intros a.
  assert (Ha : a = set_parent_app true
                     (refreshed "" (set_all_records (rows d)
                                      (set_all_records [] (process_start d f))))).
  { unfold a, exec, new_app, new_page, bind. simpl.
    rewrite load_records_run_ok. reflexivity. }
  assert (Hv : all_records a = rows d) by (rewrite Ha; reflexivity).
  split; [rewrite Ha; reflexivity|]. split.
  - rewrite Ha.
    change (map table_cells (shown "" (rows d)) = map table_cells (rows d)).
    now rewrite shown_empty.
  - unfold exec. rewrite filter_table_run. simpl.
    rewrite dashboard_refreshed, Hv; [reflexivity|].
    rewrite Ha. reflexivity.
Qed.

(** ** Search narrows as the text grows *)

Section Substrings.

Local Open Scope string_scope.

Lemma startswith_app (n s : string) : startswith n (n ++ s) = true.
Proof.
  induction n as [|c n IH]; simpl; [reflexivity|].
  now rewrite Ascii.eqb_refl.
Qed.

Lemma startswith_split (n h : string) :
  startswith n h = true -> exists s, h = n ++ s.
Proof.
  revert h; induction n as [|c n IH]; intros h H.
  - exists h. reflexivity.
  - destruct h as [|x h]; [discriminate|]. simpl in H.
    apply andb_prop in H. destruct H as [Hc Hn].
    apply Ascii.eqb_eq in Hc. subst x.
    destruct (IH h Hn) as [s ->]. exists s. reflexivity.
Qed.

Lemma contains_split (n h : string) :
  contains n h = true -> exists p s, h = p ++ n ++ s.
Proof.
  induction h as [|x h IH]; intros H.
  - simpl in H. rewrite orb_false_r in H.
    destruct (startswith_split n "" H) as [s Hs]. exists "", s. exact Hs.
  - change (contains n (String x h))
      with (startswith n (String x h) || contains n h) in H.
    apply orb_prop in H. destruct H as [H|H].
    + destruct (startswith_split _ _ H) as [s Hs]. exists "", s. exact Hs.
    + destruct (IH H) as (p & s & ->). exists (String x p), s. reflexivity.
Qed.

Lemma contains_unfold (n h : string) :
  contains n h
  = startswith n h
    || match h with
       | EmptyString => false
       | String _ h' => contains n h'
       end.
Proof. destruct h; reflexivity. Qed.

Lemma contains_middle (p n s : string) : contains n (p ++ n ++ s) = true.
Proof.
  induction p as [|x p IH].
  - simpl append. rewrite contains_unfold, startswith_app. reflexivity.
  - change (String x p ++ n ++ s) with (String x (p ++ n ++ s)).
    change (contains n (String x (p ++ n ++ s)))
      with (startswith n (String x (p ++ n ++ s)) || contains n (p ++ n ++ s)).
    rewrite IH. apply orb_true_r.
Qed.

Lemma contains_trans (a b c : string) :
  contains a b = true -> contains b c = true -> contains a c = true.
Proof.
  intros Hab Hbc.
  destruct (contains_split a b Hab) as (p & s & ->).
  destruct (contains_split _ c Hbc) as (p' & s' & ->).
  replace (p' ++ (p ++ a ++ s) ++ s') with ((p' ++ p) ++ a ++ (s ++ s')).
  - apply contains_middle.
  - now rewrite !append_assoc.
Qed.

Lemma contains_empty_hay (n : string) : contains n "" = true -> n = "".
Proof. destruct n; [reflexivity|discriminate]. Qed.

Lemma all_space_app (s t : string) :
  all_space (s ++ t) = all_space s && all_space t.
Proof.
  induction s as [|c s IH]; simpl; [reflexivity|].
  now rewrite IH, andb_assoc.
Qed.

Lemma lstrip_blanks (pre s : string) :
  all_space pre = true -> lstrip (pre ++ s) = lstrip s.
Proof.
  induction pre as [|c pre IH]; simpl; [reflexivity|]. intros H.
  apply andb_prop in H. destruct H as [Hc Hp]. rewrite Hc. now apply IH.
Qed.

Lemma rstrip_all_space (s : string) : all_space s = true -> rstrip s = "".
Proof.
  intros H. apply is_empty_true. now rewrite rstrip_empty.
Qed.

Lemma rstrip_blanks (s post : string) :
  all_space post = true -> rstrip (s ++ post) = rstrip s.
Proof.
  intros H. induction s as [|c s IH].
  - simpl append. now apply rstrip_all_space.
  - change (String c s ++ post) with (String c (s ++ post)).
    rewrite !rstrip_cons. simpl all_space.
    now rewrite all_space_app, H, andb_true_r, IH.
Qed.

Lemma strip_blanks_after (q post : string) :
  all_space post = true -> strip (q ++ post) = strip q.
Proof.
  intros H. unfold strip. induction q as [|c q IH].
  - simpl append. rewrite <- (append_nil_r post) at 1.
    rewrite (lstrip_blanks post "" H). reflexivity.
  - change (String c q ++ post) with (String c (q ++ post)). simpl lstrip.
    destruct (isspace c); [exact IH|].
    change (String c (q ++ post)) with (String c q ++ post).
    now apply rstrip_blanks.
Qed.

(** Blanks around a text are stripped with the blanks of the text. *)
Lemma strip_blanks (pre q post : string) :
  all_space pre = true -> all_space post = true ->
  strip (pre ++ q ++ post) = strip q.
Proof.
  intros Hpre Hpost. unfold strip at 1. rewrite (lstrip_blanks pre _ Hpre).
  now apply strip_blanks_after.
Qed.

End Substrings.

Lemma filter_implies_length {A} (f g : A -> bool) (l : list A) :
  (forall x, f x = true -> g x = true) ->
  length (List.filter f l) <= length (List.filter g l).
Proof.
  intros H. induction l as [|x l IH]; simpl; [lia|].
  destruct (f x) eqn:E.
  - rewrite (H x E). simpl. lia.
  - destruct (g x); simpl; lia.
Qed.

Lemma show_narrower (ft1 ft2 : string) (r : Row) :
  contains ft1 ft2 = true -> show ft2 r = true -> show ft1 r = true.
Proof.
  intros Hc H. unfold show in *.
  destruct (is_empty ft1) eqn:E1; [reflexivity|].
  destruct (is_empty ft2) eqn:E2.
  - rewrite (is_empty_true _ E2) in Hc.
    rewrite (contains_empty_hay _ Hc) in E1. discriminate.
  - apply existsb_exists in H. destruct H as (v & Hv & Hin).
    apply existsb_exists. exists v. split; [exact Hv|].
    now apply contains_trans with (b := ft2).
Qed.

(** X9.  A search whose text, stripped and lowered, contains the stripped
    and lowered text of another search shows no record that the other
    search does not show, and no more rows.  Blanks typed before or after
    the text in the search box change nothing: the page and the dashboard
    end as after the search for the text itself. *)
Theorem contained_text_narrows_search (q1 q2 pre post : string) (a : App) :
  (contains (lower (strip q1)) (lower (strip q2)) = true ->
   (forall r, In r (shown q2 (all_records a)) -> In r (shown q1 (all_records a)))
   /\ length (patient_table (exec (filter_table q2) a))
      <= length (patient_table (exec (filter_table q1) a)))
  /\ (all_space pre = true -> all_space post = true ->
      exec (filter_table (pre ++ q1 ++ post)) a = exec (filter_table q1) a).
Proof.
  split.
  - intros Hc. unfold exec. rewrite !filter_table_run. simpl.
    rewrite !refreshed_table, !length_map. unfold shown.
    rewrite !or_else_empty. split.
    + intros r Hr. apply filter_In in Hr. destruct Hr as [Hin Hs].
      apply filter_In. split; [exact Hin|].
      now apply show_narrower with (ft2 := lower (strip q2)).
    + apply filter_implies_length. intros r.
      now apply show_narrower.
  - intros Hpre Hpost. unfold exec. rewrite !filter_table_run. simpl.
    unfold refreshed, shown. rewrite !or_else_empty.
    now rewrite (strip_blanks pre q1 post Hpre Hpost).
Qed.

Lemma contained_text_narrows_search_witness :
  contains (lower (strip " DR ")) (lower (strip "mild dr")) = true
  /\ all_space "  " = true
  /\ length (patient_table (exec (filter_table "mild dr") Sample.two_records))
     <= length (patient_table (exec (filter_table " DR ") Sample.two_records))
  /\ exec (filter_table ("  " ++ " DR " ++ "  ")) Sample.two_records
     = exec (filter_table " DR ") Sample.two_records.
Proof.
  split; [reflexivity|]. split; [reflexivity|]. split.
  - exact (proj2 (proj1
      (contained_text_narrows_search " DR " "mild dr" "  " "  "
         Sample.two_records) eq_refl)).
  - exact (proj2
      (contained_text_narrows_search " DR " "mild dr" "  " "  "
         Sample.two_records) eq_refl eq_refl).
Defined.

(* ================================================================== *)
(** ** The screening page *)
(* ================================================================== *)

Lemma age_in_range (today date : QDate) (f : Form) :
  (0 <= p_age (update_age_from_dob today date f) <= 120)%Z.
Proof.
  unfold update_age_from_dob.
  destruct (QDate_eqb date minimumDate); simpl; unfold clamp; lia.
Qed.

(** X10.  The age [update_age_from_dob] puts in the age box lies between 0
    and 120; it is 0 for the blank date.  For any other date it counts
    birthdays: for each [n] from 1 to 120, the age is at least [n] exactly
    when the [n]-th anniversary of the date (same month and day, [n] years
    later) is not after today.  So a date of birth in the future, or less
    than a year back, gives 0, and the age never passes 120.  The other
    widgets are left as they are. *)
Theorem age_counts_birthdays (today date : QDate) (f : Form) :
  let f' := update_age_from_dob today date f in
  (0 <= p_age f' <= 120)%Z
  /\ (QDate_eqb date minimumDate = true -> p_age f' = 0%Z)
  /\ (QDate_eqb date minimumDate = false ->
      forall n, (1 <= n <= 120)%Z ->
        ((n <= p_age f')%Z <-> QDate_leb (years_later n date) today = true))
  /\ f' = set_p_age (p_age f') f.
Proof.
  intros f'. unfold f', update_age_from_dob.
  destruct (QDate_eqb date minimumDate) eqn:E.
  - simpl. unfold clamp. repeat split; try lia; try discriminate.
  - unfold QDate_leb, QDate_ltb, years_later, month_day_before, clamp. simpl.
    split; [|split; [discriminate|split; [|reflexivity]]].
    + destruct ((month today <? month date)
                || (month today =? month date) && (day today <? day date))%Z;
        simpl; lia.
    + intros _ n Hn.
      destruct (Z.ltb_spec (month today) (month date));
        destruct (Z.eqb_spec (month today) (month date));
        destruct (Z.ltb_spec (day today) (day date));
        destruct (Z.ltb_spec (year today) (year date + n));
        destruct (Z.eqb_spec (year today) (year date + n));
        simpl; split; intros; try lia; try discriminate.
Qed.

Lemma age_counts_birthdays_witness :
  let today := {| year := 2025; month := 6; day := 30 |} in
  let dob := {| year := 2004; month := 7; day := 1 |} in
  (20 <= p_age (update_age_from_dob today dob Sample.form))%Z
  /\ ~ (21 <= p_age (update_age_from_dob today dob Sample.form))%Z.
Proof.
  pose proof (age_counts_birthdays
                {| year := 2025; month := 6; day := 30 |}
                {| year := 2004; month := 7; day := 1 |} Sample.form)
    as (_ & _ & H & _).
  split.
  - apply (H eq_refl 20%Z); [lia|reflexivity].
  - intros H21. apply (H eq_refl 21%Z) in H21; [discriminate|lia].
Defined.

(** *** The form stays as its widgets allow *)

Lemma pick_in_items (items : list string) (i : nat) :
  (i <? length items) = true ->
  existsb (String.eqb (pick items i)) items = true.
Proof.
  intros H. apply Nat.ltb_lt in H. unfold pick.
  apply existsb_exists. exists (nth i items "").
  split; [now apply nth_In|apply String.eqb_refl].
Qed.

Lemma form_ok_parts (f : Form) :
  form_ok f = true <->
  ((0 <= p_age f <= 120)%Z /\ (0 <= diabetes_duration f <= 80)%Z
   /\ (40 <= hba1c f <= 150)%Z)
  /\ existsb (String.eqb (p_sex f)) sex_items = true
  /\ existsb (String.eqb (p_eye f)) eye_items = true
  /\ existsb (String.eqb (diabetes_type f)) diabetes_items = true.
Proof.
  unfold form_ok, sex_items, eye_items, diabetes_items.
  rewrite !andb_true_iff, !Z.leb_le. tauto.
Qed.

Lemma QDate_eqb_eq (a b : QDate) : QDate_eqb a b = true -> a = b.
Proof.
  unfold QDate_eqb. rewrite !andb_true_iff, !Z.eqb_eq.
  destruct a, b; simpl. intros [[-> ->] ->]. reflexivity.
Qed.

Ltac dates_to_Z :=
  cbn [year month day];
  repeat first
    [ rewrite orb_true_iff | rewrite orb_false_iff | rewrite andb_true_iff
    | rewrite andb_false_iff | rewrite negb_true_iff | rewrite negb_false_iff
    | rewrite Z.ltb_lt | rewrite Z.ltb_ge | rewrite Z.eqb_eq
    | rewrite Z.eqb_neq ].

Lemma after_minimum (d : QDate) :
  QDate_ltb d minimumDate = false -> QDate_eqb d minimumDate = false ->
  QDate_ltb minimumDate d = true.
Proof.
  unfold QDate_ltb, QDate_eqb, minimumDate. destruct d as [y m dd].
  dates_to_Z. lia.
Qed.

Lemma minimum_not_after (d : QDate) :
  QDate_ltb minimumDate d = true -> QDate_eqb d minimumDate = false.
Proof.
  unfold QDate_ltb, QDate_eqb, minimumDate. destruct d as [y m dd].
  dates_to_Z. lia.
Qed.

Lemma edit_dob_keeps (today d : QDate) (f : Form) :
  QDate_ltb d minimumDate = false ->
  form_ok f = true -> QDate_ltb (p_dob f) minimumDate = false ->
  form_ok (edit_dob today d f) = true
  /\ QDate_ltb (p_dob (edit_dob today d f)) minimumDate = false
  /\ p_name (edit_dob today d f) = p_name f
  /\ r_class (edit_dob today d f) = r_class f
  /\ r_conf (edit_dob today d f) = r_conf f
  /\ p_id (edit_dob today d f) = p_id f.
Proof.
  intros Hdm Hok Hd. unfold edit_dob.
  destruct (QDate_eqb d (p_dob f)); [repeat split; assumption|].
  pose proof (age_in_range today d (set_p_dob d f)) as Ha.
  unfold pick_dob.
  assert (Hsame : forall g, let g' := update_age_from_dob today d g in
            diabetes_duration g' = diabetes_duration g
            /\ hba1c g' = hba1c g /\ p_sex g' = p_sex g /\ p_eye g' = p_eye g
            /\ diabetes_type g' = diabetes_type g /\ p_dob g' = p_dob g
            /\ p_name g' = p_name g /\ r_class g' = r_class g
            /\ r_conf g' = r_conf g /\ p_id g' = p_id g).
  { intros g. unfold update_age_from_dob.
    destruct (QDate_eqb d minimumDate); repeat split. }
  destruct (Hsame (set_p_dob d f)) as (S1 & S2 & S3 & S4 & S5 & S6 & S7 & S8
                                       & S9 & S10).
  apply form_ok_parts in Hok. destruct Hok as ((_ & H2 & H3) & H4 & H5 & H6).
  split; [|repeat split; simpl in *; congruence].
  apply form_ok_parts. rewrite S1, S2, S3, S4, S5. simpl.
  repeat split; try tauto; lia.
Qed.

Ltac form_fields :=
  cbn [edit_form set_choices set_clinical set_text_fields set_results
       set_p_id set_p_age set_p_dob blank_form
       p_id p_name p_dob p_age p_sex p_contact p_eye diabetes_type
       diabetes_duration hba1c prev_treatment notes r_class r_conf].

Lemma edit_form_keeps (c : click) (f : Form) :
  accepted c = true ->
  form_ok f = true -> QDate_ltb (p_dob f) minimumDate = false ->
  form_ok (edit_form c f) = true
  /\ QDate_ltb (p_dob (edit_form c f)) minimumDate = false
  /\ r_class (edit_form c f) = r_class f
  /\ r_conf (edit_form c f) = r_conf f
  /\ p_id (edit_form c f) = p_id f.
Proof.
  intros Hacc Hok Hd.
  destruct c; try (form_fields; repeat split; assumption);
    try (simpl in Hacc; apply negb_true_iff in Hacc;
         destruct (edit_dob_keeps today date f Hacc Hok Hd)
           as (E1 & E2 & _ & E4 & E5 & E6); form_fields; repeat split;
         assumption);
    apply form_ok_parts in Hok;
    destruct Hok as ((H1 & H2 & H3) & H4 & H5 & H6);
    (split; [apply form_ok_parts|repeat split; assumption]); form_fields;
    simpl in Hacc; try (apply andb_prop in Hacc; destruct Hacc as [Hlo Hhi];
                        apply Z.leb_le in Hlo; apply Z.leb_le in Hhi);
    repeat split; try assumption; try lia;
    now apply pick_in_items.
Qed.

(** *** The page between clicks *)

Lemma page_inv_reset (now : QDate) (s : ScreeningPage) :
  page_inv (reset_screening now s).
Proof. unfold page_inv. simpl. repeat split; auto. intros H; discriminate. Qed.

Lemma page_inv_start (now : QDate) : page_inv (new_screening_page now).
Proof. unfold page_inv. simpl. repeat split; auto. intros H; discriminate. Qed.

Lemma page_inv_edit (c : click) (s : ScreeningPage) :
  current_index s = 0 -> accepted c = true -> page_inv s ->
  page_inv (set_form (edit_form c (form s)) s).
Proof.
  intros H0 Hacc (Hok & Hd & Hi & Hr & Hb & Ha).
  destruct (edit_form_keeps c (form s) Hacc Hok Hd)
    as (E1 & E2 & E3 & E4 & _).
  unfold page_inv. simpl. split; [exact E1|]. split; [exact E2|].
  split; [exact Hi|]. split; [intros H1; congruence|]. split; [exact Hb|].
  unfold analysed_or_blank in *. now rewrite E3, E4.
Qed.

Lemma page_inv_upload (path : string) (s : ScreeningPage) :
  page_inv s -> page_inv (upload_image path s).
Proof.
  intros (Hok & Hd & Hi & Hr & Hb & Ha). unfold upload_image.
  destruct (is_empty path) eqn:E; [repeat split; assumption|].
  unfold page_inv, no_image. simpl. rewrite E. repeat split; assumption.
Qed.

Lemma page_inv_clear (s : ScreeningPage) :
  page_inv s -> page_inv (clear_image s).
Proof.
  intros (Hok & Hd & Hi & Hr & Hb & Ha).
  unfold page_inv. simpl. repeat split; auto.
Qed.

Lemma page_inv_back (s : ScreeningPage) :
  page_inv s -> page_inv (set_current_index 0 (clear_image s)).
Proof.
  intros (Hok & Hd & Hi & Hr & Hb & Ha).
  unfold page_inv. simpl. repeat split; auto. intros H; discriminate.
Qed.

Lemma page_inv_analyzed (s : ScreeningPage) :
  no_image s = false -> page_inv s ->
  page_inv
    {| form := set_results "No DR Detected" "Confidence: 93.8%" (form s);
       patient_counter := patient_counter s;
       current_image := current_image s;
       current_index := current_index s;
       btn_analyze := btn_analyze s; btn_save := true;
       summary_label := summary_label s |}.
Proof.
  intros Hn (Hok & Hd & Hi & Hr & Hb & Ha).
  unfold page_inv. simpl. repeat split; auto.
Qed.

Lemma page_inv_proceed (summary : string) (s : ScreeningPage) :
  is_empty (strip (p_name (form s))) = false ->
  QDate_eqb (p_dob (form s)) minimumDate = false ->
  page_inv s ->
  page_inv
    {| form := form s; patient_counter := patient_counter s;
       current_image := current_image s; current_index := 1;
       btn_analyze := btn_analyze s; btn_save := btn_save s;
       summary_label := summary |}.
Proof.
  intros Hn Hdob (Hok & Hd & Hi & Hr & Hb & Ha).
  unfold page_inv. simpl. repeat split; auto.
  intros _. unfold ready_for_image. rewrite Hn. simpl.
  now apply after_minimum.
Qed.

(** What one click does to the page and to the rest of the application:
    the records it adds to the view and the dialogs it shows. *)
Lemma workflow_step_refl (w : Desktop) :
  page_inv (screening w) -> workflow_step w w.
Proof.
  intros Inv. split; [exact Inv|]. exists [], []. rewrite !app_nil_r.
  repeat split; auto. simpl. lia.
Qed.

Lemma workflow_step_page (h : ScreeningPage -> ScreeningPage) (w : Desktop) :
  page_inv (h (screening w)) ->
  btn_save (h (screening w)) = btn_save (screening w)
  \/ btn_save (h (screening w)) = false ->
  workflow_step w (on_screening h w).
Proof.
  intros Hh Hb. split; [exact Hh|]. exists [], []. simpl.
  rewrite !app_nil_r. repeat split; auto.
  destruct Hb as [-> | ->]; simpl; lia.
Qed.

Lemma workflow_step_box (title text : string) (w : Desktop) :
  page_inv (screening w) ->
  guard_dialog (title, text) = false ->
  String.eqb title "Success" = false ->
  workflow_step w (on_app (message_box title text) w).
Proof.
  intros Inv Hg Hs. split; [exact Inv|].
  exists [], [(title, text)]. simpl. rewrite app_nil_r, Hg, Hs.
  repeat split; auto. simpl. lia.
Qed.

Lemma press_effect (c : click) (w : Desktop) :
  page_inv (screening w) -> workflow_step w (press c w).
Proof.
  intros Inv.
  unfold press. destruct (available c (screening w)) eqn:Av;
    [|now apply workflow_step_refl].
  pose proof Inv as (Hok & Hd & Hi & Hr & Hb & Ha).
  destruct c; cbn [available] in Av;
    try (apply andb_prop in Av; destruct Av as [Av Hacc];
         apply Nat.eqb_eq in Av;
         apply (workflow_step_page
                  (fun s => set_form (edit_form _ (form s)) s));
         [now apply page_inv_edit|left; reflexivity]).
  - (* Proceed *)
    simpl. unfold validate_and_proceed.
    destruct (is_empty (strip (p_name (form (screening w))))) eqn:En;
      [now apply workflow_step_box|].
    destruct (QDate_eqb (p_dob (form (screening w))) minimumDate) eqn:Ed;
      [now apply workflow_step_box|].
    apply (workflow_step_page
             (fun s => {| form := form s;
                          patient_counter := patient_counter s;
                          current_image := current_image s;
                          current_index := 1;
                          btn_analyze := btn_analyze s;
                          btn_save := btn_save s;
                          summary_label := _ |}));
      [now apply page_inv_proceed|left; reflexivity].
  - (* Cancel *)
    simpl. unfold cancel_screening.
    destruct yes; [|now apply workflow_step_refl].
    apply workflow_step_page; [apply page_inv_reset|right; reflexivity].
  - (* Upload *)
    simpl. apply workflow_step_page; [now apply page_inv_upload|left].
    unfold upload_image. destruct (is_empty path); reflexivity.
  - (* ClearImage *)
    simpl. apply workflow_step_page;
      [now apply page_inv_clear|left; reflexivity].
  - (* Analyze *)
    apply andb_prop in Av. destruct Av as [_ Hbtn].
    assert (Hn : no_image (screening w) = false).
    { rewrite Hb in Hbtn. now apply negb_true_iff in Hbtn. }
    simpl. unfold analyze_image. rewrite Hn.
    split; [simpl; now apply page_inv_analyzed|].
    exists [], [("Success", "Analysis complete!")]. simpl.
    rewrite app_nil_r. repeat split; auto.
    destruct (btn_save (screening w)); simpl; lia.
  - (* SaveScreening *)
    apply andb_prop in Av. destruct Av as [Hidx Hsave].
    apply Nat.eqb_eq in Hidx. specialize (Hr Hidx).
    assert (Hn : is_empty (strip (p_name (form (screening w)))) = false).
    { unfold ready_for_image in Hr. apply andb_prop in Hr.
      destruct Hr as [Hr' _]. now apply negb_true_iff in Hr'. }
    simpl. unfold save_and_reset. rewrite Hn.
    split; [simpl; apply page_inv_reset|].
    exists [patient_data_of (form (screening w))],
           [("Saved",
             ("Screening record for " ++ strip (p_name (form (screening w)))
              ++ " saved.")%string)].
    simpl. rewrite save_screening_state. unfold handed_over. rewrite Hn.
    cbn [all_records dialogs set_dialogs].
    destruct (add_patient_record_other o
                (patient_data_of (form (screening w))) (records_app w))
      as (_ & D & _).
    rewrite add_patient_record_view, D, Hsave.
    repeat split; auto.
    constructor; [|constructor].
    exists (form (screening w)). repeat split; assumption.
  - (* Back *)
    simpl. unfold go_back_to_patient_info.
    destruct yes; [|now apply workflow_step_refl].
    apply workflow_step_page; [now apply page_inv_back|left; reflexivity].
  - (* NewPatient *)
    simpl. apply workflow_step_page; [apply page_inv_reset|right; reflexivity].
Qed.

Lemma workflow_step_trans (w1 w2 w3 : Desktop) :
  workflow_step w1 w2 -> workflow_step w2 w3 -> workflow_step w1 w3.
Proof.
  intros (_ & n1 & d1 & V1 & D1 & F1 & G1 & L1)
         (I3 & n2 & d2 & V2 & D2 & F2 & G2 & L2).
  split; [exact I3|]. exists (n1 ++ n2), (d1 ++ d2).
  rewrite V2, V1, D2, D1, <- !app_assoc.
  split; [reflexivity|]. split; [reflexivity|].
  split; [apply Forall_app; split; assumption|].
  split; [rewrite existsb_app, G1, G2; reflexivity|].
  rewrite filter_app, !length_app. lia.
Qed.

Lemma presses_effect (cs : list click) (w : Desktop) :
  page_inv (screening w) -> workflow_step w (presses cs w).
Proof.
  revert w; induction cs as [|c cs IH]; intros w Inv.
  - now apply workflow_step_refl.
  - simpl. pose proof (press_effect c w Inv) as H1.
    apply workflow_step_trans with (w2 := press c w); [exact H1|].
    apply IH. exact (proj1 H1).
Qed.

Lemma new_app_quiet (o : io) (d : Database) (f : list (string * string)) :
  dialogs (exec (new_app o) (process_start d f)) = [].
Proof.
  unfold exec, new_app, new_page, bind. simpl. destruct o as [|msg].
  - rewrite load_records_run_ok. reflexivity.
  - rewrite load_records_run_error. reflexivity.
Qed.

Lemma from_the_form_fields (r : Row) :
  from_the_form r ->
  length r = n_columns
  /\ (exists name, nth_error r 1 = Some (PStr name) /\ is_empty name = false)
  /\ (exists dob, nth_error r 2 = Some (PStr (toString_yyyy_MM_dd dob))
                  /\ QDate_ltb minimumDate dob = true)
  /\ (nth_error r 12 = Some (PStr "No DR Detected")
      \/ nth_error r 12 = Some (PStr placeholder)).
Proof.
  intros (f & -> & Hok & Hr & Ha).
  unfold ready_for_image in Hr. apply andb_prop in Hr. destruct Hr as [Hn Hd].
  apply negb_true_iff in Hn.
  split; [reflexivity|]. split; [eexists; split; [reflexivity|exact Hn]|].
  split.
  - exists (p_dob f). split; [|exact Hd]. simpl.
    now rewrite (minimum_not_after _ Hd).
  - unfold analysed_or_blank in Ha. apply orb_prop in Ha.
    destruct Ha as [Ha|Ha]; apply andb_prop in Ha; destruct Ha as [Ha _];
      apply String.eqb_eq in Ha; simpl; rewrite Ha; auto.
Qed.

(** X11.  Whatever the user clicks and types after start-up, the page
    keeps to this: the form is within the ranges of its widgets; the
    stacked widget shows step 0 or step 1, and step 1 only for a form whose
    name is not blank and whose date of birth is after 2000-01-01;
    "Analyze Image" is enabled exactly when an image is loaded. *)
Theorem page_stays_consistent (now : QDate) (o : io) (d : Database)
    (f : list (string * string)) (cs : list click) :
  let s := screening (presses cs (desktop_start now o d f)) in
  form_ok (form s) = true
  /\ (current_index s = 0 \/ current_index s = 1)
  /\ (current_index s = 1 ->
      is_empty (strip (p_name (form s))) = false
      /\ QDate_ltb minimumDate (p_dob (form s)) = true)
  /\ (btn_analyze s = true <->
      exists path, current_image s = Some path /\ is_empty path = false).
Proof.
  intros s.
  destruct (presses_effect cs (desktop_start now o d f) (page_inv_start now))
    as ((Hok & _ & Hi & Hr & Hb & _) & _).
  fold s in Hok, Hi, Hr, Hb.
  split; [exact Hok|]. split; [exact Hi|]. split.
  - intros H1. specialize (Hr H1). unfold ready_for_image in Hr.
    apply andb_prop in Hr. destruct Hr as [Hn Hd].
    split; [now apply negb_true_iff in Hn|exact Hd].
  - rewrite Hb. unfold no_image. destruct (current_image s) as [path|].
    + rewrite negb_true_iff. split.
      * intros H. exists path. split; [reflexivity|exact H].
      * intros (p & Hp & He). injection Hp as <-. exact He.
    + split; [discriminate|]. intros (p & Hp & _). discriminate.
Qed.

(** X12.  Every record that clicks on the screening page add to the view
    comes from a form that passed the first step: it has fourteen fields, a
    name that is not empty, a birthdate that is a date after 2000-01-01
    (never the empty text, never 2000-01-01 or earlier), and as result
    either "No DR Detected" or the placeholder dash.  The view loses
    nothing. *)
Theorem saved_records_passed_first_step (now : QDate) (o : io) (d : Database)
    (f : list (string * string)) (cs : list click) :
  let w0 := desktop_start now o d f in
  exists new,
    all_records (records_app (presses cs w0))
    = all_records (records_app w0) ++ new
    /\ Forall (fun r =>
         length r = n_columns
         /\ (exists name, nth_error r 1 = Some (PStr name)
                          /\ is_empty name = false)
         /\ (exists dob, nth_error r 2 = Some (PStr (toString_yyyy_MM_dd dob))
                         /\ QDate_ltb minimumDate dob = true)
         /\ (nth_error r 12 = Some (PStr "No DR Detected")
             \/ nth_error r 12 = Some (PStr placeholder))) new.
Proof.
  intros w0.
  destruct (presses_effect cs w0 (page_inv_start now))
    as (_ & new & ds & V & _ & F & _).
  exists new. split; [exact V|].
  eapply Forall_impl; [|exact F]. intros r. apply from_the_form_fields.
Qed.

(** X13.  Two checks of the handlers can never fire through the user
    interface: over any clicks after start-up no dialog "No image loaded"
    and no dialog "Patient name required" is shown, because "Analyze" is
    only enabled with an image loaded and "Save" only on the second step. *)
Theorem guard_dialogs_never_shown (now : QDate) (o : io) (d : Database)
    (f : list (string * string)) (cs : list click) :
  existsb guard_dialog
    (dialogs (records_app (presses cs (desktop_start now o d f)))) = false.
Proof.
  destruct (presses_effect cs (desktop_start now o d f) (page_inv_start now))
    as (_ & new & ds & _ & D & _ & G & _).
  rewrite D. unfold desktop_start. cbn [records_app].
  rewrite new_app_quiet. exact G.
Qed.

(** X14.  A record is saved only against an analysis: over any clicks
    after start-up, the number of records added to the view, plus one if
    "Save Screening" is still enabled, is at most the number of completed
    analyses ("Analysis complete!" dialogs).  One analysis never yields two
    records. *)
Theorem each_save_needs_an_analysis (now : QDate) (o : io) (d : Database)
    (f : list (string * string)) (cs : list click) :
  let w0 := desktop_start now o d f in
  let w := presses cs w0 in
  length (all_records (records_app w)) + Nat.b2n (btn_save (screening w))
  <= length (all_records (records_app w0)) + analyses (records_app w).
Proof.
  intros w0 w.
  destruct (presses_effect cs w0 (page_inv_start now))
    as (_ & new & ds & V & D & _ & _ & L).
  fold w in V, D, L. unfold analyses. rewrite V, D, length_app.
  unfold w0, desktop_start in *. cbn [records_app] in *.
  rewrite new_app_quiet. simpl in *. lia.
Qed.

(** X15.  "Clear" (like "Back") resets the result labels but leaves "Save
    Screening" enabled: after an analysis, clearing the image and saving
    stores a record whose result and confidence are the placeholder dash,
    with no image loaded. *)
Theorem clear_leaves_save_enabled (o : io) (now : QDate) (w : Desktop) :
  current_index (screening w) = 1 ->
  btn_save (screening w) = true ->
  is_empty (strip (p_name (form (screening w)))) = false ->
  let w1 := press ClearImage w in
  let w2 := press (SaveScreening o now) w1 in
  btn_save (screening w1) = true
  /\ current_image (screening w1) = None
  /\ exists r,
       all_records (records_app w2) = all_records (records_app w) ++ [r]
       /\ nth_error r 12 = Some (PStr placeholder)
       /\ nth_error r 13 = Some (PStr placeholder).
Proof.
  intros Hi Hs Hn w1 w2.
  assert (H1 : w1 = on_screening clear_image w).
  { unfold w1, press. simpl. now rewrite Hi. }
  split; [rewrite H1; exact Hs|]. split; [rewrite H1; reflexivity|].
  exists (patient_data_of (form (screening w1))).
  split; [|rewrite H1; split; reflexivity].
  unfold w2, press. rewrite H1. simpl. rewrite Hi, Hs. simpl.
  unfold save_and_reset. simpl. rewrite Hn. simpl.
  rewrite save_screening_state. unfold handed_over. simpl. rewrite Hn.
  cbn [all_records set_dialogs]. now rewrite add_patient_record_view.
Qed.

Lemma clear_leaves_save_enabled_witness :
  let day := {| year := 2025; month := 6; day := 30 |} in
  let w := presses [EditName "Jane Doe";
                    EditDob day {| year := 2004; month := 7; day := 1 |};
                    Proceed; Upload "fundus.png"; Analyze]
             (desktop_start day io_ok Sample.empty_db []) in
  btn_save (screening (press ClearImage w)) = true
  /\ current_image (screening (press ClearImage w)) = None.
Proof.
  pose proof (clear_leaves_save_enabled io_ok
                {| year := 2025; month := 6; day := 30 |}
                (presses [EditName "Jane Doe";
                          EditDob {| year := 2025; month := 6; day := 30 |}
                                  {| year := 2004; month := 7; day := 1 |};
                          Proceed; Upload "fundus.png"; Analyze]
                   (desktop_start {| year := 2025; month := 6; day := 30 |}
                                  io_ok Sample.empty_db []))
                eq_refl eq_refl eq_refl) as (H1 & H2 & _).
  split; assumption.
Defined.

(** *** Patient ids *)

Lemma digits_have_no_dash (s : string) :
  all_digits s = true -> has_dash s = false.
Proof.
  induction s as [|c s IH]; [reflexivity|]. simpl. intros H.
  apply andb_prop in H. destruct H as [Hc Hs]. rewrite (IH Hs), orb_false_r.
  destruct (Ascii.eqb_spec c "-") as [->|_]; [discriminate Hc|reflexivity].
Qed.

Lemma zeros_digits (k : nat) (s : string) :
  all_digits s = true ->
  all_digits (string_of_list_ascii (repeat "0"%char k) ++ s)%string = true.
Proof. intros H. induction k as [|k IH]; simpl; [exact H|exact IH]. Qed.

Lemma format_04d_digits (c : Z) :
  (0 <= c)%Z -> all_digits (format_04d c) = true.
Proof.
  intros H. unfold format_04d. destruct (Z.ltb_spec c 0); [lia|].
  unfold zero_padded. apply zeros_digits. now apply str_of_int_digits.
Qed.

Lemma after_last_dash_app (p t : string) :
  has_dash t = false -> after_last_dash (p ++ String "-" t)%string = t.
Proof.
  intros H. induction p as [|c p IH]; simpl.
  - now rewrite H.
  - assert (Hd : has_dash (p ++ String "-" t)%string = true).
    { clear IH. induction p as [|x p IHp]; simpl; [reflexivity|].
      rewrite IHp. apply orb_true_r. }
    now rewrite Hd.
Qed.

Lemma read_zeros (k : nat) (s : string) (u : Decimal.uint) :
  NilEmpty.uint_of_string s = Some u ->
  exists u', NilEmpty.uint_of_string
               (string_of_list_ascii (repeat "0"%char k) ++ s)%string = Some u'
             /\ Z.of_uint u' = Z.of_uint u.
Proof.
  intros H. induction k as [|k (u' & Hu & Hz)]; simpl.
  - exists u. split; [exact H|reflexivity].
  - rewrite Hu. exists (Decimal.D0 u'). split; [reflexivity|exact Hz].
Qed.

Lemma read_str_of_int (c : Z) :
  (0 <= c)%Z ->
  exists u, NilEmpty.uint_of_string (str_of_int c) = Some u /\ Z.of_uint u = c.
Proof.
  intros H. unfold str_of_int. destruct c as [|p|p]; [| |lia].
  - exists (Decimal.D0 Decimal.Nil). split; reflexivity.
  - simpl. exists (Pos.to_uint p). split.
    + unfold NilZero.string_of_uint.
      destruct (Pos.to_uint p) eqn:E; try (rewrite <- E; apply NilEmpty.usu).
      pose proof (DecimalPos.Unsigned.of_to p) as Hp. rewrite E in Hp.
      discriminate Hp.
    + unfold Z.of_uint. now rewrite DecimalPos.Unsigned.of_to.
Qed.

(** The counter can be read back from an id. *)
Lemma id_counter_of_id (now : QDate) (c : Z) :
  (0 <= c)%Z -> id_counter (patient_id_text now c) = Some c.
Proof.
  intros H. unfold id_counter, patient_id_text.
  replace ("ES-" ++ strftime_Ymd now ++ "-" ++ format_04d c)%string
    with (("ES-" ++ strftime_Ymd now) ++ String "-" (format_04d c))%string
    by (now rewrite append_assoc).
  rewrite after_last_dash_app
    by (apply digits_have_no_dash; now apply format_04d_digits).
  unfold format_04d. destruct (Z.ltb_spec c 0); [lia|]. unfold zero_padded.
  destruct (read_str_of_int c H) as (u & Hu & Hz).
  destruct (read_zeros (4 - String.length (str_of_int c)) _ u Hu)
    as (u' & Hu' & Hz').
  rewrite Hu'. simpl. now rewrite Hz', Hz.
Qed.

Lemma edit_form_id (c : click) (f : Form) : p_id (edit_form c f) = p_id f.
Proof.
  destruct c; try reflexivity. simpl. unfold edit_dob.
  destruct (QDate_eqb _ (p_dob f)); [reflexivity|].
  unfold pick_dob, update_age_from_dob.
  destruct (QDate_eqb _ minimumDate); reflexivity.
Qed.

Lemma ids_between_weaken (lo lo' hi hi' : Z) (rs : list Row) :
  (lo' <= lo)%Z -> (hi <= hi')%Z ->
  ids_between lo hi rs -> ids_between lo' hi' rs.
Proof.
  intros Hl Hh H. eapply Forall_impl; [|exact H].
  intros r (c & Hc & Hlt). exists c. split; [exact Hc|lia].
Qed.

Lemma ids_step_refl (w : Desktop) :
  id_counter (p_id (form (screening w))) = Some (patient_counter (screening w)) ->
  ids_step w w.
Proof.
  intros H. exists []. rewrite app_nil_r.
  repeat split; try constructor; try lia. exact H.
Qed.

Lemma ids_step_box (title text : string) (w : Desktop) :
  id_counter (p_id (form (screening w))) = Some (patient_counter (screening w)) ->
  ids_step w (on_app (message_box title text) w).
Proof.
  intros H. exists []. simpl. rewrite app_nil_r.
  repeat split; try constructor; try lia. exact H.
Qed.

(** The page changes with the id and the counter kept, or through
    [reset_screening]. *)
Lemma ids_step_page (h : ScreeningPage -> ScreeningPage) (w : Desktop) :
  (0 <= patient_counter (screening w))%Z ->
  id_counter (p_id (form (screening w))) = Some (patient_counter (screening w)) ->
  (patient_counter (h (screening w)) = patient_counter (screening w)
   /\ p_id (form (h (screening w))) = p_id (form (screening w)))
  \/ (exists now, h (screening w) = reset_screening now (screening w)) ->
  ids_step w (on_screening h w).
Proof.
  intros H0 Hid [[Hc Hp]|[now Hr]]; exists []; simpl; rewrite app_nil_r.
  - rewrite Hc, Hp. repeat split; try constructor; try lia. exact Hid.
  - rewrite Hr. simpl. repeat split; try constructor; try lia.
    apply id_counter_of_id. lia.
Qed.

Lemma press_ids (c : click) (w : Desktop) :
  (0 <= patient_counter (screening w))%Z ->
  id_counter (p_id (form (screening w))) = Some (patient_counter (screening w)) ->
  ids_step w (press c w).
Proof.
  intros H0 Hid. unfold press.
  destruct (available c (screening w)); [|now apply ids_step_refl].
  destruct c;
    try (apply ids_step_page; [exact H0|exact Hid|left; split;
           [reflexivity|apply edit_form_id]]).
  - (* Proceed *)
    simpl. unfold validate_and_proceed.
    destruct (is_empty _); [now apply ids_step_box|].
    destruct (QDate_eqb _ _); [now apply ids_step_box|].
    apply ids_step_page; [exact H0|exact Hid|left; split; reflexivity].
  - (* Cancel *)
    simpl. unfold cancel_screening. destruct yes; [|now apply ids_step_refl].
    apply ids_step_page; [exact H0|exact Hid|right; now exists now].
  - (* Upload *)
    simpl. apply ids_step_page; [exact H0|exact Hid|left].
    unfold upload_image. destruct (is_empty path); split; reflexivity.
  - (* ClearImage *)
    simpl. apply ids_step_page; [exact H0|exact Hid|left; split; reflexivity].
  - (* Analyze *)
    simpl. unfold analyze_image.
    destruct (no_image (screening w)); [now apply ids_step_box|].
    exists []. simpl. rewrite app_nil_r.
    repeat split; try constructor; try lia. exact Hid.
  - (* SaveScreening *)
    simpl. unfold save_and_reset.
    destruct (is_empty (strip (p_name (form (screening w))))) eqn:En.
    + exists []. simpl. rewrite save_screening_state. unfold handed_over.
      rewrite En. simpl. rewrite app_nil_r.
      repeat split; try constructor; try lia. exact Hid.
    + exists [patient_data_of (form (screening w))]. simpl.
      rewrite save_screening_state. unfold handed_over. rewrite En.
      cbn [all_records set_dialogs]. rewrite add_patient_record_view.
      split; [reflexivity|]. split; [repeat constructor; intros []|].
      split.
      { constructor; [|constructor].
        exists (patient_counter (screening w)). split; [exact Hid|lia]. }
      split; [lia|]. apply id_counter_of_id. lia.
  - (* Back *)
    simpl. unfold go_back_to_patient_info.
    destruct yes; [|now apply ids_step_refl].
    apply ids_step_page; [exact H0|exact Hid|left; split; reflexivity].
  - (* NewPatient *)
    simpl. apply ids_step_page; [exact H0|exact Hid|right; now exists now].
Qed.

Lemma ids_step_trans (w1 w2 w3 : Desktop) :
  ids_step w1 w2 -> ids_step w2 w3 -> ids_step w1 w3.
Proof.
  intros (n1 & V1 & N1 & B1 & C1 & I1) (n2 & V2 & N2 & B2 & C2 & I2).
  exists (n1 ++ n2). rewrite V2, V1, <- app_assoc.
  split; [reflexivity|]. split.
  - rewrite map_app. apply NoDup_app; [exact N1|exact N2|].
    intros id H1 H2.
    apply in_map_iff in H1. destruct H1 as (r1 & E1 & Hr1).
    apply in_map_iff in H2. destruct H2 as (r2 & E2 & Hr2).
    unfold ids_between in B1, B2. rewrite Forall_forall in B1, B2.
    destruct (B1 r1 Hr1) as (c1 & Hc1 & Hlt1).
    destruct (B2 r2 Hr2) as (c2 & Hc2 & Hlt2).
    rewrite E1 in Hc1. rewrite E2 in Hc2. rewrite Hc1 in Hc2.
    injection Hc2 as ->. lia.
  - split; [|split; [lia|exact I2]].
    apply Forall_app. split.
    + apply ids_between_weaken with (lo := patient_counter (screening w1))
                                     (hi := patient_counter (screening w2));
        [lia|lia|exact B1].
    + apply ids_between_weaken with (lo := patient_counter (screening w2))
                                     (hi := patient_counter (screening w3));
        [lia|lia|exact B2].
Qed.

Lemma presses_ids (cs : list click) (w : Desktop) :
  (0 <= patient_counter (screening w))%Z ->
  id_counter (p_id (form (screening w))) = Some (patient_counter (screening w)) ->
  ids_step w (presses cs w).
Proof.
  revert w; induction cs as [|c cs IH]; intros w H0 Hid.
  - now apply ids_step_refl.
  - simpl. pose proof (press_ids c w H0 Hid) as H1.
    apply ids_step_trans with (w2 := press c w); [exact H1|].
    destruct H1 as (_ & _ & _ & _ & C & I). apply IH; [lia|exact I].
Qed.

(** X16.  The patient ids of the records saved in one run of the
    application are pairwise different, whatever the dates on which they
    were generated: every id ends in the page's counter, which can be read
    back from the id and goes up by one with every reset of the form.  The
    counter starts again at 1 in every process, so the first id of a
    process is [ES-<date>-0001] whatever ids the storage already holds. *)
Theorem patient_ids_differ_within_a_run (now : QDate) (o : io) (d : Database)
    (f : list (string * string)) (cs : list click) :
  let w0 := desktop_start now o d f in
  (exists new,
     all_records (records_app (presses cs w0))
     = all_records (records_app w0) ++ new
     /\ NoDup (map patient_id_of new))
  /\ (forall day c, (0 <= c)%Z -> id_counter (patient_id_text day c) = Some c)
  /\ p_id (form (screening w0)) = patient_id_text now 1.
Proof.
  intros w0. split; [|split; [exact id_counter_of_id|reflexivity]].
  destruct (presses_ids cs w0) as (new & V & N & _).
  - simpl. lia.
  - apply (id_counter_of_id now 1). lia.
  - exists new. split; assumption.
Qed.

(* ================================================================== *)
(** ** The details dialog *)
(* ================================================================== *)

Lemma fold_left_appends {A} (g : A -> string) (l : list A) (acc : string) :
  fold_left (fun d x => (d ++ g x)%string) l acc
  = (acc ++ fold_right (fun x rest => (g x ++ rest)%string) "" l)%string.
Proof.
  revert acc; induction l as [|x l IH]; intros acc; simpl.
  - now rewrite append_nil_r.
  - rewrite IH. now rewrite append_assoc.
Qed.

(** X17.  A double click on row [row] of the table after a search shows
    the record of the view that is the [row]-th match of the search: for a
    record of fourteen fields, one line per column with the column label
    and the [str] of the field, in column order (the text is put into the
    HTML as it is). *)
Theorem details_show_the_matching_record (text : string) (row : nat)
    (a : App) (r : Row) :
  nth_error (shown text (all_records a)) row = Some r ->
  length r = n_columns ->
  show_details_dialog (Z.of_nat row) (exec (filter_table text) a)
  = details_of (map str r).
Proof.
  intros Hrow Hlen. unfold show_details_dialog, exec.
  rewrite filter_table_run. simpl snd. rewrite refreshed_table.
  unfold details_html.
  assert (Hcell : forall i,
            table_item (map table_cells (shown text (all_records a)))
                       (Z.of_nat row) i
            = nth_error (table_cells r) i).
  { intros i. now rewrite table_item_row, Hrow. }
  do 15 (destruct r as [|? r]; try discriminate Hlen).
  rewrite (fold_left_appends
             (fun i => details_line (nth i header_labels "")
                         (text_or_empty
                            (table_item
                               (map table_cells (shown text (all_records a)))
                               (Z.of_nat row) i)))).
  unfold n_columns. simpl seq. cbn [fold_right]. rewrite !Hcell.
  reflexivity.
Qed.

Lemma details_show_the_matching_record_witness :
  show_details_dialog 0 (exec (filter_table "john") Sample.two_records)
  = details_of (map str Sample.john).
Proof.
  exact (details_show_the_matching_record "john" 0 Sample.two_records
           Sample.john eq_refl eq_refl).
Defined.

(* ================================================================== *)
(** ** The users page *)
(* ================================================================== *)

Section UsersProperties.

Import Users.
Context {Store : Type} {UM : UserManager Store}.

(** X18.  On such input the store of accounts, the user table, the
    activity log and the two line edits are left untouched; at most a
    warning box is shown.  The username is checked after stripping, so a
    username of blanks counts as missing; the password is checked as
    typed. *)
Theorem refused_input_changes_nothing (c : admin_click) (s : UsersPage Store) :
  refused_input c s = true ->
  accounts (admin_press c s) = accounts s
  /\ table (admin_press c s) = table s
  /\ activity_log (admin_press c s) = activity_log s
  /\ username_input (admin_press c s) = username_input s
  /\ password_input (admin_press c s) = password_input s
  /\ (boxes (admin_press c s) = boxes s
      \/ exists title text,
           boxes (admin_press c s) = boxes s ++ [(title, text)]
           /\ (title = "Missing" \/ title = "Select")).
Proof.
  destruct c as [t|t|role stamp|row confirm stamp|row new_role stamp
                 |row new_pw ok stamp]; simpl; try discriminate.
  - intros H. unfold add_user. rewrite H. simpl.
    repeat split. right. eauto.
  - intros H. unfold delete_user_click.
    destruct (row <? 0)%Z; simpl in *.
    + repeat split. right. eauto.
    + rewrite H. destruct (row_items row s) as [[u r]|]; repeat split; auto.
  - intros H. unfold update_role. rewrite H. simpl.
    repeat split. right. eauto.
  - intros H. unfold reset_password.
    destruct (row <? 0)%Z; simpl in *.
    + repeat split. right. eauto.
    + rewrite H. destruct (row_items row s) as [[u r]|]; repeat split; auto.
Qed.

Lemma table_after_press (c : admin_click) (s : UsersPage Store) :
  quiet_refusals ->
  table s = get_all_users (accounts s) ->
  table (admin_press c s) = get_all_users (accounts (admin_press c s)).
Proof.
  intros (Qc & Qd & Qu) H.
  destruct c as [t|t|role stamp|row confirm stamp|row new_role stamp
                 |row new_pw ok stamp]; simpl; try exact H.
  - unfold add_user. destruct (_ || _); [exact H|].
    pose proof (Qc (strip (username_input s)) (password_input s) role
                   (accounts s)) as Q.
    destruct (create_user _ _ _ _) as [[] st]; simpl in *; [reflexivity|].
    now rewrite Q.
  - unfold delete_user_click. destruct (row <? 0)%Z; [exact H|].
    destruct (row_items row s) as [[u r]|]; [|exact H].
    destruct (negb confirm); [exact H|].
    pose proof (Qd u (accounts s)) as Q.
    destruct (delete_user _ _) as [[] st]; simpl in *; [reflexivity|].
    now rewrite Q.
  - unfold update_role. destruct (row <? 0)%Z; [exact H|].
    destruct (row_items row s) as [[u r]|]; [|exact H].
    pose proof (Qu u new_role (accounts s)) as Q.
    destruct (update_user_role _ _ _) as [[] st]; simpl in *; [reflexivity|].
    now rewrite Q.
  - unfold reset_password. destruct (row <? 0)%Z; [exact H|].
    destruct (row_items row s) as [[u r]|]; [|exact H].
    destruct (_ || _); [exact H|reflexivity].
Qed.

Lemma log_after_press (c : admin_click) (s : UsersPage Store) :
  exists added, activity_log (admin_press c s) = activity_log s ++ added
                /\ length added <= 1.
Proof.
  assert (Zero : forall s' : UsersPage Store,
            activity_log s' = activity_log s ->
            exists added, activity_log s' = activity_log s ++ added
                          /\ length added <= 1).
  { intros s' E. exists []. rewrite app_nil_r. split; [exact E|simpl; lia]. }
  destruct c as [t|t|role stamp|row confirm stamp|row new_role stamp
                 |row new_pw ok stamp]; simpl; try (now apply Zero).
  - unfold add_user. destruct (_ || _); [now apply Zero|].
    destruct (create_user _ _ _ _) as [[] st]; [|now apply Zero].
    eexists. split; [reflexivity|simpl; lia].
  - unfold delete_user_click. destruct (row <? 0)%Z; [now apply Zero|].
    destruct (row_items row s) as [[u r]|]; [|now apply Zero].
    destruct (negb confirm); [now apply Zero|].
    destruct (delete_user _ _) as [[] st]; [|now apply Zero].
    eexists. split; [reflexivity|simpl; lia].
  - unfold update_role. destruct (row <? 0)%Z; [now apply Zero|].
    destruct (row_items row s) as [[u r]|]; [|now apply Zero].
    destruct (update_user_role _ _ _) as [[] st]; [|now apply Zero].
    eexists. split; [reflexivity|simpl; lia].
  - unfold reset_password. destruct (row <? 0)%Z; [now apply Zero|].
    destruct (row_items row s) as [[u r]|]; [|now apply Zero].
    destruct (_ || _); [now apply Zero|].
    eexists. split; [reflexivity|simpl; lia].
Qed.


(** X20.  The activity log only grows: over any clicks its earlier rows
    stay as they are, and each click adds at most one row. *)
Theorem activity_log_only_grows (cs : list admin_click) (s : UsersPage Store) :
  exists added,
    activity_log (admin_presses cs s) = activity_log s ++ added
    /\ length added <= length cs.
Proof.
  revert s; induction cs as [|c cs IH]; intros s; simpl.
  - exists []. rewrite app_nil_r. split; [reflexivity|simpl; lia].
  - destruct (log_after_press c s) as (a1 & E1 & L1).
    destruct (IH (admin_press c s)) as (a2 & E2 & L2).
    exists (a1 ++ a2). unfold admin_presses in *. rewrite E2, E1, <- app_assoc.
    split; [reflexivity|]. rewrite length_app. lia.
Qed.

End UsersProperties.

Section UsersOnAList.

Import Users.

Lemma list_manager_quiet : @quiet_refusals _ ListManager.
Proof.
  unfold quiet_refusals. simpl. repeat split; intros;
    destruct (has_user _ _); simpl in *; try discriminate; reflexivity.
Qed.

Lemma refused_input_changes_nothing_witness :
  let s := new_users_page [("ana", "secret", "admin")] in
  accounts (admin_press (AddUser "viewer" "2025-06-30 10:00:00")
                    (admin_press (TypeUsername "   ") s))
  = accounts s.
Proof.
  pose proof (refused_input_changes_nothing
                (AddUser "viewer" "2025-06-30 10:00:00")
                (admin_press (TypeUsername "   ")
                   (new_users_page [("ana", "secret", "admin")]))
                eq_refl) as (H & _).
  exact H.
Defined.


End UsersOnAList.
